(** * SP_TO_TXT: the background batch-processing engine

    A shallow embedding of [src/file_queue_processor.py] (class
    [FileQueueProcessor]) and [src/fast_whisper_service.py] (class
    [FastWhisperService]), and the properties of the engine proved on it.
    The helpers of [src/transformer.py] and the request handlers of
    [src/app.py] are embedded over the same engine further down.

    Conventions of the embedding.
    - A Python method is a function in the monad [Py]: it takes the whole
      program state [Sys] and either returns a value with the new state,
      raises an exception with the new state, or never returns.
    - Everything outside the two classes (clock, file system, the audio
      converter, the faster-whisper library) is a field of [Platform]: the
      development is parametric in it.
    - Python [str] values are [string]s; a character stands for a code point
      below 256.  Python [int] is [Z], Python [float] is the binary64
      [float] of the kernel.
    - Calls of methods and passes of the worker loop do not overlap: each
      runs as a whole from the state the previous one left.  Locks are
      therefore free whenever they are taken, and [join] only waits.
    - Console output ([print]) is not modelled.
    - [os.path] is [posixpath]. *)

From Stdlib Require Import ZArith Floats Ascii String Bool.
From stdpp Require Import gmap strings list.

Local Open Scope string_scope.
Local Open Scope Z_scope.

(** ** Python strings *)

Module PyStr.

(** Code point of a character. *)
Definition ord (c : ascii) : N := N_of_ascii c.

(** [str.isspace] on one code point below 256: TAB..CR, FS..US, SPACE,
    NEL (0x85) and NBSP (0xA0). *)
Definition isspace (c : ascii) : bool :=
  let n := ord c in
  ((9 <=? n) && (n <=? 13) || (28 <=? n) && (n <=? 32)
   || (n =? 133) || (n =? 160))%N.

(** [str.lower] on one code point below 256: A..Z and the Latin-1
    capitals 0xC0..0xDE (but not the multiplication sign 0xD7) move up
    by 32. *)
Definition lower_char (c : ascii) : ascii :=
  let n := ord c in
  if ((65 <=? n) && (n <=? 90)
      || (192 <=? n) && (n <=? 222) && negb (n =? 215))%N
  then ascii_of_N (n + 32) else c.

Fixpoint lower (s : string) : string :=
  match s with
  | EmptyString => EmptyString
  | String c r => String (lower_char c) (lower r)
  end.

Fixpoint lstrip (s : string) : string :=
  match s with
  | EmptyString => EmptyString
  | String c r => if isspace c then lstrip r else s
  end.

Fixpoint rstrip (s : string) : string :=
  match s with
  | EmptyString => EmptyString
  | String c r =>
      match rstrip r with
      | EmptyString => if isspace c then EmptyString else String c EmptyString
      | r' => String c r'
      end
  end.

(** [s.strip()] *)
Definition strip (s : string) : string := lstrip (rstrip s).

(** [s.rfind(c)] for a one-character [c]: the highest index of [c], or -1. *)
Fixpoint rfind (c : ascii) (s : string) : Z :=
  match s with
  | EmptyString => -1
  | String d r =>
      let i := rfind c r in
      if 0 <=? i then i + 1 else if Ascii.eqb d c then 0 else -1
  end.

(** [s[:n]] and [s[n:]] for a natural [n]. *)
Fixpoint take (n : nat) (s : string) : string :=
  match n, s with
  | O, _ => EmptyString
  | S _, EmptyString => EmptyString
  | S k, String c r => String c (take k r)
  end.

Fixpoint drop (n : nat) (s : string) : string :=
  match n, s with
  | O, _ => s
  | S _, EmptyString => EmptyString
  | S k, String _ r => drop k r
  end.

(** [s[i]] as an option. *)
Definition at_index (n : nat) (s : string) : option ascii := String.get n s.

Definition startswith (c : ascii) (s : string) : bool :=
  match s with
  | String d _ => Ascii.eqb d c
  | EmptyString => false
  end.

Fixpoint endswith (c : ascii) (s : string) : bool :=
  match s with
  | EmptyString => false
  | String d EmptyString => Ascii.eqb d c
  | String _ r => endswith c r
  end.

(** ["=" * n] *)
Fixpoint repeat (c : ascii) (n : nat) : string :=
  match n with
  | O => EmptyString
  | S k => String c (repeat c k)
  end.

(** [s.split(c)] for a one-character separator. *)
Fixpoint split (c : ascii) (s : string) : list string :=
  match s with
  | EmptyString => [EmptyString]
  | String d r =>
      if Ascii.eqb d c then EmptyString :: split c r
      else match split c r with
           | [] => [String d EmptyString]
           | w :: ws => String d w :: ws
           end
  end.

(** Truth value of a [str]: the empty string is false. *)
Definition truthy (s : string) : bool :=
  match s with EmptyString => false | _ => true end.

End PyStr.

(** ** [posixpath] and [pathlib] *)

Module PosixPath.
Import PyStr.

Definition sep : ascii := "/"%char.
Definition extsep : ascii := "."%char.

(** [os.path.basename(p)]: [i = p.rfind('/') + 1; return p[i:]]. *)
Definition basename (p : string) : string :=
  drop (Z.to_nat (rfind sep p + 1)) p.

(** The [while] loop of [genericpath._splitext]: is there a character
    other than a dot at an index in [[i, i + n)]? *)
Fixpoint has_non_dot (p : string) (i : nat) (n : nat) : bool :=
  match n with
  | O => false
  | S k =>
      match at_index i p with
      | Some c => if Ascii.eqb c extsep then has_non_dot p (S i) k else true
      | None => true
      end
  end.

(** [os.path.splitext(p)]. *)
Definition splitext (p : string) : string * string :=
  let sepIndex := rfind sep p in
  let dotIndex := rfind extsep p in
  if (sepIndex <? dotIndex)
     && has_non_dot p (Z.to_nat (sepIndex + 1))
                    (Z.to_nat (dotIndex - (sepIndex + 1)))
  then (take (Z.to_nat dotIndex) p, drop (Z.to_nat dotIndex) p)
  else (p, EmptyString).

(** [os.path.join(a, b)]. *)
Definition join (a b : string) : string :=
  if startswith sep b then b
  else if negb (truthy a) || endswith sep a then a ++ b
  else a ++ String sep b.

(** [PurePosixPath(p).name]: the last component that is neither empty
    nor a single dot. *)
Definition path_name (p : string) : string :=
  List.last
    (List.filter (fun c => negb (String.eqb c "" || String.eqb c "."))
                 (split sep p))
    "".

(** [PurePosixPath(p).suffix]:
    [i = name.rfind('.'); name[i:] if 0 < i < len(name) - 1 else '']. *)
Definition suffix (p : string) : string :=
  let name := path_name p in
  let i := rfind extsep name in
  if (0 <? i) && (i <? Z.of_nat (String.length name) - 1)
  then drop (Z.to_nat i) name else "".

End PosixPath.

(** The newline character as a string. *)
Definition LF : string := String (ascii_of_nat 10) EmptyString.

(** ** Python values, exceptions and numbers *)

(** The values stored in a work item (a [Dict[str, Any]]). *)
Inductive pyval :=
| PStr (s : string)
| PFloat (x : float)
| PInt (n : Z)
| PNone.

(** A work item: the dictionary put on the queue. *)
Abbreviation Item := (gmap string pyval).

(** An exception object: its class and [str(e)].  Only subclasses of
    [Exception] are modelled (what [except Exception] catches). *)
Record exn := mkExn { exn_class : string; exn_msg : string }.

Definition ValueError (msg : string) : exn := mkExn "ValueError" msg.
Definition KeyError (key : string) : exn := mkExn "KeyError" ("'" ++ key ++ "'").
Definition TypeError (msg : string) : exn := mkExn "TypeError" msg.
Definition AttributeError (msg : string) : exn := mkExn "AttributeError" msg.
Definition OverflowError (msg : string) : exn := mkExn "OverflowError" msg.
Definition ZeroDivisionError (msg : string) : exn := mkExn "ZeroDivisionError" msg.

(** [str(e)] *)
Definition str_of_exn (e : exn) : string := exn_msg e.

(** Conversion of an [int] to a [float] ([PyLong_AsDouble]): round to
    nearest even; [OverflowError] when the result is not finite. *)
Definition int_to_float (n : Z) : exn + float :=
  let f := SF2Prim (binary_normalize prec emax n 0 false) in
  if PrimFloat.is_infinity f
  then inl (OverflowError "int too large to convert to float")
  else inr f.

(** [x / n] for a float [x] and an int [n]. *)
Definition float_div_int (x : float) (n : Z) : exn + float :=
  match int_to_float n with
  | inl e => inl e
  | inr d =>
      if n =? 0 then inl (ZeroDivisionError "float division by zero")
      else inr (x / d)%float
  end.

(** ** The platform: what the engine calls and does not define *)

(** [World] is everything outside the process (clock, file system, codecs,
    model files); [Model] is a loaded [faster_whisper.WhisperModel].  A call
    that can fail returns an exception or a value, and the world after it. *)
Record Platform (World Model : Type) := mkPlatform {
  (** [time.time()] *)
  time_time : World -> float * World;
  (** [datetime.now().strftime('%Y-%m-%d %H:%M:%S')] *)
  now_strftime : World -> string;
  (** [os.getenv(name)] *)
  os_getenv : string -> World -> option string;
  (** [os.path.exists(path)] *)
  os_path_exists : string -> World -> bool;
  (** [os.makedirs(path, exist_ok=True)] *)
  os_makedirs : string -> World -> (exn + unit) * World;
  (** [list(os.walk(top))]: the triples [(root, dirs, files)] *)
  os_walk : string -> World -> list (string * list string * list string);
  (** [with open(path, 'w', encoding='utf-8') as f: f.write(text)] *)
  write_text : string -> string -> World -> (exn + unit) * World;
  (** [converters.audio_converter.convert_to_wav(path)]: a path, or [None] *)
  convert_to_wav : string -> World -> (exn + option string) * World;
  (** whether [from faster_whisper import WhisperModel] succeeded *)
  FASTER_WHISPER_AVAILABLE : bool;
  (** [WhisperModel(model_size, device=device, compute_type=compute_type)] *)
  WhisperModel : string -> string -> string -> World -> (exn + Model) * World;
  (** [model.transcribe(path, language=..., beam_size=1, ...)] and the
      iteration over the segments it yields: the [text] of every segment,
      in order, or the exception raised by the call or during iteration *)
  model_transcribe :
    Model -> string -> option string -> World -> (exn + list string) * World;
}.

Arguments time_time {World Model}.
Arguments now_strftime {World Model}.
Arguments os_getenv {World Model}.
Arguments os_path_exists {World Model}.
Arguments os_makedirs {World Model}.
Arguments os_walk {World Model}.
Arguments write_text {World Model}.
Arguments convert_to_wav {World Model}.
Arguments FASTER_WHISPER_AVAILABLE {World Model}.
Arguments WhisperModel {World Model}.
Arguments model_transcribe {World Model}.

(** ** Program state *)

(** [FastWhisperService.stats] *)
Record WhisperStats := mkWhisperStats {
  ws_total_processed : Z;
  ws_total_time : float;
  ws_errors : Z;
  ws_average_time : float;
}.

(** The singleton [FastWhisperService] object. *)
Record FastWhisperService (Model : Type) := mkService {
  model : option Model;
  model_size : string;
  compute_type : string;
  device : string;
  _loading : bool;
  ws_stats : WhisperStats;
}.

Arguments mkService {Model}.
Arguments model {Model}.
Arguments model_size {Model}.
Arguments compute_type {Model}.
Arguments device {Model}.
Arguments _loading {Model}.
Arguments ws_stats {Model}.

(** [queue.Queue()]: the items in arrival order and the count of tasks put
    and not yet marked done. *)
Record Queue := mkQueue {
  q_items : list (gmap string pyval);
  unfinished_tasks : Z;
}.

(** [FileQueueProcessor.stats] *)
Record Stats := mkStats {
  total_processed : Z;
  successful_processed : Z;
  failed_processed : Z;
  total_time : float;
  current_file : option string;
  queue_size : Z;
}.

(** A [FileQueueProcessor] object.  [processing_thread] is the number of
    the thread object last created by [start], if any. *)
Record FileQueueProcessor := mkProcessor {
  queue : Queue;
  processing_thread : option nat;
  is_running : bool;
  stats : Stats;
  supported_extensions : list string;
  default_source_dir : string;
  default_output_dir : string;
}.

(** The whole program state: the world, the module-level [whisper_service],
    the processor object, and how many threads were created so far. *)
Record Sys (World Model : Type) := mkSys {
  env : World;
  whisper_service : FastWhisperService Model;
  file_queue_processor : FileQueueProcessor;
  threads_created : nat;
}.

Arguments mkSys {World Model}.
Arguments env {World Model}.
Arguments whisper_service {World Model}.
Arguments file_queue_processor {World Model}.
Arguments threads_created {World Model}.

(** ** The monad of Python code *)

(** What running a piece of code from a state gives: a value, a raised
    exception, or no return at all. *)
Inductive outcome (S A : Type) :=
| Ret (a : A) (s : S)
| Raise (e : exn) (s : S)
| Hang.

Arguments Ret {S A}.
Arguments Raise {S A}.
Arguments Hang {S A}.

Definition Py (S A : Type) : Type := S -> outcome S A.

Definition ret {S A} (a : A) : Py S A := fun s => Ret a s.

Definition bind {S A B} (m : Py S A) (k : A -> Py S B) : Py S B :=
  fun s =>
    match m s with
    | Ret a s' => k a s'
    | Raise e s' => Raise e s'
    | Hang => Hang
    end.

Definition raise {S A} (e : exn) : Py S A := fun s => Raise e s.

Definition hang {S A} : Py S A := fun _ => Hang.

(** [try: m  except Exception as e: h e] *)
Definition try_except {S A} (m : Py S A) (h : exn -> Py S A) : Py S A :=
  fun s =>
    match m s with
    | Raise e s' => h e s'
    | o => o
    end.

(** [try: m  finally: f] *)
Definition try_finally {S A} (m : Py S A) (f : Py S unit) : Py S A :=
  fun s =>
    match m s with
    | Ret a s' => bind f (fun _ => ret a) s'
    | Raise e s' => bind f (fun _ => raise e) s'
    | Hang => Hang
    end.

Definition get_state {S} : Py S S := fun s => Ret s s.
Definition modify {S} (f : S -> S) : Py S unit := fun s => Ret tt (f s).

Notation "'let*' x ':=' m 'in' k" := (bind m (fun x => k))
  (at level 10, x name, m at level 100, k at level 200).
Notation "'let*' ' p ':=' m 'in' k" :=
  (bind m (fun x => match x with p => k end))
  (at level 10, p pattern, m at level 100, k at level 200).
Notation "m ';;' k" := (bind m (fun _ => k))
  (at level 100, k at level 200, right associativity).

(** ** The engine *)

Section Engine.

Context {World Model : Type}.
Variable P : Platform World Model.

Abbreviation Sys := (Sys World Model).
Abbreviation Py := (Py Sys).

(** *** Calls into the platform *)

Definition set_env (w : World) (s : Sys) : Sys :=
  mkSys w (whisper_service s) (file_queue_processor s) (threads_created s).

(** A platform call that can raise. *)
Definition call {A} (f : World -> (exn + A) * World) : Py A :=
  fun s =>
    match f (env s) with
    | (inr a, w) => Ret a (set_env w s)
    | (inl e, w) => Raise e (set_env w s)
    end.

(** A platform call that only reads. *)
Definition ask {A} (f : World -> A) : Py A := fun s => Ret (f (env s)) s.

(** [time.time()] *)
Definition now : Py float :=
  fun s => let '(t, w) := time_time P (env s) in Ret t (set_env w s).

(** An [exn + A] computed without touching the state. *)
Definition lift_result {A} (r : exn + A) : Py A :=
  match r with inl e => raise e | inr a => ret a end.

(** *** [fast_whisper_service.py] *)

Definition set_service (v : FastWhisperService Model) (s : Sys) : Sys :=
  mkSys (env s) v (file_queue_processor s) (threads_created s).

Definition set_model (m : option Model) (v : FastWhisperService Model) :=
  mkService m (model_size v) (compute_type v) (device v) (_loading v)
            (ws_stats v).

Definition set_loading (b : bool) (v : FastWhisperService Model) :=
  mkService (model v) (model_size v) (compute_type v) (device v) b
            (ws_stats v).

Definition set_ws_stats (st : WhisperStats) (v : FastWhisperService Model) :=
  mkService (model v) (model_size v) (compute_type v) (device v)
            (_loading v) st.

Definition service : Py (FastWhisperService Model) :=
  fun s => Ret (whisper_service s) s.

Definition update_service
    (f : FastWhisperService Model -> FastWhisperService Model) : Py unit :=
  modify (fun s => set_service (f (whisper_service s)) s).

(** [FastWhisperService.__init__] *)
Definition FastWhisperService_init : FastWhisperService Model :=
  mkService None "small" "int8" "cpu" false
            (mkWhisperStats 0 0%float 0 0%float).

(** [FastWhisperService._load_model].  The calls of a method do not
    overlap in this model, so [_model_lock] is free on entry; a call that
    finds [_loading] set waits in [while self._loading] for a flag nobody
    clears. *)
Definition _load_model : Py bool :=
  let* v := service in
  match model v with
  | Some _ => ret true
  | None =>
      if negb (FASTER_WHISPER_AVAILABLE P) then ret false
      else
        (* with self._model_lock: *)
        let* v := service in
        match model v with
        | Some _ => ret true
        | None =>
            if _loading v then hang
            else
              update_service (set_loading true);;
              try_finally
                (try_except
                   (let* _ := now in
                    let* m := call (WhisperModel P (model_size v) (device v)
                                                 (compute_type v)) in
                    update_service (set_model (Some m));;
                    let* _ := now in
                    ret true)
                   (fun _ =>
                      update_service (set_model None);;
                      ret false))
                (update_service (set_loading false))
        end
  end.

(** The accumulation loop of [transcribe]:
    [for segment in segments: transcription += segment.text + " "]. *)
Definition collect (texts : list string) : string :=
  fold_left (fun transcription text => transcription ++ text ++ " ")
            texts "".

(** [FastWhisperService.transcribe]: the pair
    [(transcription_text, error_message)]. *)
Definition transcribe (file_path : string) (language : option string)
  : Py (option string * option string) :=
  let* loaded := _load_model in
  if negb loaded then ret (None, Some "Model not available")
  else
    let* start_time := now in
    try_except
      (let* v := service in
       let* m :=
         match model v with
         | Some m => ret m
         | None => raise (AttributeError
             "'NoneType' object has no attribute 'transcribe'")
         end in
       let* texts := call (model_transcribe P m file_path language) in
       let transcription := PyStr.strip (collect texts) in
       let* end_time := now in
       let process_time := (end_time - start_time)%float in
       update_service (fun v =>
         let st := ws_stats v in
         set_ws_stats (mkWhisperStats (ws_total_processed st + 1)
                         (ws_total_time st) (ws_errors st)
                         (ws_average_time st)) v);;
       update_service (fun v =>
         let st := ws_stats v in
         set_ws_stats (mkWhisperStats (ws_total_processed st)
                         (ws_total_time st + process_time)%float
                         (ws_errors st) (ws_average_time st)) v);;
       let* v := service in
       let st := ws_stats v in
       let* avg := lift_result
                     (float_div_int (ws_total_time st)
                                    (ws_total_processed st)) in
       update_service (set_ws_stats
         (mkWhisperStats (ws_total_processed st) (ws_total_time st)
                         (ws_errors st) avg));;
       ret (Some transcription, None))
      (fun e =>
         update_service (fun v =>
           let st := ws_stats v in
           set_ws_stats (mkWhisperStats (ws_total_processed st)
                           (ws_total_time st) (ws_errors st + 1)
                           (ws_average_time st)) v);;
         ret (None, Some (str_of_exn e))).

(** [FastWhisperService.is_ready] *)
Definition is_ready : Py bool :=
  let* v := service in
  match model v with
  | Some _ => ret true
  | None => _load_model
  end.

(** *** [queue.Queue] *)

Definition set_processor (p : FileQueueProcessor) (s : Sys) : Sys :=
  mkSys (env s) (whisper_service s) p (threads_created s).

Definition set_queue (q : Queue) (p : FileQueueProcessor) :=
  mkProcessor q (processing_thread p) (is_running p) (stats p)
              (supported_extensions p) (default_source_dir p)
              (default_output_dir p).

Definition set_stats (st : Stats) (p : FileQueueProcessor) :=
  mkProcessor (queue p) (processing_thread p) (is_running p) st
              (supported_extensions p) (default_source_dir p)
              (default_output_dir p).

Definition set_is_running (b : bool) (p : FileQueueProcessor) :=
  mkProcessor (queue p) (processing_thread p) b (stats p)
              (supported_extensions p) (default_source_dir p)
              (default_output_dir p).

Definition set_processing_thread (t : option nat) (p : FileQueueProcessor) :=
  mkProcessor (queue p) t (is_running p) (stats p)
              (supported_extensions p) (default_source_dir p)
              (default_output_dir p).

Definition self : Py FileQueueProcessor :=
  fun s => Ret (file_queue_processor s) s.

Definition update_self (f : FileQueueProcessor -> FileQueueProcessor)
  : Py unit :=
  modify (fun s => set_processor (f (file_queue_processor s)) s).

Definition update_stats (f : Stats -> Stats) : Py unit :=
  update_self (fun p => set_stats (f (stats p)) p).

(** [self.queue.put(item)] *)
Definition queue_put (item : Item) : Py unit :=
  update_self (fun p =>
    set_queue (mkQueue (q_items (queue p) ++ [item])
                       (unfinished_tasks (queue p) + 1)) p).

(** [queue.Empty] *)
Definition Empty : exn := mkExn "Empty" "".

(** [self.queue.get(timeout=1.0)]: the oldest item; with nothing queued
    (and nobody putting during the wait) [queue.Empty]. *)
Definition queue_get : Py Item :=
  let* p := self in
  match q_items (queue p) with
  | [] => raise Empty
  | item :: rest =>
      update_self (set_queue (mkQueue rest (unfinished_tasks (queue p))));;
      ret item
  end.

(** [self.queue.qsize()] *)
Definition queue_qsize : Py Z :=
  let* p := self in ret (Z.of_nat (length (q_items (queue p)))).

(** [self.queue.task_done()] *)
Definition queue_task_done : Py unit :=
  let* p := self in
  let unfinished := unfinished_tasks (queue p) - 1 in
  if unfinished <? 0
  then raise (ValueError "task_done() called too many times")
  else update_self (set_queue (mkQueue (q_items (queue p)) unfinished)).

(** *** [file_queue_processor.py] *)

Definition set_total_processed (n : Z) (st : Stats) :=
  mkStats n (successful_processed st) (failed_processed st) (total_time st)
          (current_file st) (queue_size st).
Definition set_successful_processed (n : Z) (st : Stats) :=
  mkStats (total_processed st) n (failed_processed st) (total_time st)
          (current_file st) (queue_size st).
Definition set_failed_processed (n : Z) (st : Stats) :=
  mkStats (total_processed st) (successful_processed st) n (total_time st)
          (current_file st) (queue_size st).
Definition set_total_time (x : float) (st : Stats) :=
  mkStats (total_processed st) (successful_processed st) (failed_processed st)
          x (current_file st) (queue_size st).
Definition set_current_file (f : option string) (st : Stats) :=
  mkStats (total_processed st) (successful_processed st) (failed_processed st)
          (total_time st) f (queue_size st).
Definition set_queue_size (n : Z) (st : Stats) :=
  mkStats (total_processed st) (successful_processed st) (failed_processed st)
          (total_time st) (current_file st) n.

(** [os.getenv(name, default)] *)
Definition getenv_default (name default : string) (w : World) : string :=
  match os_getenv P name w with Some v => v | None => default end.

(** [FileQueueProcessor.__init__] *)
Definition FileQueueProcessor_init (w : World) : FileQueueProcessor :=
  mkProcessor (mkQueue [] 0) None false
    (mkStats 0 0 0 0%float None 0)
    [".ogg"; ".m4a"; ".wav"; ".mp3"; ".flac"; ".aac"; ".mp4"]
    (getenv_default "AUDIO_SOURCE_DIR" "./audio_input" w)
    (getenv_default "OUTPUT_DIR" "./output" w).

(** The state when the module is loaded and the processor constructed. *)
Definition initial (w : World) : Sys :=
  mkSys w FastWhisperService_init (FileQueueProcessor_init w) 0.

(** [FileQueueProcessor.start] *)
Definition start : Py unit :=
  let* p := self in
  if is_running p then ret tt
  else
    update_self (set_is_running true);;
    let* s := get_state in
    update_self (set_processing_thread (Some (threads_created s)));;
    modify (fun s => mkSys (env s) (whisper_service s)
                           (file_queue_processor s) (S (threads_created s))).

(** [FileQueueProcessor.stop].  [join(timeout=5)] only waits: what the
    worker does meanwhile are steps of the worker. *)
Definition stop : Py unit :=
  update_self (set_is_running false);;
  let* p := self in
  match processing_thread p with
  | Some _ => ret tt
  | None => ret tt
  end.

(** [ext in self.supported_extensions] *)
Definition is_supported (p : FileQueueProcessor) (ext : string) : bool :=
  existsb (String.eqb ext) (supported_extensions p).

(** [FileQueueProcessor._find_audio_files] *)
Definition _find_audio_files (directory : string) : Py (list string) :=
  let* p := self in
  let* walk := ask (os_walk P directory) in
  ret (flat_map
         (fun '(root, _, files) =>
            flat_map
              (fun file =>
                 let file_path := PosixPath.join root file in
                 let file_ext := PyStr.lower (PosixPath.suffix file) in
                 if is_supported p file_ext then [file_path] else [])
              files)
         walk).

(** The work item built by [add_directory] and [add_file]. *)
Definition make_item (file_path output_dir : string) (added_at : float)
  : Item :=
  <["file_path" := PStr file_path]>
    (<["output_dir" := PStr output_dir]>
       (<["added_at" := PFloat added_at]> ∅)).

(** [for audio_file in audio_files: self.queue.put({...})] *)
Fixpoint put_files (audio_files : list string) (output_dir : string)
  : Py unit :=
  match audio_files with
  | [] => ret tt
  | audio_file :: rest =>
      let* t := now in
      queue_put (make_item audio_file output_dir t);;
      put_files rest output_dir
  end.

(** [FileQueueProcessor.add_directory]: [None] for the bare [return]. *)
Definition add_directory (source_dir : string) (output_dir : option string)
  : Py (option Z) :=
  let* ex := ask (os_path_exists P source_dir) in
  if negb ex
  then raise (ValueError ("Source directory does not exist: " ++ source_dir))
  else
    let* p := self in
    let output_dir :=
      match output_dir with Some d => d | None => default_output_dir p end in
    call (os_makedirs P output_dir);;
    let* audio_files := _find_audio_files source_dir in
    match audio_files with
    | [] => ret None
    | _ =>
        put_files audio_files output_dir;;
        let* n := queue_qsize in
        update_stats (set_queue_size n);;
        ret (Some (Z.of_nat (length audio_files)))
    end.

(** [FileQueueProcessor.add_file] *)
Definition add_file (file_path : string) (output_dir : option string)
  : Py unit :=
  let* ex := ask (os_path_exists P file_path) in
  if negb ex
  then raise (ValueError ("File does not exist: " ++ file_path))
  else
    let* p := self in
    let output_dir :=
      match output_dir with Some d => d | None => default_output_dir p end in
    call (os_makedirs P output_dir);;
    let* t := now in
    queue_put (make_item file_path output_dir t);;
    let* n := queue_qsize in
    update_stats (set_queue_size n).

(** [item[key]] *)
Definition item_get (item : Item) (key : string) : Py pyval :=
  match item !! key with
  | Some v => ret v
  | None => raise (KeyError key)
  end.

(** The argument of an [os.path] function: a [str], else [TypeError]. *)
Definition fspath (v : pyval) : exn + string :=
  match v with
  | PStr s => inr s
  | PFloat _ => inl (TypeError
      "expected str, bytes or os.PathLike object, not float")
  | PInt _ => inl (TypeError
      "expected str, bytes or os.PathLike object, not int")
  | PNone => inl (TypeError
      "expected str, bytes or os.PathLike object, not NoneType")
  end.

(** The text written by [_save_transcription]. *)
Definition transcription_file (file_path timestamp transcription : string)
  : string :=
  "Source: " ++ file_path ++ LF
  ++ "Processed: " ++ timestamp ++ LF
  ++ "Service: Faster-Whisper Queue Processor" ++ LF
  ++ PyStr.repeat "="%char 60 ++ LF ++ LF
  ++ transcription.

(** [FileQueueProcessor._save_transcription].  The five [f.write] calls
    under [with open(...)] are one [write_text] of their concatenation;
    the timestamp is the one the world gives when the file is written. *)
Definition _save_transcription (file_path transcription : string)
    (output_dir : pyval) : Py unit :=
  let base_name := fst (PosixPath.splitext (PosixPath.basename file_path)) in
  let output_filename := base_name ++ "_transcription.txt" in
  let* dir := lift_result (fspath output_dir) in
  let output_path := PosixPath.join dir output_filename in
  let* timestamp := ask (now_strftime P) in
  call (write_text P output_path
          (transcription_file file_path timestamp transcription)).

(** [not transcription or not transcription.strip()] *)
Definition is_blank (transcription : option string) : bool :=
  match transcription with
  | None => true
  | Some t => negb (PyStr.truthy t) || negb (PyStr.truthy (PyStr.strip t))
  end.

(** [if error:] *)
Definition is_error (error : option string) : bool :=
  match error with
  | None => false
  | Some e => PyStr.truthy e
  end.

(** The [try] block of [_process_file] up to the computation of
    [process_time] (lines 158-178). *)
Definition process_attempt (file_path : string) (output_dir : pyval)
    (start_time : float) : Py float :=
  let* wav_file_path := call (convert_to_wav P file_path) in
  match wav_file_path with
  | None => raise (ValueError "Failed to convert audio to WAV format")
  | Some wav_file_path =>
      let* '(transcription, error) := transcribe wav_file_path None in
      if is_error error
      then raise (ValueError ("Transcription error: "
                              ++ match error with Some e => e | None => "" end))
      else if is_blank transcription
      then raise (ValueError "Empty transcription result")
      else
        _save_transcription file_path
          (match transcription with Some t => t | None => "" end)
          output_dir;;
        let* end_time := now in
        ret (end_time - start_time)%float
  end.

(** [FileQueueProcessor._process_file] *)
Definition _process_file (item : Item) : Py unit :=
  let* file_path := item_get item "file_path" in
  let* output_dir := item_get item "output_dir" in
  let* start_time := now in
  let* file_path := lift_result (fspath file_path) in
  update_stats (set_current_file (Some (PosixPath.basename file_path)));;
  try_finally
    (try_except
       (let* process_time := process_attempt file_path output_dir start_time in
        update_stats (fun st => set_total_processed (total_processed st + 1) st);;
        update_stats (fun st =>
          set_successful_processed (successful_processed st + 1) st);;
        update_stats (fun st =>
          set_total_time (total_time st + process_time)%float st))
       (fun _ =>
          update_stats (fun st =>
            set_total_processed (total_processed st + 1) st);;
          update_stats (fun st =>
            set_failed_processed (failed_processed st + 1) st)))
    (update_stats (set_current_file None)).

(** One pass through the body of [while self.is_running] in
    [_process_queue]. *)
Definition _process_queue_body : Py unit :=
  try_except
    (let* got :=
       try_except
         (let* item := queue_get in ret (Some item))
         (fun e =>
            if String.eqb (exn_class e) "Empty"
            then ret None          (* continue *)
            else raise e) in
     match got with
     | None => ret tt
     | Some item =>
         let* n := queue_qsize in
         update_stats (set_queue_size n);;
         _process_file item;;
         queue_task_done
     end)
    (fun _ =>
       update_stats (fun st =>
         set_failed_processed (failed_processed st + 1) st)).

(** Where a thread running [_process_queue] is. *)
Inductive loop_state := Looping | Returned.

(** [FileQueueProcessor._process_queue], followed for at most [n] tests of
    the loop condition: [Returned] when the loop was left, [Looping] when
    the thread is still in it. *)
Fixpoint _process_queue (n : nat) : Py loop_state :=
  match n with
  | O => ret Looping
  | S k =>
      let* p := self in
      if is_running p
      then _process_queue_body;; _process_queue k
      else ret Returned
  end.

(** A number as [get_status] reports it: [average_time] is a [float], or
    the [int] 0. *)
Inductive pynum := NumInt (n : Z) | NumFloat (x : float).

(** The dictionary returned by [get_status]. *)
Record Status := mkStatus {
  st_is_running : bool;
  st_queue_size : Z;
  st_current_file : option string;
  st_total_processed : Z;
  st_successful_processed : Z;
  st_failed_processed : Z;
  st_total_time : float;
  st_average_time : pynum;
}.

(** [FileQueueProcessor.get_status] *)
Definition get_status : Py Status :=
  let* p := self in
  let* n := queue_qsize in
  let st := stats p in
  let* average_time :=
    if 0 <? total_processed st
    then let* a := lift_result
                     (float_div_int (total_time st) (total_processed st)) in
         ret (NumFloat a)
    else ret (NumInt 0) in
  ret (mkStatus (is_running p) n (current_file st) (total_processed st)
                (successful_processed st) (failed_processed st)
                (total_time st) average_time).

(** [FileQueueProcessor.clear_queue] *)
Definition clear_queue : Py unit :=
  update_self (fun p =>
    set_queue (mkQueue [] (unfinished_tasks (queue p))) p);;
  update_stats (set_queue_size 0).

End Engine.

Arguments initial {World Model}.
Arguments _load_model {World Model}.
Arguments transcribe {World Model}.
Arguments is_ready {World Model}.
Arguments start {World Model}.
Arguments stop {World Model}.
Arguments add_directory {World Model}.
Arguments add_file {World Model}.
Arguments _find_audio_files {World Model}.
Arguments _save_transcription {World Model}.
Arguments process_attempt {World Model}.
Arguments _process_file {World Model}.
Arguments _process_queue_body {World Model}.
Arguments _process_queue {World Model}.
Arguments get_status {World Model}.
Arguments clear_queue {World Model}.

(** ** Reading the engine

    Names for the states and outcomes the code goes through; the
    properties below are stated with them. *)

(** The names the specification gives to the enqueue-time errors. *)
Definition DirectoryNotFound (path : string) : exn :=
  ValueError ("Source directory does not exist: " ++ path).
Definition FileNotFound (path : string) : exn :=
  ValueError ("File does not exist: " ++ path).


(** The extensions the scanner accepts. *)
Definition supported : list string :=
  [".ogg"; ".m4a"; ".wav"; ".mp3"; ".flac"; ".aac"; ".mp4"].

(** The scan as the specification words it: every file of the walk whose
    extension, case-insensitively, is in the supported set, in traversal
    order. *)
Definition scan (walk : list (string * list string * list string))
  : list string :=
  flat_map
    (fun '(root, _, files) =>
       map (PosixPath.join root)
           (List.filter
              (fun file =>
                 existsb (String.eqb (PyStr.lower (PosixPath.suffix file)))
                         supported)
              files))
    walk.

(** The result of [transcribe] as the specification words it: the
    concatenation of the segments, trimmed. *)
Definition concatenated_trimmed (texts : list string) : string :=
  PyStr.strip (fold_right append "" texts).

(** Every segment followed by one space, concatenated. *)
Definition spaced (texts : list string) : string :=
  fold_right (fun text rest => text ++ " " ++ rest) "" texts.

Section Reading.

Context {World Model : Type}.
Variable P : Platform World Model.

Abbreviation Sys := (Sys World Model).

(** The service object after a load attempt: [ready m] when the
    constructor returned [m], [unloaded] when it raised. *)
Definition ready (m : Model) (v : FastWhisperService Model) :=
  mkService (Some m) (model_size v) (compute_type v) (device v) false
            (ws_stats v).
Definition unloaded (v : FastWhisperService Model)
  : FastWhisperService Model :=
  mkService None (model_size v) (compute_type v) (device v) false
            (ws_stats v).

(** The state in which [_load_model] leaves the program when it has to
    call the constructor, and what it returns. *)
Definition load_attempt (s : Sys) : bool * Sys :=
  let v := whisper_service s in
  let '(_, w0) := time_time P (env s) in
  match WhisperModel P (model_size v) (device v) (compute_type v) w0 with
  | (inr m, w1) =>
      let '(_, w2) := time_time P w1 in
      (true, mkSys w2 (ready m v) (file_queue_processor s) (threads_created s))
  | (inl _, w1) =>
      (false, mkSys w1 (unloaded v) (file_queue_processor s) (threads_created s))
  end.

(** The statistics of the service after a transcription that took [dt]
    seconds, and after an error. *)
Definition count_transcription (dt avg : float) (st : WhisperStats) :=
  mkWhisperStats (ws_total_processed st + 1) (ws_total_time st + dt)%float
                 (ws_errors st) avg.
Definition count_error (st : WhisperStats) :=
  mkWhisperStats (ws_total_processed st) (ws_total_time st)
                 (ws_errors st + 1) (ws_average_time st).

(** What [transcribe] does once [_load_model] has returned [True] in
    state [s]. *)
Definition transcribe_loaded (file_path : string) (language : option string)
    (s : Sys) : (option string * option string) * Sys :=
  let v := whisper_service s in
  let st := ws_stats v in
  let '(t0, w0) := time_time P (env s) in
  let fail e w st' :=
    ((None, Some (str_of_exn e)),
     mkSys w (set_ws_stats (count_error st') v) (file_queue_processor s)
           (threads_created s)) in
  match model v with
  | None =>
      fail (AttributeError "'NoneType' object has no attribute 'transcribe'")
           w0 st
  | Some m =>
      match model_transcribe P m file_path language w0 with
      | (inl e, w1) => fail e w1 st
      | (inr texts, w1) =>
          let '(t1, w2) := time_time P w1 in
          let dt := (t1 - t0)%float in
          match float_div_int (ws_total_time st + dt)%float
                              (ws_total_processed st + 1) with
          | inr avg =>
              ((Some (PyStr.strip (collect texts)), None),
               mkSys w2 (set_ws_stats (count_transcription dt avg st) v)
                     (file_queue_processor s) (threads_created s))
          | inl e =>
              fail e w2 (count_transcription dt (ws_average_time st) st)
          end
      end
  end.

(** No model load is in progress. *)
Definition idle (s : Sys) : Prop := _loading (whisper_service s) = false.

(** [s'] differs from [s] only outside the processor object. *)
Definition same_processor (s s' : Sys) : Prop :=
  file_queue_processor s' = file_queue_processor s
  /\ threads_created s' = threads_created s.

(** The statistics after a successful item that took [process_time], and
    after a failed one: what [_process_file] leaves when its [finally]
    clause has run. *)
Definition record_success (process_time : float) (st : Stats) : Stats :=
  mkStats (total_processed st + 1) (successful_processed st + 1)
          (failed_processed st) (total_time st + process_time)%float
          None (queue_size st).
Definition record_failure (st : Stats) : Stats :=
  mkStats (total_processed st + 1) (successful_processed st)
          (failed_processed st + 1) (total_time st) None (queue_size st).

Definition with_stats (f : Stats -> Stats) (s : Sys) : Sys :=
  set_processor
    (set_stats (f (stats (file_queue_processor s))) (file_queue_processor s)) s.

(** The state at the [try] of [_process_file], and the [start_time] read. *)
Definition begin_item (file_path : string) (s : Sys) : float * Sys :=
  let '(t0, w0) := time_time P (env s) in
  (t0, with_stats (set_current_file (Some (PosixPath.basename file_path)))
                  (set_env w0 s)).

(** The state after [queue.get] returned the head of the queue and
    [queue_size] was refreshed; [rest] is what stays queued. *)
Definition dequeued (rest : list Item) (s : Sys) : Sys :=
  let p := file_queue_processor s in
  with_stats (set_queue_size (Z.of_nat (length rest)))
    (set_processor (set_queue (mkQueue rest (unfinished_tasks (queue p))) p) s).

(** The outer handler of [_process_queue]. *)
Definition bump_failed (st : Stats) : Stats :=
  set_failed_processed (failed_processed st + 1) st.

(** An item with a [str] under ['file_path'] and something under
    ['output_dir'], as [make_item] builds them. *)
Definition wellformed (item : Item) : bool :=
  match item !! "file_path", item !! "output_dir" with
  | Some (PStr _), Some _ => true
  | _, _ => false
  end.

(** The run of the [try] block of [_process_file] for [item], entered
    from state [s]. *)
Definition item_attempt (item : Item) (s : Sys) : outcome Sys float :=
  match item !! "file_path", item !! "output_dir" with
  | Some (PStr file_path), Some output_dir =>
      let '(t0, s0) := begin_item file_path s in
      process_attempt P file_path output_dir t0 s0
  | _, _ => Raise (KeyError "file_path") s
  end.

(** An item fails when its [try] block does not run to its end. *)
Definition item_fails (item : Item) (s : Sys) : bool :=
  match item_attempt item s with
  | Ret _ _ => false
  | _ => true
  end.

(** The statistics one item leaves: through [_process_file] when the
    item is well-formed, through the handler of the loop when not. *)
Definition item_stats (item : Item) (s : Sys) : Stats :=
  let st := stats (file_queue_processor s) in
  if wellformed item then
    match item_attempt item s with
    | Ret process_time _ => record_success process_time st
    | _ => record_failure st
    end
  else bump_failed st.

(** The state the loop body leaves. *)
Definition next (s : Sys) : Sys :=
  match _process_queue_body P s with
  | Ret _ s' | Raise _ s' => s'
  | Hang => s
  end.

(** How many of the first [n] items taken from the queue fail. *)
Fixpoint failures (n : nat) (s : Sys) : Z :=
  match n with
  | O => 0
  | S k =>
      match q_items (queue (file_queue_processor s)) with
      | item :: rest =>
          (if item_fails item (dequeued rest s) then 1 else 0)
          + failures k (next s)
      | [] => 0
      end
  end.

(** The items [put_files] builds for [files], each stamped with its own
    reading of the clock, and the world after the readings. *)
Fixpoint stamped (files : list string) (output_dir : string) (w : World)
  : list Item * World :=
  match files with
  | [] => ([], w)
  | f :: rest =>
      let '(t, w1) := time_time P w in
      let '(items, w2) := stamped rest output_dir w1 in
      (make_item f output_dir t :: items, w2)
  end.

(** The invariant of the statistics. *)
Definition consistent (st : Stats) : Prop :=
  successful_processed st + failed_processed st = total_processed st.

(** What the rest of the program can do with the engine: the methods
    of the two classes, and one test of the loop condition by the worker
    followed, when it holds, by one pass of the loop body. *)
Inductive operation :=
| Start
| Stop
| AddDirectory (source_dir : string) (output_dir : option string)
| AddFile (file_path : string) (output_dir : option string)
| GetStatus
| ClearQueue
| Transcribe (file_path : string) (language : option string)
| IsReady
| WorkerPass.

(** The state an outcome leaves, if the call returns at all. *)
Definition state_after {A} (o : outcome Sys A) : option Sys :=
  match o with
  | Ret _ s' | Raise _ s' => Some s'
  | Hang => None
  end.

Definition exec (op : operation) (s : Sys) : option Sys :=
  match op with
  | Start => state_after (start s)
  | Stop => state_after (stop s)
  | AddDirectory source_dir output_dir =>
      state_after (add_directory P source_dir output_dir s)
  | AddFile file_path output_dir =>
      state_after (add_file P file_path output_dir s)
  | GetStatus => state_after (get_status s)
  | ClearQueue => state_after (clear_queue s)
  | Transcribe file_path language =>
      state_after (transcribe P file_path language s)
  | IsReady => state_after (is_ready P s)
  | WorkerPass => state_after (_process_queue P 1 s)
  end.

(** The states the engine can be in: the one at construction, and those
    operations lead to, the world changing freely in between. *)
Inductive reachable : Sys -> Prop :=
| reachable_initial w : reachable (initial P w)
| reachable_exec op s s' : reachable s -> exec op s = Some s' -> reachable s'
| reachable_world s w : reachable s -> reachable (set_env w s).

(** What holds of every reachable state. *)
Definition sound (s : Sys) : Prop :=
  let p := file_queue_processor s in
  idle s
  /\ forallb wellformed (q_items (queue p)) = true
  /\ Z.of_nat (length (q_items (queue p))) <= unfinished_tasks (queue p)
  /\ consistent (stats p)
  /\ supported_extensions p = supported.

End Reading.

(** ** A small concrete platform

    Used to run the engine on concrete inputs.  Time advances by two
    seconds at every reading of the clock; a file whose name starts with
    [bad] cannot be converted, one starting with [noisy] makes inference
    raise, one starting with [silent] yields no segment; directories under
    [/ro] cannot be created or written to; the model constructor fails as
    many times as [tw_load_failures] says and then succeeds. *)

Module Toy.

Record World := mkWorld {
  tw_clock : Z;
  tw_dirs : gmap string (list (string * list string * list string));
  tw_files : gmap string string;
  tw_load_failures : nat;
}.

Definition float_of_Z (n : Z) : float := PrimFloat.of_uint63 (Uint63.of_Z n).

Definition named (pre path : string) : bool :=
  String.prefix pre (PosixPath.basename path).

Definition OSError (msg : string) : exn := mkExn "OSError" msg.
Definition RuntimeError (msg : string) : exn := mkExn "RuntimeError" msg.

Definition platform : Platform World unit := {|
  time_time w :=
    (float_of_Z (tw_clock w),
     mkWorld (tw_clock w + 2) (tw_dirs w) (tw_files w) (tw_load_failures w));
  now_strftime w := "2025-01-01 00:00:00";
  os_getenv name w := None;
  os_path_exists path w :=
    bool_decide (is_Some (tw_dirs w !! path))
    || bool_decide (is_Some (tw_files w !! path));
  os_makedirs path w :=
    if String.prefix "/ro" path
    then (inl (OSError "Read-only file system"), w)
    else
      (inr tt,
       match tw_dirs w !! path with
       | Some _ => w
       | None => mkWorld (tw_clock w) (<[path := []]> (tw_dirs w))
                         (tw_files w) (tw_load_failures w)
       end);
  os_walk top w :=
    match tw_dirs w !! top with Some l => l | None => [] end;
  write_text path text w :=
    if String.prefix "/ro" path
    then (inl (OSError "Read-only file system"), w)
    else (inr tt, mkWorld (tw_clock w) (tw_dirs w)
                          (<[path := text]> (tw_files w))
                          (tw_load_failures w));
  convert_to_wav path w :=
    (inr (if named "bad" path then None else Some path), w);
  FASTER_WHISPER_AVAILABLE := true;
  WhisperModel size dev ct w :=
    match tw_load_failures w with
    | O => (inr tt, w)
    | S k => (inl (RuntimeError "out of memory"),
              mkWorld (tw_clock w) (tw_dirs w) (tw_files w) k)
    end;
  model_transcribe m path language w :=
    if named "noisy" path then (inl (RuntimeError "decode failed"), w)
    else if named "silent" path then (inr [], w)
    else (inr [" Hello"; " world."], w);
|}.

(** A world with one input directory [/in] holding five audio files and a
    text file, an empty directory [/tmp/empty], and nothing else. *)
Definition world0 : World :=
  mkWorld 100
    (<["/in" := [("/in", ["sub"],
                  ["a.wav"; "bad_b.mp3"; "c.OGG"; "notes.txt"]);
                 ("/in/sub", [], ["bad_d.flac"; "e.m4a"])]]>
       (<["/tmp/empty" := [("/tmp/empty", [], ["readme.md"])]]> ∅))
    (<["/in/a.wav" := "RIFF"]> (<["/in/bad_b.mp3" := "ID3"]> ∅))
    0.

Definition sys0 : Sys World unit := initial platform world0.

(** The state of an outcome, when there is one. *)
Definition final {A} (o : outcome (Sys World unit) A)
  : option (Sys World unit) :=
  match o with
  | Ret _ s => Some s
  | Raise _ s => Some s
  | Hang => None
  end.

(** Run [m], then continue from its state whatever it returned. *)
Definition after {A} (m : Py (Sys World unit) A) (s : Sys World unit)
  : Sys World unit :=
  match final (m s) with Some s' => s' | None => s end.

(** The engine after [add_directory("/in", "/out")] and [start()]. *)
Definition queued : Sys World unit :=
  after (add_directory platform "/in" (Some "/out")) sys0.
Definition running : Sys World unit := after start queued.

(** A work item without ['file_path'], put on the queue of a started
    engine. *)
Definition stray_item : Item :=
  <["output_dir" := PStr "./output"]> (<["added_at" := PFloat 0]> ∅).
Definition stray : Sys World unit :=
  after (queue_put stray_item) (after start sys0).


(** The engine after a successful attempt on [/in/speech.wav], started
    at time 100, with output directory [/out]. *)
Definition spoken : Sys World unit :=
  after (process_attempt platform "/in/speech.wav" (PStr "/out") 100%float)
        sys0.

(** The engine after [_process_file] on an item for [/in/a.wav]. *)
Definition heard : Sys World unit :=
  after (_process_file platform (make_item "/in/a.wav" "/out" 0%float)) sys0.



End Toy.
(** ** More readings of the engine *)

Section MoreReading.

Context {World Model : Type}.
Variable P : Platform World Model.

Abbreviation Sys := (Sys World Model).

(** The [queue_size] statistic is the length of the queue. *)
Definition tracked (s : Sys) : Prop :=
  let p := file_queue_processor s in
  queue_size (stats p) = Z.of_nat (length (q_items (queue p))).

(** The average the service holds is its total time over its count,
    whenever that quotient exists. *)
Definition averaged (st : WhisperStats) : Prop :=
  match float_div_int (ws_total_time st) (ws_total_processed st) with
  | inr a => ws_average_time st = a
  | inl _ => True
  end.

(** What one call of [transcribe] does to the statistics of the service,
    by what it returns: a text and no error, or no text and an error. *)
Definition transcribe_counts (r : option string * option string)
    (st st' : WhisperStats) : Prop :=
  match r with
  | (Some text, None) =>
      (exists texts, text = PyStr.strip (spaced texts))
      /\ ws_total_processed st' = ws_total_processed st + 1
      /\ ws_errors st' = ws_errors st
      /\ float_div_int (ws_total_time st') (ws_total_processed st')
         = inr (ws_average_time st')
  | (None, Some e) =>
      (e = "Model not available" /\ st' = st)
      \/ st' = count_error st
      \/ exists dt ex,
           float_div_int (ws_total_time st + dt)%float
                         (ws_total_processed st + 1) = inl ex
           /\ st' = count_error
                      (count_transcription dt (ws_average_time st) st)
  | _ => False
  end.

(** What any operation may do to the service: a model that is there
    stays, its settings stay, its counters do not go down. *)
Definition service_grows (v v' : FastWhisperService Model) : Prop :=
  (forall m, model v = Some m -> model v' = Some m)
  /\ model_size v' = model_size v
  /\ compute_type v' = compute_type v
  /\ device v' = device v
  /\ ws_total_processed (ws_stats v) <= ws_total_processed (ws_stats v')
  /\ ws_errors (ws_stats v) <= ws_errors (ws_stats v')
  /\ (averaged (ws_stats v) -> averaged (ws_stats v')).

(** What any operation may do to the processor: its counters do not go
    down and its settings stay. *)
Definition processor_grows (p p' : FileQueueProcessor) : Prop :=
  total_processed (stats p) <= total_processed (stats p')
  /\ successful_processed (stats p) <= successful_processed (stats p')
  /\ failed_processed (stats p) <= failed_processed (stats p')
  /\ supported_extensions p' = supported_extensions p
  /\ default_source_dir p' = default_source_dir p
  /\ default_output_dir p' = default_output_dir p.

(** The processor after [items] were put on its queue and [queue_size]
    was refreshed. *)
Definition enqueued (items : list Item) (p : FileQueueProcessor)
  : FileQueueProcessor :=
  set_stats
    (set_queue_size (Z.of_nat (length (q_items (queue p) ++ items)))
                    (stats p))
    (set_queue
       (mkQueue (q_items (queue p) ++ items)
                (unfinished_tasks (queue p) + Z.of_nat (length items)))
       p).

(** What holds of every reachable state, besides [sound]. *)
Definition steady (s : Sys) : Prop :=
  let st := stats (file_queue_processor s) in
  let ws := ws_stats (whisper_service s) in
  sound s
  /\ tracked s
  /\ averaged ws
  /\ 0 <= successful_processed st
  /\ 0 <= failed_processed st
  /\ 0 <= ws_errors ws
  /\ successful_processed st <= ws_total_processed ws.

End MoreReading.
(** ** [transformer.py] and [app.py]

    The synchronous path: the helpers of [transformer.py] and the request
    handlers of [app.py], as plain functions (the routing of FastAPI is
    left out).  What they call beyond [Platform] is a field of [Web]. *)

Record Web (World : Type) := mkWeb {
  (** [with open(path, "wb") as buffer: buffer.write(data)] *)
  write_bytes : string -> string -> World -> (exn + unit) * World;
  (** [os.remove(path)] *)
  os_remove : string -> World -> (exn + unit) * World;
  (** [int(s)] for a [str] *)
  int_of_str : string -> exn + Z;
  (** [round(x, 2)] *)
  round2 : float -> float;
}.

Arguments write_bytes {World}.
Arguments os_remove {World}.
Arguments int_of_str {World}.
Arguments round2 {World}.

(** An uploaded file: its [filename] and what [file.file.read()] gives. *)
Record UploadFile := mkUpload {
  filename : option string;
  content : string;
}.

(** The values [handle_file_upload] returns and its caller passes on. *)
Inductive webval :=
| WStr (s : string)
| WInt (n : Z)
| WDict (d : list (string * string)).

(** [service_stats] of [app.py] *)
Record ServiceStats := mkServiceStats {
  started_at : float;
  total_requests : Z;
  successful_requests : Z;
  failed_requests : Z;
}.

(** The state of [app.py]: the engine, whether the global
    [file_queue_processor] is set (it is [None] until startup; the
    processor of [engine] is then the object it holds), and
    [service_stats]. *)
Record App (World Model : Type) := mkApp {
  engine : Sys World Model;
  processor_set : bool;
  service_stats : ServiceStats;
}.

Arguments mkApp {World Model}.
Arguments engine {World Model}.
Arguments processor_set {World Model}.
Arguments service_stats {World Model}.

(** [HTTPException(status_code=500, detail=...)] and [503]; [str(e)] of
    one is ["<status>: <detail>"]. *)
Definition HTTPException_500 (detail : string) : exn :=
  mkExn "HTTPException" ("500: " ++ detail).
Definition HTTPException_503 (detail : string) : exn :=
  mkExn "HTTPException" ("503: " ++ detail).

(** [FastWhisperService.get_stats()] *)
Record WhisperReport := mkWhisperReport {
  model_loaded : bool;
  report_model_size : string;
  report_compute_type : string;
  report_device : string;
  report_stats : WhisperStats;
}.

(** The answer of [/queue/add]. *)
Record QueueAdded := mkQueueAdded {
  qa_success : bool;
  qa_message : string;
  qa_files_added : option Z;
  qa_queue_size : Z;
}.

(** The answer of [/transcribe]. *)
Record Transcribed := mkTranscribed {
  tr_success : bool;
  tr_translated_text : option string;
  tr_processing_time : float;
  tr_filename : webval;
  tr_segment_number : string;
  tr_language : string;
}.

(** The answer of [/health]. *)
Record Health := mkHealth {
  h_status : string;
  h_model_ready : bool;
  h_whisper_stats : WhisperReport;
  h_service_stats : ServiceStats;
  h_uptime : float;
}.

Section Web.

Context {World Model : Type}.
Variable P : Platform World Model.
Variable W : Web World.

Abbreviation Sys := (Sys World Model).
Abbreviation App := (App World Model).

(** *** [fast_whisper_service.py], the rest *)

(** [FastWhisperService.get_stats] *)
Definition get_stats : Py Sys WhisperReport :=
  let* v := service in
  ret (mkWhisperReport
         (match model v with Some _ => true | None => false end)
         (model_size v) (compute_type v) (device v) (ws_stats v)).

(** *** [transformer.py] *)

(** [generate_filename(segment_number, clientId)] *)
Definition generate_filename (segment_number clientId : string)
  : Py Sys string :=
  let* segment_name := ask (getenv_default P "SEGMENT_NAME" "segment") in
  ret (clientId ++ "_" ++ segment_name ++ "_" ++ segment_number ++ ".wav").

(** [handle_file_upload(clientId, file, segment_number)]: the pair it
    returns. *)
Definition handle_file_upload (clientId : string) (file : UploadFile)
    (segment_number : string) : Py Sys (webval * webval) :=
  match filename file with
  | Some EmptyString =>
      ret (WDict [("error", "No selected file")], WInt 400)
  | _ =>
      let* filename := generate_filename segment_number clientId in
      let filepath := PosixPath.join "uploads" filename in
      call (os_makedirs P "uploads");;
      call (write_bytes W filepath (content file));;
      ret (WStr filepath, WStr filename)
  end.

(** [transcribe_audio(file_path)] *)
Definition transcribe_audio (file_path : string)
  : Py Sys (option string * option string) :=
  try_except
    (let* wav_file_path := call (convert_to_wav P file_path) in
     match wav_file_path with
     | None => ret (None, Some "Failed to convert audio to WAV format")
     | Some wav_file_path =>
         let* '(transcription, error) := transcribe P wav_file_path None in
         if is_error error then ret (None, error)
         else ret (transcription, None)
     end)
    (fun e =>
       ret (None, Some ("Error in audio transcription: " ++ str_of_exn e))).

(** *** [app.py] *)

Definition set_engine (s : Sys) (a : App) : App :=
  mkApp s (processor_set a) (service_stats a).

Definition set_service_stats (st : ServiceStats) (a : App) : App :=
  mkApp (engine a) (processor_set a) st.

(** A call into the engine from a handler. *)
Definition on_engine {A} (m : Py Sys A) : Py App A :=
  fun a =>
    match m (engine a) with
    | Ret x s => Ret x (set_engine s a)
    | Raise e s => Raise e (set_engine s a)
    | Hang => Hang
    end.

Definition update_service_stats (f : ServiceStats -> ServiceStats)
  : Py App unit :=
  modify (fun a => set_service_stats (f (service_stats a)) a).

Definition count_request (st : ServiceStats) : ServiceStats :=
  mkServiceStats (started_at st) (total_requests st + 1)
                 (successful_requests st) (failed_requests st).
Definition count_successful (st : ServiceStats) : ServiceStats :=
  mkServiceStats (started_at st) (total_requests st)
                 (successful_requests st + 1) (failed_requests st).
Definition count_failed (st : ServiceStats) : ServiceStats :=
  mkServiceStats (started_at st) (total_requests st)
                 (successful_requests st) (failed_requests st + 1).

(** The state when [app.py] has been imported: [whisper_service] exists,
    [file_queue_processor] is [None], [service_stats] starts now. *)
Definition app_initial (w : World) : App :=
  let '(t, w1) := time_time P w in
  mkApp (initial P w1) false (mkServiceStats t 0 0 0).

(** [startup_event] *)
Definition startup_event : Py App unit :=
  let* _ := on_engine (is_ready P) in
  on_engine (fun s =>
    Ret tt (set_processor (FileQueueProcessor_init P (env s)) s));;
  modify (fun a => mkApp (engine a) true (service_stats a));;
  on_engine start.

(** [shutdown_event] *)
Definition shutdown_event : Py App unit :=
  let* a := get_state in
  if processor_set a then on_engine stop else ret tt.

(** [time.time() - service_stats['started_at']] *)
Definition uptime : Py App float :=
  let* t := on_engine (now P) in
  let* a := get_state in
  ret (t - started_at (service_stats a))%float.

(** [health_check], the handler of [/health] *)
Definition health_check : Py App Health :=
  let* ready1 := on_engine (is_ready P) in
  let* ready2 := on_engine (is_ready P) in
  let* report := on_engine get_stats in
  let* a := get_state in
  let* up := uptime in
  ret (mkHealth (if ready1 then "healthy" else "unhealthy") ready2 report
                (service_stats a) up).

(** The handler of [/queue/add] *)
Definition add_to_queue (source_dir : string) (output_dir : option string)
  : Py App QueueAdded :=
  let* a := get_state in
  if negb (processor_set a)
  then raise (HTTPException_503 "File queue processor not available")
  else
    try_except
      (let* files_added := on_engine (add_directory P source_dir output_dir) in
       let* n := on_engine queue_qsize in
       ret (mkQueueAdded true ("Directory added to queue: " ++ source_dir)
                         files_added n))
      (fun e =>
         raise (HTTPException_500
                  ("Error adding to queue: " ++ str_of_exn e))).

(** The handler of [/queue/status] *)
Definition get_queue_status : Py App Status :=
  let* a := get_state in
  if negb (processor_set a)
  then raise (HTTPException_503 "File queue processor not available")
  else on_engine get_status.

(** [language and language.lower() not in ['auto', 'none', '']] chooses
    the target language. *)
Definition target_language_of (language : option string) : option string :=
  match language with
  | Some l =>
      if PyStr.truthy l
         && negb (existsb (String.eqb (PyStr.lower l)) ["auto"; "none"; ""])
      then Some (PyStr.lower l)
      else None
  | None => None
  end.

(** The call [transcribe_audio(filepath, target_language)] of
    [transcribe_endpoint]: two positional arguments for a function that
    is defined with one. *)
Definition call_transcribe_audio (filepath : webval)
    (target_language : option string)
  : Py App (option string * option string) :=
  raise (TypeError
    "transcribe_audio() takes 1 positional argument but 2 were given").

(** [os.remove(filepath)] on what [handle_file_upload] returned. *)
Definition remove_upload (filepath : webval) : Py Sys unit :=
  match filepath with
  | WStr p => call (os_remove W p)
  | WInt _ => raise (TypeError
      "remove: path should be string, bytes or os.PathLike, not int")
  | WDict _ => raise (TypeError
      "remove: path should be string, bytes or os.PathLike, not dict")
  end.

(** The handler of [/transcribe] *)
Definition transcribe_endpoint (file : UploadFile) (client_id : string)
    (segment_number : string) (language : option string)
  : Py App Transcribed :=
  let* start_time := on_engine (now P) in
  update_service_stats count_request;;
  try_except
    (let* '(filepath, filename) :=
       on_engine (handle_file_upload client_id file segment_number) in
     let target_language := target_language_of language in
     let* '(transcription, error) :=
       call_transcribe_audio filepath target_language in
     if is_error error
     then
       update_service_stats count_failed;;
       raise (HTTPException_500
                ("Transcription error: "
                 ++ match error with Some e => e | None => "" end))
     else
       let* flag := on_engine
         (ask (getenv_default P "TRANSCRIPTION_OUT_LOG" "0")) in
       let* _ := on_engine (lift_result (int_of_str W flag)) in
       try_except (on_engine (remove_upload filepath)) (fun _ => ret tt);;
       update_service_stats count_successful;;
       let* end_time := on_engine (now P) in
       let process_time := (end_time - start_time)%float in
       ret (mkTranscribed true transcription (round2 W process_time)
              filename segment_number
              match target_language with
              | Some l => l
              | None => "auto-detected"
              end))
    (fun e =>
       if String.eqb (exn_class e) "HTTPException" then raise e
       else
         update_service_stats count_failed;;
         raise (HTTPException_500
                  ("Internal server error: " ++ str_of_exn e))).

End Web.
(** ** A small concrete web platform *)

Module ToyWeb.

Definition web : Web Toy.World := {|
  write_bytes path data w :=
    if String.prefix "/ro" path
    then (inl (Toy.OSError "Read-only file system"), w)
    else (inr tt, Toy.mkWorld (Toy.tw_clock w) (Toy.tw_dirs w)
                              (<[path := data]> (Toy.tw_files w))
                              (Toy.tw_load_failures w));
  os_remove path w :=
    match Toy.tw_files w !! path with
    | Some _ =>
        (inr tt, Toy.mkWorld (Toy.tw_clock w) (Toy.tw_dirs w)
                             (delete path (Toy.tw_files w))
                             (Toy.tw_load_failures w))
    | None => (inl (Toy.OSError "No such file or directory"), w)
    end;
  int_of_str s :=
    if String.eqb s "0" then inr 0
    else if String.eqb s "1" then inr 1
    else inl (ValueError "invalid literal for int() with base 10");
  round2 x := x;
|}.

(** [app.py] imported, and then started. *)
Definition app0 : App Toy.World unit := app_initial Toy.platform Toy.world0.

Definition app_after {A} (m : Py (App Toy.World unit) A)
    (a : App Toy.World unit) : App Toy.World unit :=
  match m a with
  | Ret _ a' | Raise _ a' => a'
  | Hang => a
  end.

Definition started : App Toy.World unit :=
  app_after (startup_event Toy.platform) app0.

(** An upload of four bytes named [clip.ogg]. *)
Definition clip : UploadFile := mkUpload (Some "clip.ogg") "OggS".

(** The engine after the worker has gone through the five files of
    [/in]. *)
Definition drained : Sys Toy.World unit :=
  Toy.after (_process_queue Toy.platform 5) Toy.running.

(** The engine one pass earlier: four files done, one queued. *)
Definition almost : Sys Toy.World unit :=
  Toy.after (_process_queue Toy.platform 4) Toy.running.

(** A world without the faster-whisper library. *)
Definition bare : Platform Toy.World unit := {|
  time_time := time_time Toy.platform;
  now_strftime := now_strftime Toy.platform;
  os_getenv := os_getenv Toy.platform;
  os_path_exists := os_path_exists Toy.platform;
  os_makedirs := os_makedirs Toy.platform;
  os_walk := os_walk Toy.platform;
  write_text := write_text Toy.platform;
  convert_to_wav := convert_to_wav Toy.platform;
  FASTER_WHISPER_AVAILABLE := false;
  WhisperModel := WhisperModel Toy.platform;
  model_transcribe := model_transcribe Toy.platform;
|}.

Definition bare0 : Sys Toy.World unit := initial bare Toy.world0.

(** The engine after [transcribe] on a file without speech. *)
Definition hushed : Sys Toy.World unit :=
  Toy.after (transcribe Toy.platform "/in/silent.wav" None) Toy.sys0.

(** The engine after an upload whose client id is an absolute path. *)
Definition uploaded : Sys Toy.World unit :=
  Toy.after (handle_file_upload Toy.platform web "/srv/www/x" clip "7")
            Toy.sys0.

(** The started service after a request to [/transcribe] by [alice]. *)
Definition answered : App Toy.World unit :=
  app_after (transcribe_endpoint Toy.platform web clip "alice" "7" None)
            started.

End ToyWeb.
(** * Properties *)

(** Decide a closed equation by evaluation. *)
Ltac by_vm :=
  match goal with
  | |- _ = ?b => vm_cast_no_check (@eq_refl _ b)
  end.

(** Unfold the plumbing of the monad. *)
Ltac py_unfold :=
  cbv beta iota delta
    [try_finally try_except bind ret raise hang get_state modify self service
     update_self update_stats update_service queue_get queue_qsize queue_put
     queue_task_done ask call now lift_result item_get].

(** ** Strings and paths *)

Lemma append_cons c (a b : string) : String c a ++ b = String c (a ++ b).
Proof. reflexivity. Qed.

Lemma append_nil_l (b : string) : "" ++ b = b.
Proof. reflexivity. Qed.

Lemma append_nil_r (s : string) : s ++ "" = s.
Proof.
  induction s as [| c s IH]; [reflexivity |].
  rewrite ?append_cons, ?append_nil_l. f_equal. exact IH.
Qed.

Lemma append_assoc (a b c : string) : (a ++ b) ++ c = a ++ b ++ c.
Proof.
  induction a as [| x a IH]; [reflexivity |].
  rewrite ?append_cons, ?append_nil_l. f_equal. exact IH.
Qed.


Lemma drop_append (a b : string) : PyStr.drop (String.length a) (a ++ b) = b.
Proof.
  induction a as [| x a IH]; [reflexivity |].
  rewrite ?append_cons, ?append_nil_l; cbn [String.length PyStr.drop]. exact IH.
Qed.

Lemma length_append_one (a : string) c :
  String.length (a ++ String c "") = S (String.length a).
Proof.
  induction a as [| x a IH]; [reflexivity |].
  rewrite append_cons. cbn [String.length]. rewrite IH. reflexivity.
Qed.


(** The last occurrence in [a ++ b] is the last one in [b] when there is
    one, *)
Lemma rfind_append_r c (a b : string) :
  0 <= PyStr.rfind c b ->
  PyStr.rfind c (a ++ b) = Z.of_nat (String.length a) + PyStr.rfind c b.
Proof.
  intros H. induction a as [| x a IH]; rewrite ?append_cons, ?append_nil_l; cbn [PyStr.rfind String.length].
  - lia.
  - rewrite IH.
    destruct (Z.leb_spec 0 (Z.of_nat (String.length a) + PyStr.rfind c b));
      lia.
Qed.


Lemma rfind_head c (s : string) :
  PyStr.rfind c s = -1 -> PyStr.rfind c (String c s) = 0.
Proof.
  intros H. cbn. rewrite H. cbn. rewrite Ascii.eqb_refl. reflexivity.
Qed.


(** The base name of [dir/name] is [name] when [name] has no separator. *)
Lemma basename_in_dir (dir name : string) :
  PyStr.rfind PosixPath.sep name = -1 ->
  PosixPath.basename (dir ++ String PosixPath.sep name) = name.
Proof.
  intros H. unfold PosixPath.basename.
  rewrite rfind_append_r; rewrite (rfind_head _ _ H); [| lia].
  replace (Z.to_nat (Z.of_nat (String.length dir) + 0 + 1))
    with (String.length (dir ++ String PosixPath.sep ""))
    by (rewrite length_append_one; lia).
  rewrite <- (drop_append (dir ++ String PosixPath.sep "") name) at 2.
  rewrite append_assoc. reflexivity.
Qed.








(** The loop of [transcribe] puts one space after every segment. *)
Lemma collect_spaced texts : collect texts = spaced texts.
Proof.
  unfold collect, spaced.
  assert (H : forall acc,
    fold_left (fun transcription text => transcription ++ text ++ " ")
              texts acc
    = acc ++ fold_right (fun text rest => text ++ " " ++ rest) "" texts).
  { induction texts as [| t ts IH]; intros acc; cbn.
    - symmetry. apply append_nil_r.
    - rewrite IH. rewrite !append_assoc. reflexivity. }
  apply (H "").
Qed.

Example basename_of_path :
  PosixPath.basename "/in/a.b/speech.wav" = "speech.wav"
  /\ PosixPath.basename "speech.wav" = "speech.wav"
  /\ PosixPath.basename "/in/" = "".
Proof. repeat split. Qed.

Example splitext_of_names :
  PosixPath.splitext "speech.tar.wav" = ("speech.tar", ".wav")
  /\ PosixPath.splitext ".hidden" = (".hidden", "")
  /\ PosixPath.splitext "...wav" = ("...wav", "")
  /\ PosixPath.splitext "a.d/noext" = ("a.d/noext", "").
Proof. repeat split. Qed.

Example suffix_of_names :
  PyStr.lower (PosixPath.suffix "Talk.MP3") = ".mp3"
  /\ PosixPath.suffix "a.tar.gz" = ".gz"
  /\ PosixPath.suffix ".mp3" = ""
  /\ PosixPath.suffix "x." = "".
Proof. repeat split. Qed.

Example join_of_paths :
  PosixPath.join "/out" "a.txt" = "/out/a.txt"
  /\ PosixPath.join "/out/" "a.txt" = "/out/a.txt"
  /\ PosixPath.join "" "a.txt" = "a.txt"
  /\ PosixPath.join "/out" "/abs.txt" = "/abs.txt".
Proof. repeat split. Qed.

Example strip_of_text :
  PyStr.strip "  Hello   world.  " = "Hello   world."
  /\ PyStr.strip "   " = "".
Proof. repeat split. Qed.

(** ** The engine *)

Section Facts.

Context {World Model : Type}.
Variable P : Platform World Model.

Abbreviation Sys := (Sys World Model).

Lemma add_directory_missing (s : Sys) source_dir output_dir :
  os_path_exists P source_dir (env s) = false ->
  add_directory P source_dir output_dir s
  = Raise (DirectoryNotFound source_dir) s.
Proof.
  intros H. unfold add_directory, bind, ask. rewrite H. reflexivity.
Qed.

Lemma add_file_missing (s : Sys) file_path output_dir :
  os_path_exists P file_path (env s) = false ->
  add_file P file_path output_dir s = Raise (FileNotFound file_path) s.
Proof.
  intros H. unfold add_file, bind, ask. rewrite H. reflexivity.
Qed.

Lemma _load_model_loaded (s : Sys) m :
  model (whisper_service s) = Some m -> _load_model P s = Ret true s.
Proof.
  intros H. unfold _load_model, bind, service. rewrite H. reflexivity.
Qed.

Lemma _load_model_unavailable (s : Sys) :
  model (whisper_service s) = None ->
  FASTER_WHISPER_AVAILABLE P = false ->
  _load_model P s = Ret false s.
Proof.
  intros H Ha. unfold _load_model, bind, service. rewrite H, Ha. reflexivity.
Qed.

Lemma _load_model_attempt (s : Sys) :
  model (whisper_service s) = None ->
  _loading (whisper_service s) = false ->
  FASTER_WHISPER_AVAILABLE P = true ->
  _load_model P s = Ret (fst (load_attempt P s)) (snd (load_attempt P s)).
Proof.
  intros Hm Hl Ha.
  unfold _load_model, load_attempt, bind, service.
  rewrite Hm, Ha. cbn [negb]. rewrite Hm, Hl.
  unfold try_finally, try_except, bind, now, call, update_service, modify,
    ret, raise.
  cbn [env set_service set_env whisper_service].
  destruct (time_time P (env s)) as [t0 w0]. cbn [env set_env].
  destruct (WhisperModel P _ _ _ w0) as [[e | m] w1]; cbn [env set_env].
  - destruct (whisper_service s); reflexivity.
  - destruct (time_time P w1) as [t1 w2]. destruct (whisper_service s); reflexivity.
Qed.

(** From a state where no load is in progress, [_load_model] returns, the
    processor is untouched, no load is left in progress, and [True] means
    a model is there. *)
Lemma _load_model_returns (s : Sys) :
  _loading (whisper_service s) = false ->
  exists b s',
    _load_model P s = Ret b s'
    /\ file_queue_processor s' = file_queue_processor s
    /\ threads_created s' = threads_created s
    /\ _loading (whisper_service s') = false
    /\ ws_stats (whisper_service s') = ws_stats (whisper_service s)
    /\ (b = true -> exists m, model (whisper_service s') = Some m).
Proof.
  intros Hl.
  destruct (model (whisper_service s)) as [m |] eqn:Hm.
  - exists true, s. rewrite (_load_model_loaded s m Hm). eauto 10.
  - destruct (FASTER_WHISPER_AVAILABLE P) eqn:Ha.
    + rewrite (_load_model_attempt s Hm Hl Ha). unfold load_attempt.
      destruct (time_time P (env s)) as [t0 w0].
      destruct (WhisperModel P _ _ _ w0) as [[e | m] w1].
      * eexists _, _. split; [reflexivity |]. cbn. repeat split; congruence.
      * destruct (time_time P w1) as [t1 w2].
        eexists _, _. split; [reflexivity |]. cbn. repeat split; eauto.
    + rewrite (_load_model_unavailable s Hm Ha).
      exists false, s. repeat split; congruence.
Qed.

Lemma transcribe_unfold file_path language (s : Sys) :
  transcribe P file_path language s
  = match _load_model P s with
    | Ret true s1 =>
        Ret (fst (transcribe_loaded P file_path language s1))
            (snd (transcribe_loaded P file_path language s1))
    | Ret false s1 => Ret (None, Some "Model not available") s1
    | Raise e s1 => Raise e s1
    | Hang => Hang
    end.
Proof.
  unfold transcribe at 1. unfold bind at 1.
  destruct (_load_model P s) as [[|] s1 | e s1 |]; try reflexivity.
  cbn [negb]. unfold transcribe_loaded.
  unfold try_except, bind, now, call, update_service, modify, service, ret,
    raise, lift_result.
  destruct (time_time P (env s1)) as [t0 w0].
  cbn [env set_env whisper_service set_service].
  destruct (model (whisper_service s1)) as [m |].
  - cbn [env set_env whisper_service set_service].
    destruct (model_transcribe P m file_path language w0) as [[e | texts] w1].
    + reflexivity.
    + cbn [env set_env whisper_service set_service].
      destruct (time_time P w1) as [t1 w2].
      cbn [env set_env whisper_service set_service ws_stats set_ws_stats
           ws_total_time ws_total_processed].
      destruct (float_div_int _ _) as [e | avg]; reflexivity.
  - reflexivity.
Qed.

Lemma transcribe_loaded_frame file_path language (s : Sys) :
  let s' := snd (transcribe_loaded P file_path language s) in
  file_queue_processor s' = file_queue_processor s
  /\ threads_created s' = threads_created s
  /\ _loading (whisper_service s') = _loading (whisper_service s).
Proof.
  unfold transcribe_loaded.
  destruct (time_time P (env s)) as [t0 w0].
  destruct (model (whisper_service s)) as [m |]; [| cbn; auto].
  destruct (model_transcribe P m file_path language w0) as [[e | texts] w1];
    [cbn; auto |].
  destruct (time_time P w1) as [t1 w2].
  destruct (float_div_int _ _); cbn; auto.
Qed.

(** [transcribe] always returns (it raises nothing), leaves the processor
    alone and leaves no load in progress. *)
Lemma transcribe_returns file_path language (s : Sys) :
  _loading (whisper_service s) = false ->
  exists r s',
    transcribe P file_path language s = Ret r s'
    /\ file_queue_processor s' = file_queue_processor s
    /\ threads_created s' = threads_created s
    /\ _loading (whisper_service s') = false.
Proof.
  intros Hl. rewrite transcribe_unfold.
  destruct (_load_model_returns s Hl) as (b & s1 & -> & Hp & Ht & Hl1 & _ & _).
  destruct b.
  - destruct (transcribe_loaded_frame file_path language s1) as (Hp' & Ht' & Hl').
    eexists _, _. split; [reflexivity |].
    repeat split; congruence.
  - eexists _, _. split; [reflexivity |]. auto.
Qed.

Lemma _save_transcription_frame file_path text output_dir (s : Sys) :
  match _save_transcription P file_path text output_dir s with
  | Ret _ s' | Raise _ s' =>
      same_processor s s' /\ whisper_service s' = whisper_service s
  | Hang => False
  end.
Proof.
  unfold _save_transcription, bind, lift_result, ask, call, ret, raise.
  destruct (fspath output_dir) as [e | dir]; [cbn; unfold same_processor; auto |].
  destruct (write_text P _ _ (env s)) as [[e | []] w];
    cbn; unfold same_processor; auto.
Qed.

Lemma process_attempt_frame file_path output_dir start_time (s : Sys) :
  idle s ->
  match process_attempt P file_path output_dir start_time s with
  | Ret _ s' | Raise _ s' => same_processor s s' /\ idle s'
  | Hang => False
  end.
Proof.
  intros Hi. unfold process_attempt, bind at 1, call.
  destruct (convert_to_wav P file_path (env s)) as [[e | [wav |]] w];
    try (cbn; unfold same_processor, idle; auto; fail).
  unfold bind at 1.
  destruct (transcribe_returns wav None (set_env w s) Hi)
    as ([text err] & s1 & -> & Hp & Ht & Hl).
  destruct (is_error err); [cbn; unfold same_processor, idle; auto |].
  destruct (is_blank text); [cbn; unfold same_processor, idle; auto |].
  unfold bind at 1.
  pose proof (_save_transcription_frame file_path
                match text with Some t => t | None => "" end output_dir s1) as Hs.
  destruct (_save_transcription P _ _ _ s1) as [[] s2 | e s2 |]; try tauto.
  - destruct Hs as ((Hp2 & Ht2) & Hv2).
    unfold bind, now, ret. destruct (time_time P (env s2)) as [t1 w1].
    cbn. unfold same_processor, idle in *. cbn in *.
    repeat split; congruence.
  - destruct Hs as ((Hp2 & Ht2) & Hv2).
    unfold same_processor, idle in *. cbn in *. repeat split; congruence.
Qed.

(** [_process_file] on an item as [add_file] and [add_directory] build
    them: whatever the attempt does, it returns, and it has recorded one
    success or one failure. *)
Lemma _process_file_wellformed (item : Item) file_path output_dir (s : Sys) :
  item !! "file_path" = Some (PStr file_path) ->
  item !! "output_dir" = Some output_dir ->
  _process_file P item s
  = let '(t0, s0) := begin_item P file_path s in
    match process_attempt P file_path output_dir t0 s0 with
    | Ret process_time s1 => Ret tt (with_stats (record_success process_time) s1)
    | Raise _ s1 => Ret tt (with_stats record_failure s1)
    | Hang => Hang
    end.
Proof.
  intros Hf Ho. unfold _process_file, item_get, begin_item.
  rewrite Hf, Ho.
  unfold bind at 1. unfold ret at 1. unfold bind at 1. unfold ret at 1.
  unfold bind at 1. unfold now at 1.
  destruct (time_time P (env s)) as [t0 w0].
  unfold bind at 1. cbn [fspath lift_result]. unfold ret at 1.
  unfold bind at 1. unfold update_stats at 1, update_self at 1, modify at 1.
  fold (with_stats (set_current_file (Some (PosixPath.basename file_path)))
                   (set_env w0 s)).
  unfold try_finally, try_except, bind, update_stats, update_self, modify,
    ret, raise.
  destruct (process_attempt P file_path output_dir t0 _) as [pt s1 | e s1 |];
    [| | reflexivity].
  - unfold with_stats. destruct s1 as [w v [q th r st se ds do] n]. reflexivity.
  - unfold with_stats. destruct s1 as [w v [q th r st se ds do] n]. reflexivity.
Qed.

Lemma _process_queue_body_empty (s : Sys) :
  q_items (queue (file_queue_processor s)) = [] ->
  _process_queue_body P s = Ret tt s.
Proof.
  intros H. unfold _process_queue_body. py_unfold. rewrite H. reflexivity.
Qed.

Lemma _process_queue_body_cons (s : Sys) item rest :
  q_items (queue (file_queue_processor s)) = item :: rest ->
  _process_queue_body P s
  = match _process_file P item (dequeued rest s) with
    | Ret _ s1 =>
        match queue_task_done s1 with
        | Raise _ s2 => Ret tt (with_stats bump_failed s2)
        | o => o
        end
    | Raise _ s1 => Ret tt (with_stats bump_failed s1)
    | Hang => Hang
    end.
Proof.
  intros H.
  unfold _process_queue_body.
  cbv beta iota delta
    [try_except bind ret raise modify self update_self update_stats
     queue_get queue_qsize].
  rewrite H. cbn [file_queue_processor set_processor queue set_queue q_items].
  match goal with
  | |- context [_process_file P item ?x] => change x with (dequeued rest s)
  end.
  destruct (_process_file P item (dequeued rest s)) as [[] s1 | e s1 |];
    try reflexivity.
Qed.

Lemma begin_item_frame file_path (s : Sys) :
  let s0 := snd (begin_item P file_path s) in
  whisper_service s0 = whisper_service s
  /\ threads_created s0 = threads_created s
  /\ file_queue_processor s0
     = set_stats (set_current_file (Some (PosixPath.basename file_path))
                                   (stats (file_queue_processor s)))
                 (file_queue_processor s).
Proof.
  unfold begin_item. destruct (time_time P (env s)) as [t0 w0]. cbn. auto.
Qed.

Lemma wellformed_inv (item : Item) :
  wellformed item = true ->
  exists file_path output_dir,
    item !! "file_path" = Some (PStr file_path)
    /\ item !! "output_dir" = Some output_dir.
Proof.
  unfold wellformed.
  destruct (item !! "file_path") as [[fp | | |] |]; try discriminate.
  destruct (item !! "output_dir") as [od |]; try discriminate.
  eauto.
Qed.

(** One pass of the loop body over a well-formed item. *)
Lemma _process_queue_body_item (s : Sys) item rest :
  q_items (queue (file_queue_processor s)) = item :: rest ->
  wellformed item = true ->
  idle s ->
  0 < unfinished_tasks (queue (file_queue_processor s)) ->
  exists s',
    _process_queue_body P s = Ret tt s'
    /\ idle s'
    /\ threads_created s' = threads_created s
    /\ file_queue_processor s'
       = set_stats (item_stats P item (dequeued rest s))
           (set_queue
              (mkQueue rest
                 (unfinished_tasks (queue (file_queue_processor s)) - 1))
              (file_queue_processor s)).
Proof.
  intros Hq Hw Hi Hu.
  destruct (wellformed_inv item Hw) as (fp & od & Hf & Ho).
  rewrite (_process_queue_body_cons s item rest Hq).
  rewrite (_process_file_wellformed item fp od _ Hf Ho).
  unfold item_stats, item_attempt. rewrite Hw, Hf, Ho.
  pose proof (begin_item_frame fp (dequeued rest s)) as (Hv0 & Ht0 & Hp0).
  destruct (begin_item P fp (dequeued rest s)) as [t0 s0]. cbn [snd] in *.
  assert (Hi0 : idle s0) by (unfold idle in *; rewrite Hv0; exact Hi).
  pose proof (process_attempt_frame fp od t0 s0 Hi0) as Hframe.
  assert (Hdone : forall f s1,
    same_processor s0 s1 -> idle s1 ->
    exists s',
      match queue_task_done (with_stats f s1) with
      | Raise _ s2 => Ret tt (with_stats bump_failed s2)
      | o => o
      end = Ret tt s'
      /\ idle s' /\ threads_created s' = threads_created s
      /\ file_queue_processor s'
         = set_stats (f (stats (file_queue_processor s0)))
             (set_queue
                (mkQueue rest
                   (unfinished_tasks (queue (file_queue_processor s)) - 1))
                (file_queue_processor s))).
  { intros f s1 (Hp1 & Ht1) Hi1.
    unfold queue_task_done. py_unfold.
    cbn [with_stats file_queue_processor set_processor set_stats queue].
    rewrite Hp1, Hp0.
    cbn [dequeued with_stats file_queue_processor set_processor set_stats
         set_queue queue unfinished_tasks].
    destruct (Z.ltb_spec
      (unfinished_tasks (queue (file_queue_processor s)) - 1) 0) as [Hlt | Hge];
      [lia |].
    eexists. split; [reflexivity |].
    unfold idle in *. cbn. repeat split; try congruence.
    - rewrite Ht1, Ht0. reflexivity.
    - rewrite Hp1, Hp0. reflexivity. }
  destruct (process_attempt P fp od t0 s0) as [pt s1 | e s1 |];
    [| | contradiction].
  - destruct Hframe as (Hsp & Hi1).
    destruct (Hdone (record_success pt) s1 Hsp Hi1)
      as (s' & E & ? & ? & Hp').
    exists s'. rewrite E. repeat split; trivial.
    rewrite Hp', Hp0. destruct Hsp as (Hp1 & _). reflexivity.
  - destruct Hframe as (Hsp & Hi1).
    destruct (Hdone record_failure s1 Hsp Hi1)
      as (s' & E & ? & ? & Hp').
    exists s'. rewrite E. repeat split; trivial.
    rewrite Hp', Hp0. reflexivity.
Qed.

Lemma item_fails_malformed item (s : Sys) :
  wellformed item = false -> item_fails P item s = true.
Proof.
  unfold wellformed, item_fails, item_attempt.
  destruct (item !! "file_path") as [[fp | | |] |]; try reflexivity.
  destruct (item !! "output_dir"); [discriminate | reflexivity].
Qed.

Lemma item_stats_counts item (s : Sys) :
  let st := stats (file_queue_processor s) in
  let st' := item_stats P item s in
  let k := if item_fails P item s then 1 else 0 in
  total_processed st' = total_processed st + (if wellformed item then 1 else 0)
  /\ failed_processed st' = failed_processed st + k
  /\ successful_processed st' = successful_processed st + (1 - k).
Proof.
  cbv zeta. unfold item_stats.
  destruct (wellformed item) eqn:Hw.
  - unfold item_fails. destruct (item_attempt P item s); cbn; repeat split; lia.
  - rewrite (item_fails_malformed item s Hw). cbn. repeat split; lia.
Qed.

(** A malformed item makes [_process_file] raise before its [try]. *)
Lemma _process_file_malformed (item : Item) (s : Sys) :
  wellformed item = false ->
  exists e s1,
    _process_file P item s = Raise e s1
    /\ same_processor s s1
    /\ whisper_service s1 = whisper_service s.
Proof.
  unfold wellformed, _process_file, same_processor. py_unfold.
  destruct (item !! "file_path") as [v |]; [| eauto 10].
  destruct (item !! "output_dir") as [od |].
  - destruct v as [fp | x | n |]; [discriminate | | |]; intros _;
      destruct (time_time P (env s)) as [t0 w0]; cbn; eauto 10.
  - destruct v; eauto 10.
Qed.

(** One pass of the loop body over a malformed item. *)
Lemma _process_queue_body_malformed (s : Sys) item rest :
  q_items (queue (file_queue_processor s)) = item :: rest ->
  wellformed item = false ->
  exists s',
    _process_queue_body P s = Ret tt s'
    /\ whisper_service s' = whisper_service s
    /\ threads_created s' = threads_created s
    /\ file_queue_processor s'
       = set_stats (item_stats P item (dequeued rest s))
           (set_queue
              (mkQueue rest (unfinished_tasks (queue (file_queue_processor s))))
              (file_queue_processor s)).
Proof.
  intros Hq Hw.
  rewrite (_process_queue_body_cons s item rest Hq).
  destruct (_process_file_malformed item (dequeued rest s) Hw)
    as (e & s1 & -> & (Hp1 & Ht1) & Hv1).
  eexists. split; [reflexivity |].
  unfold item_stats. rewrite Hw. cbn. rewrite Hp1. cbn.
  repeat split.
  - rewrite Hv1. reflexivity.
  - rewrite Ht1. reflexivity.
Qed.

Lemma failures_bounds n (s : Sys) : 0 <= failures P n s <= Z.of_nat n.
Proof.
  revert s. induction n as [| n IH]; intros s; cbn [failures]; [lia |].
  destruct (q_items _) as [| item rest]; [lia |].
  specialize (IH (next P s)). destruct (item_fails P _ _); lia.
Qed.

(** The worker drains the queue whatever fails. *)
Lemma drain (n : nat) : forall s : Sys,
  is_running (file_queue_processor s) = true ->
  idle s ->
  length (q_items (queue (file_queue_processor s))) = n ->
  Z.of_nat n <= unfinished_tasks (queue (file_queue_processor s)) ->
  exists s',
    _process_queue P n s = Ret Looping s'
    /\ idle s'
    /\ threads_created s' = threads_created s
    /\ q_items (queue (file_queue_processor s')) = []
    /\ is_running (file_queue_processor s') = true
    /\ total_processed (stats (file_queue_processor s'))
       = total_processed (stats (file_queue_processor s))
         + Z.of_nat (length (filter (fun i => wellformed i = true)
                               (q_items (queue (file_queue_processor s)))))
    /\ failed_processed (stats (file_queue_processor s'))
       = failed_processed (stats (file_queue_processor s)) + failures P n s
    /\ successful_processed (stats (file_queue_processor s'))
       = successful_processed (stats (file_queue_processor s))
         + (Z.of_nat n - failures P n s).
Proof.
  induction n as [| n IH]; intros s Hr Hi Hn Hu.
  - exists s. cbn [_process_queue failures]. unfold ret.
    destruct (q_items _); [| discriminate].
    repeat split; trivial; cbn; lia.
  - destruct (q_items (queue (file_queue_processor s))) as [| item rest] eqn:Hq;
      [discriminate |].
    assert (Hstep : exists s1,
      _process_queue_body P s = Ret tt s1
      /\ idle s1
      /\ threads_created s1 = threads_created s
      /\ exists u, Z.of_nat n <= u
         /\ file_queue_processor s1
            = set_stats (item_stats P item (dequeued rest s))
                (set_queue (mkQueue rest u) (file_queue_processor s))).
    { destruct (wellformed item) eqn:Hw.
      - destruct (_process_queue_body_item s item rest Hq Hw Hi ltac:(lia))
          as (s1 & Hbody & Hi1 & Ht1 & Hp1).
        exists s1. repeat split; trivial. eexists. split; [| exact Hp1]. lia.
      - destruct (_process_queue_body_malformed s item rest Hq Hw)
          as (s1 & Hbody & Hv1 & Ht1 & Hp1).
        exists s1. repeat split; trivial.
        + unfold idle in *. congruence.
        + eexists. split; [| exact Hp1]. lia. }
    destruct Hstep as (s1 & Hbody & Hi1 & Ht1 & u & Hu1 & Hp1).
    assert (Hnext : next P s = s1) by (unfold next; rewrite Hbody; reflexivity).
    destruct (IH s1) as (s' & Hrun & Hi' & Ht' & Hq' & Hr' & Htot & Hfail & Hok).
    + rewrite Hp1. exact Hr.
    + exact Hi1.
    + rewrite Hp1. cbn in *. lia.
    + rewrite Hp1. cbn. lia.
    + exists s'. cbn [_process_queue failures]. rewrite Hq.
      unfold bind at 1, self. rewrite Hr. unfold bind at 1. rewrite Hbody.
      rewrite Hnext.
      pose proof (item_stats_counts item (dequeued rest s)) as (Ct & Cf & Cs).
      rewrite Hp1 in Htot, Hfail, Hok.
      cbn [stats set_stats queue set_queue q_items] in Htot, Hfail, Hok.
      cbn in Ct, Cf, Cs.
      rewrite filter_cons.
      repeat split; trivial; try congruence; try lia.
      destruct (decide (wellformed item = true)) as [E | E].
      * rewrite E in Ct. cbn [length]. lia.
      * destruct (wellformed item); [congruence |]. lia.
Qed.

(** An item without ['file_path'] raises before the [try] of
    [_process_file] is entered. *)
Lemma _process_file_no_path (item : Item) (s : Sys) :
  item !! "file_path" = None ->
  _process_file P item s = Raise (KeyError "file_path") s.
Proof.
  intros H. unfold _process_file. py_unfold. rewrite H. reflexivity.
Qed.


(** The four ways an attempt fails.  Conversion gives no path: *)
Lemma attempt_conversion_failed file_path output_dir start_time (s : Sys) w :
  convert_to_wav P file_path (env s) = (inr None, w) ->
  process_attempt P file_path output_dir start_time s
  = Raise (ValueError "Failed to convert audio to WAV format") (set_env w s).
Proof.
  intros H. unfold process_attempt. unfold bind at 1, call. rewrite H.
  reflexivity.
Qed.

(** transcription reports an error, or gives a blank text: *)
Lemma attempt_transcription_failed file_path output_dir start_time
    (s s1 : Sys) w wav text err :
  convert_to_wav P file_path (env s) = (inr (Some wav), w) ->
  transcribe P wav None (set_env w s) = Ret (text, err) s1 ->
  is_error err || is_blank text = true ->
  exists msg,
    process_attempt P file_path output_dir start_time s
    = Raise (ValueError msg) s1.
Proof.
  intros Hc Ht Hb. unfold process_attempt. unfold bind at 1, call. rewrite Hc.
  unfold bind at 1. rewrite Ht.
  destruct (is_error err); [eexists; reflexivity |].
  destruct (is_blank text); [eexists; reflexivity | discriminate].
Qed.

(** the file cannot be written: *)
Lemma attempt_persist_failed file_path output_dir start_time
    (s s1 s2 : Sys) w wav text e :
  convert_to_wav P file_path (env s) = (inr (Some wav), w) ->
  transcribe P wav None (set_env w s) = Ret (Some text, None) s1 ->
  is_blank (Some text) = false ->
  _save_transcription P file_path text output_dir s1 = Raise e s2 ->
  process_attempt P file_path output_dir start_time s = Raise e s2.
Proof.
  intros Hc Ht Hb Hs. unfold process_attempt. unfold bind at 1, call.
  rewrite Hc. unfold bind at 1. rewrite Ht. cbn [is_error]. rewrite Hb.
  unfold bind at 1. rewrite Hs. reflexivity.
Qed.

Lemma put_files_spec files output_dir : forall s : Sys,
  put_files P files output_dir s
  = let '(items, w) := stamped P files output_dir (env s) in
    let p := file_queue_processor s in
    Ret tt (mkSys w (whisper_service s)
              (set_queue
                 (mkQueue (q_items (queue p) ++ items)
                    (unfinished_tasks (queue p) + Z.of_nat (length items)))
                 p)
              (threads_created s)).
Proof.
  induction files as [| f rest IH]; intros s.
  - cbn. unfold ret. rewrite app_nil_r, Z.add_0_r.
    destruct s as [w v [[q u] th r st se ds do] n]. reflexivity.
  - cbn [put_files stamped]. unfold bind at 1, now.
    destruct (time_time P (env s)) as [t w1].
    unfold bind at 1, queue_put, update_self, modify. rewrite IH.
    cbn [env set_env set_processor].
    destruct (stamped P rest output_dir w1) as [items w2].
    cbn. rewrite <- app_assoc. cbn.
    replace (unfinished_tasks (queue (file_queue_processor s)) + 1
             + Z.of_nat (length items))
      with (unfinished_tasks (queue (file_queue_processor s))
            + Z.pos (Pos.of_succ_nat (length items))) by lia.
    reflexivity.
Qed.

Lemma stamped_paths files output_dir w :
  map (fun i : Item => (i !! "file_path", i !! "output_dir"))
      (fst (stamped P files output_dir w))
  = map (fun f => (Some (PStr f), Some (PStr output_dir))) files.
Proof.
  revert w. induction files as [| f rest IH]; intros w; [reflexivity |].
  cbn [stamped]. destruct (time_time P w) as [t w1].
  specialize (IH w1). destruct (stamped P rest output_dir w1) as [items w2].
  cbn [fst map] in *. rewrite IH. reflexivity.
Qed.

(** The files [_find_audio_files] returns are the scan of the walk. *)
Lemma _find_audio_files_scan directory (s : Sys) :
  supported_extensions (file_queue_processor s) = supported ->
  _find_audio_files P directory s
  = Ret (scan (os_walk P directory (env s))) s.
Proof.
  intros Hs. unfold _find_audio_files. py_unfold. f_equal.
  unfold scan, is_supported. rewrite Hs.
  induction (os_walk P directory (env s)) as [| [[root dirs] files] walk IH];
    [reflexivity |].
  cbn [flat_map]. rewrite IH. f_equal.
  clear IH. induction files as [| file files IH]; [reflexivity |].
  cbn [flat_map List.filter map].
  destruct (existsb _ supported); cbn [map app]; [f_equal |]; exact IH.
Qed.




(** *** Reachable states *)

Lemma wellformed_make_item file_path output_dir t :
  wellformed (make_item file_path output_dir t) = true.
Proof. reflexivity. Qed.

Lemma stamped_wellformed files output_dir w :
  forallb wellformed (fst (stamped P files output_dir w)) = true.
Proof.
  revert w. induction files as [| f rest IH]; intros w; [reflexivity |].
  cbn [stamped]. destruct (time_time P w) as [t w1].
  specialize (IH w1). destruct (stamped P rest output_dir w1) as [items w2].
  cbn [fst forallb] in *. rewrite IH. reflexivity.
Qed.

Lemma sound_set_env (s : Sys) w : sound s -> sound (set_env w s).
Proof. intros H. exact H. Qed.

(** A state with the same processor and no load in progress is sound. *)
Lemma sound_same_processor (s s' : Sys) :
  sound s -> file_queue_processor s' = file_queue_processor s -> idle s' ->
  sound s'.
Proof.
  unfold sound. intros (_ & H) Hp Hi. rewrite Hp. split; assumption.
Qed.

Lemma sound_initial w : sound (initial P w).
Proof. unfold sound, idle, consistent. cbn. repeat split; lia. Qed.

Lemma start_sound (s : Sys) :
  sound s -> exists s', state_after (start s) = Some s' /\ sound s'.
Proof.
  unfold start. py_unfold. intros H.
  destruct (is_running (file_queue_processor s)); cbn;
    eexists; (split; [reflexivity | exact H]).
Qed.

Lemma stop_sound (s : Sys) :
  sound s -> exists s', state_after (stop s) = Some s' /\ sound s'.
Proof.
  unfold stop. py_unfold. intros H. cbn.
  destruct (processing_thread (file_queue_processor s)); cbn;
    eexists; (split; [reflexivity | exact H]).
Qed.

Lemma clear_queue_sound (s : Sys) :
  sound s -> exists s', state_after (clear_queue s) = Some s' /\ sound s'.
Proof.
  unfold clear_queue. py_unfold. cbn. intros (Hi & Hw & Hu & Hc & Hs).
  eexists. split; [reflexivity |].
  unfold sound, idle, consistent in *. cbn.
  repeat split; trivial; lia.
Qed.

Lemma get_status_keeps_state (s : Sys) :
  state_after (get_status s) = Some s.
Proof.
  unfold get_status. py_unfold.
  destruct (0 <? total_processed (stats (file_queue_processor s)));
    [| reflexivity].
  destruct (float_div_int _ _); reflexivity.
Qed.

Lemma add_file_sound file_path output_dir (s : Sys) :
  sound s ->
  exists s', state_after (add_file P file_path output_dir s) = Some s'
             /\ sound s'.
Proof.
  intros H. unfold add_file. py_unfold.
  destruct (os_path_exists P file_path (env s)); cbn [negb];
    [| exists s; split; [reflexivity | exact H]].
  destruct (os_makedirs P _ (env s)) as [[e | []] w];
    [eexists; split; [reflexivity | exact H] |].
  cbn [env set_env]. destruct (time_time P w) as [t w1].
  eexists. split; [reflexivity |].
  destruct H as (Hi & Hw & Hu & Hc & Hs).
  unfold sound, idle, consistent in *. cbn.
  rewrite forallb_app, Hw, length_app. cbn.
  repeat split; trivial; lia.
Qed.

Lemma stamped_length files output_dir w :
  length (fst (stamped P files output_dir w)) = length files.
Proof.
  revert w. induction files as [| f rest IH]; intros w; [reflexivity |].
  cbn [stamped]. destruct (time_time P w) as [t w1].
  specialize (IH w1). destruct (stamped P rest output_dir w1) as [items w2].
  cbn [fst length] in *. rewrite IH. reflexivity.
Qed.

Lemma add_directory_sound source_dir output_dir (s : Sys) :
  sound s ->
  exists s', state_after (add_directory P source_dir output_dir s) = Some s'
             /\ sound s'.
Proof.
  intros H. unfold add_directory. unfold bind at 1, ask.
  destruct (os_path_exists P source_dir (env s)); cbn [negb];
    [| exists s; split; [reflexivity | exact H]].
  unfold bind at 1, self. unfold bind at 1, call.
  destruct (os_makedirs P _ (env s)) as [[e | []] w];
    [eexists; split; [reflexivity | exact H] |].
  unfold bind at 1.
  destruct H as (Hi & Hw & Hu & Hc & Hs).
  rewrite (_find_audio_files_scan source_dir (set_env w s) Hs).
  destruct (scan _) as [| f rest].
  - eexists. split; [reflexivity |]. repeat split; assumption.
  - unfold bind at 1. rewrite put_files_spec. cbn [env set_env].
    pose proof (stamped_wellformed (f :: rest)
                  match output_dir with
                  | Some d => d
                  | None => default_output_dir (file_queue_processor s)
                  end w) as Hst.
    destruct (stamped P (f :: rest) _ w) as [items w2]. cbn [fst] in Hst.
    py_unfold. eexists. split; [reflexivity |].
    unfold sound, idle, consistent in *. cbn.
    rewrite forallb_app, Hw, Hst, length_app.
    repeat split; trivial; lia.
Qed.

Lemma transcribe_sound file_path language (s : Sys) :
  sound s ->
  exists s', state_after (transcribe P file_path language s) = Some s'
             /\ sound s'.
Proof.
  intros H.
  destruct (transcribe_returns file_path language s (proj1 H))
    as (r & s' & -> & Hp & _ & Hi).
  exists s'. split; [reflexivity |].
  exact (sound_same_processor s s' H Hp Hi).
Qed.

Lemma is_ready_sound (s : Sys) :
  sound s ->
  exists s', state_after (is_ready P s) = Some s' /\ sound s'.
Proof.
  intros H. unfold is_ready. unfold bind, service.
  destruct (model (whisper_service s)).
  - exists s. split; [reflexivity | exact H].
  - destruct (_load_model_returns s (proj1 H))
      as (b & s' & -> & Hp & _ & Hi & _).
    exists s'. split; [reflexivity |].
    exact (sound_same_processor s s' H Hp Hi).
Qed.

Lemma consistent_item_stats item (s : Sys) :
  wellformed item = true ->
  consistent (stats (file_queue_processor s)) ->
  consistent (item_stats P item s).
Proof.
  intros Hw Hc. unfold consistent in *.
  pose proof (item_stats_counts item s) as (Ct & Cf & Cs).
  rewrite Hw in Ct. destruct (item_fails P item s); lia.
Qed.

Lemma worker_pass_sound (s : Sys) :
  sound s ->
  exists s', state_after (_process_queue P 1 s) = Some s' /\ sound s'.
Proof.
  intros H. cbn [_process_queue]. unfold bind at 1, self.
  destruct (is_running (file_queue_processor s));
    [| exists s; split; [reflexivity | exact H]].
  unfold bind at 1.
  destruct (q_items (queue (file_queue_processor s))) as [| item rest] eqn:Hq.
  - rewrite (_process_queue_body_empty s Hq).
    exists s. split; [reflexivity | exact H].
  - destruct H as (Hi & Hw & Hu & Hc & Hs). rewrite Hq in Hw, Hu.
    cbn [forallb length] in Hw, Hu. apply andb_prop in Hw as [Hw1 Hw2].
    destruct (_process_queue_body_item s item rest Hq Hw1 Hi ltac:(lia))
      as (s1 & -> & Hi1 & _ & Hp1).
    exists s1. split; [reflexivity |].
    unfold sound. rewrite Hp1. cbn.
    repeat split; trivial; try lia.
    apply consistent_item_stats; [exact Hw1 | exact Hc].
Qed.

(** Every operation returns from a sound state and leaves a sound one. *)
Lemma exec_sound op (s : Sys) :
  sound s -> exists s', exec P op s = Some s' /\ sound s'.
Proof.
  intros H. destruct op; cbn [exec].
  - apply start_sound, H.
  - apply stop_sound, H.
  - apply add_directory_sound, H.
  - apply add_file_sound, H.
  - exists s. split; [apply get_status_keeps_state | exact H].
  - apply clear_queue_sound, H.
  - apply transcribe_sound, H.
  - apply is_ready_sound, H.
  - apply worker_pass_sound, H.
Qed.

(** Every reachable state is sound: in particular its counters are
    consistent. *)
Lemma reachable_sound (s : Sys) : reachable P s -> sound s.
Proof.
  induction 1 as [w | op s s' _ IH E | s w _ IH].
  - apply sound_initial.
  - destruct (exec_sound op s IH) as (s'' & E' & H'). congruence.
  - exact IH.
Qed.

End Facts.

(** ** Enqueue-time errors *)

Section Enqueue.

Context {World Model : Type}.
Variable P : Platform World Model.

(** C4.  A path that does not exist is rejected by [add_directory] with
    [DirectoryNotFound] and by [add_file] with [FileNotFound]; the error
    goes to the caller and the state is the one before the call: nothing
    is queued and the output directory is not created. *)
Theorem missing_path_rejected (s : Sys World Model) path output_dir :
  os_path_exists P path (env s) = false ->
  add_directory P path output_dir s = Raise (DirectoryNotFound path) s
  /\ add_file P path output_dir s = Raise (FileNotFound path) s.
Proof.
  intros H. split.
  - unfold add_directory. py_unfold. rewrite H. reflexivity.
  - unfold add_file. py_unfold. rewrite H. reflexivity.
Qed.

End Enqueue.

Lemma missing_path_rejected_witness :
  add_directory Toy.platform "/no/such/path" None Toy.queued
  = Raise (DirectoryNotFound "/no/such/path") Toy.queued
  /\ add_file Toy.platform "/no/such/path" None Toy.queued
     = Raise (FileNotFound "/no/such/path") Toy.queued.
Proof.
  apply (missing_path_rejected Toy.platform Toy.queued "/no/such/path" None).
  vm_compute. reflexivity.
Defined.

(** ** Status *)

Section Status.

Context {World Model : Type}.

(** C7, as the code has it.  [get_status] does not look at whether the
    engine was started: in every state it returns the snapshot of that
    state, [is_running] included; it can only raise when [total_processed]
    is too large for a float, which no call of [start] changes. *)
Theorem get_status_any_state (s : Sys World Model) :
  let p := file_queue_processor s in
  let st := stats p in
  (exists average,
     get_status s
     = Ret (mkStatus (is_running p) (Z.of_nat (length (q_items (queue p))))
                     (current_file st) (total_processed st)
                     (successful_processed st) (failed_processed st)
                     (total_time st) average) s
     /\ (total_processed st <= 0 -> average = NumInt 0))
  \/ (0 < total_processed st
      /\ get_status s
         = Raise (OverflowError "int too large to convert to float") s).
Proof.
  cbv zeta. unfold get_status. py_unfold.
  destruct (Z.ltb_spec 0 (total_processed (stats (file_queue_processor s))))
    as [Hpos | Hle].
  - unfold float_div_int, int_to_float.
    destruct (PrimFloat.is_infinity _).
    + right. split; [exact Hpos | reflexivity].
    + destruct (Z.eqb_spec (total_processed (stats (file_queue_processor s))) 0)
        as [E | _]; [lia |].
      left. eexists. split; [reflexivity | lia].
  - left. eexists. split; [reflexivity | reflexivity].
Qed.

End Status.

(** C7, as the specification has it, fails: a query before any [start()]
    does not fail. *)
Lemma get_status_before_start :
  is_running (file_queue_processor Toy.sys0) = false
  /\ processing_thread (file_queue_processor Toy.sys0) = None
  /\ ~ (exists e s', get_status Toy.sys0 = Raise e s').
Proof.
  repeat split. intros (e & s' & H). vm_compute in H. discriminate H.
Qed.

(** ** The worker *)

Section WorkerClaims.

Context {World Model : Type}.
Variable P : Platform World Model.

(** C1, on the path the claim names.  When [_process_file] raises before
    its own handler is in place (here: the item has no ['file_path']), the
    handler of the loop adds one to [failed_processed] and leaves
    [total_processed] alone: statistics that were consistent are not any
    more. *)
Theorem outer_handler_skips_total (s : Sys World Model) item rest :
  q_items (queue (file_queue_processor s)) = item :: rest ->
  item !! "file_path" = None ->
  exists s',
    _process_queue_body P s = Ret tt s'
    /\ failed_processed (stats (file_queue_processor s'))
       = failed_processed (stats (file_queue_processor s)) + 1
    /\ total_processed (stats (file_queue_processor s'))
       = total_processed (stats (file_queue_processor s))
    /\ successful_processed (stats (file_queue_processor s'))
       = successful_processed (stats (file_queue_processor s))
    /\ (consistent (stats (file_queue_processor s)) ->
        ~ consistent (stats (file_queue_processor s'))).
Proof.
  intros Hq Hf.
  rewrite (_process_queue_body_cons P s item rest Hq).
  rewrite (_process_file_no_path P item _ Hf).
  eexists. split; [reflexivity |]. cbn. unfold consistent. cbn.
  repeat split; try reflexivity. lia.
Qed.


(** C5.  With the engine running and no model load in progress, as many
    passes of the loop as there are items queued take every item off the
    queue, whatever the items are and whichever of them fail; each failed
    item adds one to [failed_processed], each other one to
    [successful_processed], and the thread is still in the loop with
    [is_running] set. *)
Theorem worker_survives_failures (n : nat) (s : Sys World Model) :
  is_running (file_queue_processor s) = true ->
  idle s ->
  length (q_items (queue (file_queue_processor s))) = n ->
  Z.of_nat n <= unfinished_tasks (queue (file_queue_processor s)) ->
  exists s',
    _process_queue P n s = Ret Looping s'
    /\ q_items (queue (file_queue_processor s')) = []
    /\ is_running (file_queue_processor s') = true
    /\ failed_processed (stats (file_queue_processor s'))
       = failed_processed (stats (file_queue_processor s)) + failures P n s
    /\ successful_processed (stats (file_queue_processor s'))
       = successful_processed (stats (file_queue_processor s))
         + (Z.of_nat n - failures P n s)
    /\ 0 <= failures P n s <= Z.of_nat n.
Proof.
  intros Hr Hi Hn Hu.
  destruct (drain P n s Hr Hi Hn Hu)
    as (s' & H1 & _ & _ & H2 & H3 & H4 & H5 & H6).
  exists s'. pose proof (failures_bounds P n s). auto 10.
Qed.

End WorkerClaims.

Lemma outer_handler_skips_total_witness :
  exists s',
    _process_queue_body Toy.platform Toy.stray = Ret tt s'
    /\ failed_processed (stats (file_queue_processor s')) = 1
    /\ total_processed (stats (file_queue_processor s')) = 0
    /\ successful_processed (stats (file_queue_processor s')) = 0.
Proof.
  destruct (outer_handler_skips_total Toy.platform Toy.stray Toy.stray_item [])
    as (s' & E & Hf & Ht & Hs & _).
  - reflexivity.
  - reflexivity.
  - exists s'. split; [exact E |]. rewrite Hf, Ht, Hs. repeat split.
Defined.



(** The statistics after the successful item above: ten seconds went by
    between the two readings of the clock. *)
Example successful_item_adds_time :
  _process_file Toy.platform (make_item "/in/a.wav" "/out" 0%float) Toy.sys0
  = Ret tt Toy.heard
  /\ stats (file_queue_processor Toy.heard)
     = mkStats 1 1 0 10%float None 0.
Proof. split; vm_compute; reflexivity. Qed.

Lemma worker_survives_failures_witness :
  exists s',
    _process_queue Toy.platform 5 Toy.running = Ret Looping s'
    /\ q_items (queue (file_queue_processor s')) = []
    /\ is_running (file_queue_processor s') = true
    /\ failed_processed (stats (file_queue_processor s')) = 2
    /\ successful_processed (stats (file_queue_processor s')) = 3.
Proof.
  destruct (worker_survives_failures Toy.platform 5 Toy.running)
    as (s' & E & Hq & Hr & Hf & Hs & _).
  - reflexivity.
  - reflexivity.
  - reflexivity.
  - vm_compute. discriminate.
  - exists s'. rewrite Hf, Hs.
    repeat split; trivial; vm_compute; reflexivity.
Defined.

(** ** Scanning a directory *)

Section Scanner.

Context {World Model : Type}.
Variable P : Platform World Model.

(** C3, as the code has it.  For a root that exists and an output
    directory that can be created, [add_directory] appends to the queue
    one work item per file of the scan, in scan order, each with the
    resolved output directory; it returns their number when there is at
    least one, and returns no value ([None]) when there is none, in which
    case the queue is as before. *)
Theorem add_directory_enqueues_scan
    (s : Sys World Model) source_dir output_dir w1 :
  let p := file_queue_processor s in
  let out := match output_dir with
             | Some d => d
             | None => default_output_dir p
             end in
  let files := scan (os_walk P source_dir w1) in
  supported_extensions p = supported ->
  os_path_exists P source_dir (env s) = true ->
  os_makedirs P out (env s) = (inr tt, w1) ->
  exists s',
    add_directory P source_dir output_dir s
    = Ret (match files with
           | [] => None
           | _ => Some (Z.of_nat (length files))
           end) s'
    /\ exists items,
         q_items (queue (file_queue_processor s'))
         = (q_items (queue p) ++ items)%list
         /\ map (fun i : Item => (i !! "file_path", i !! "output_dir")) items
            = map (fun f => (Some (PStr f), Some (PStr out))) files
         /\ (files = [] -> file_queue_processor s' = p).
Proof.
  intros p out files Hs He Hm.
  unfold add_directory. unfold bind at 1, ask. rewrite He. cbn [negb].
  unfold bind at 1, self. fold p. fold out.
  unfold bind at 1, call. rewrite Hm.
  unfold bind at 1.
  rewrite (_find_audio_files_scan P source_dir (set_env w1 s) Hs).
  cbn [env set_env]. fold files.
  destruct files as [| f rest].
  - eexists. split; [reflexivity |]. exists []. rewrite app_nil_r.
    repeat split.
  - unfold bind at 1. rewrite put_files_spec. cbn [env set_env].
    pose proof (stamped_paths P (f :: rest) out w1) as Hpaths.
    destruct (stamped P (f :: rest) out w1) as [items w2].
    cbn [fst] in Hpaths. py_unfold.
    eexists. split; [reflexivity |].
    exists items. split; [reflexivity |].
    split; [exact Hpaths | discriminate].
Qed.

End Scanner.

Lemma add_directory_enqueues_scan_witness :
  exists s' items,
    add_directory Toy.platform "/in" (Some "/out") Toy.sys0 = Ret (Some 5) s'
    /\ q_items (queue (file_queue_processor s')) = items
    /\ map (fun i : Item => i !! "file_path") items
       = [Some (PStr "/in/a.wav"); Some (PStr "/in/bad_b.mp3");
          Some (PStr "/in/c.OGG"); Some (PStr "/in/sub/bad_d.flac");
          Some (PStr "/in/sub/e.m4a")].
Proof.
  destruct (add_directory_enqueues_scan Toy.platform Toy.sys0 "/in"
              (Some "/out")
              (snd (os_makedirs Toy.platform "/out" (env Toy.sys0))))
    as (s' & E & items & Hq & Hpaths & _).
  - reflexivity.
  - reflexivity.
  - reflexivity.
  - exists s', items. split; [exact E |]. split; [exact Hq |].
    apply (f_equal (map fst)) in Hpaths. rewrite !map_map in Hpaths.
    exact Hpaths.
Defined.

(** C3, as the specification has it, fails on a directory without audio
    files: the directory exists, the call returns, and what it returns is
    not the count 0. *)
Lemma add_directory_empty_returns_none :
  os_path_exists Toy.platform "/tmp/empty" (env Toy.sys0) = true
  /\ scan (os_walk Toy.platform "/tmp/empty" (env Toy.sys0)) = []
  /\ (exists s', add_directory Toy.platform "/tmp/empty" None Toy.sys0
                 = Ret None s')
  /\ ~ (exists s', add_directory Toy.platform "/tmp/empty" None Toy.sys0
                   = Ret (Some 0) s').
Proof.
  split; [reflexivity |]. split; [reflexivity |]. split.
  - eexists. vm_compute. reflexivity.
  - intros (s' & H). vm_compute in H. discriminate H.
Qed.

(** ** Stopping and starting *)

Section StopStart.

Context {World Model : Type}.
Variable P : Platform World Model.

(** C10.  [stop] clears [is_running] and changes nothing else: the queue
    with its pending items in order, every counter, the service and the
    world are as before.  A worker that then tests the loop condition
    leaves the loop without taking an item.  After a later [start] the
    flag is set again over the same queue and statistics, and the worker
    takes all the pending items off the queue. *)
Theorem stop_keeps_pending (s : Sys World Model) :
  let p := file_queue_processor s in
  exists s1,
    stop s = Ret tt s1
    /\ queue (file_queue_processor s1) = queue p
    /\ stats (file_queue_processor s1) = stats p
    /\ is_running (file_queue_processor s1) = false
    /\ env s1 = env s
    /\ whisper_service s1 = whisper_service s
    /\ (forall k, _process_queue P (S k) s1 = Ret Returned s1)
    /\ exists s2,
         start s1 = Ret tt s2
         /\ queue (file_queue_processor s2) = queue p
         /\ stats (file_queue_processor s2) = stats p
         /\ is_running (file_queue_processor s2) = true
         /\ (idle s ->
             Z.of_nat (length (q_items (queue p)))
             <= unfinished_tasks (queue p) ->
             exists s3,
               _process_queue P (length (q_items (queue p))) s2
               = Ret Looping s3
               /\ q_items (queue (file_queue_processor s3)) = []
               /\ successful_processed (stats (file_queue_processor s3))
                  + failed_processed (stats (file_queue_processor s3))
                  = successful_processed (stats p) + failed_processed (stats p)
                    + Z.of_nat (length (q_items (queue p)))).
Proof.
  cbv zeta. unfold stop. py_unfold.
  eexists. split.
  { destruct (processing_thread _); reflexivity. }
  cbn [file_queue_processor set_processor set_is_running queue stats
       is_running env whisper_service].
  repeat (split; [reflexivity |]).
  unfold start. py_unfold. cbn.
  eexists. split; [reflexivity |]. cbn.
  repeat (split; [reflexivity |]).
  intros Hi Hu.
  match goal with
  | |- context [_process_queue P _ ?s2] =>
      destruct (drain P (length (q_items (queue (file_queue_processor s)))) s2)
        as (s3 & E & _ & _ & Hq & _ & _ & Hf & Hs)
  end; try reflexivity; try assumption.
  exists s3. split; [exact E |]. split; [exact Hq |].
  cbn in Hf, Hs. lia.
Qed.

End StopStart.

Lemma stop_keeps_pending_witness :
  exists s1 s2 s3,
    stop Toy.queued = Ret tt s1
    /\ start s1 = Ret tt s2
    /\ _process_queue Toy.platform 5 s2 = Ret Looping s3
    /\ q_items (queue (file_queue_processor s3)) = [].
Proof.
  destruct (stop_keeps_pending Toy.platform Toy.queued)
    as (s1 & E1 & _ & _ & _ & _ & _ & _ & s2 & E2 & _ & _ & _ & H).
  destruct H as (s3 & E3 & Hq & _).
  - reflexivity.
  - vm_compute. discriminate.
  - exists s1, s2, s3. auto.
Defined.

(** ** The shared transcription resource *)

Section Resource.

Context {World Model : Type}.
Variable P : Platform World Model.


(** C9, as the code has it.  Once the model is loaded: when inference
    yields its segments, [transcribe] returns their texts, each followed
    by one space, concatenated and trimmed, with no error, and the
    statistics get one more processed file, the elapsed time added, and
    the average recomputed; when inference raises, [transcribe] returns
    the message of the exception, and only the error counter moves. *)
Theorem transcribe_result (s s1 : Sys World Model) m file_path language :
  _load_model P s = Ret true s1 ->
  model (whisper_service s1) = Some m ->
  let v := whisper_service s1 in
  let st := ws_stats v in
  let t0 := fst (time_time P (env s1)) in
  match model_transcribe P m file_path language
                         (snd (time_time P (env s1))) with
  | (inr texts, w1) =>
      let dt := (fst (time_time P w1) - t0)%float in
      forall avg,
        float_div_int (ws_total_time st + dt)%float (ws_total_processed st + 1)
        = inr avg ->
        transcribe P file_path language s
        = Ret (Some (PyStr.strip (spaced texts)), None)
              (mkSys (snd (time_time P w1))
                 (set_ws_stats
                    (mkWhisperStats (ws_total_processed st + 1)
                       (ws_total_time st + dt)%float (ws_errors st) avg) v)
                 (file_queue_processor s1) (threads_created s1))
  | (inl e, w1) =>
      transcribe P file_path language s
      = Ret (None, Some (str_of_exn e))
            (mkSys w1
               (set_ws_stats
                  (mkWhisperStats (ws_total_processed st) (ws_total_time st)
                     (ws_errors st + 1) (ws_average_time st)) v)
               (file_queue_processor s1) (threads_created s1))
  end.
Proof.
  intros Hload Hm v st t0.
  rewrite transcribe_unfold, Hload. unfold transcribe_loaded.
  subst t0 st v.
  destruct (time_time P (env s1)) as [t0 w0]. cbn [fst snd].
  rewrite Hm.
  destruct (model_transcribe P m file_path language w0) as [[e | texts] w1].
  - reflexivity.
  - destruct (time_time P w1) as [t1 w2]. cbn [fst snd].
    intros avg Havg. rewrite Havg. rewrite collect_spaced. reflexivity.
Qed.

End Resource.


Lemma transcribe_result_witness :
  exists s',
    transcribe Toy.platform "/in/a.wav" None Toy.sys0
    = Ret (Some "Hello  world.", None) s'
    /\ ws_stats (whisper_service s') = mkWhisperStats 1 2%float 0 2%float.
Proof.
  pose proof (transcribe_result Toy.platform Toy.sys0
                (Toy.after (_load_model Toy.platform) Toy.sys0) tt
                "/in/a.wav" None eq_refl eq_refl) as H.
  vm_compute in H. specialize (H 2%float eq_refl).
  eexists. split; [exact H | reflexivity].
Defined.

(** C9, as the specification has it, fails: the two segments [" Hello"]
    and [" world."] are returned with the space put after the first one
    still between them, which their concatenation does not have. *)
Lemma transcribe_separates_segments :
  exists texts w s',
    model_transcribe Toy.platform tt "/in/a.wav" None
      (snd (time_time Toy.platform
              (env (Toy.after (_load_model Toy.platform) Toy.sys0))))
    = (inr texts, w)
    /\ transcribe Toy.platform "/in/a.wav" None Toy.sys0
       = Ret (Some "Hello  world.", None) s'
    /\ concatenated_trimmed texts = "Hello world."
    /\ Some "Hello  world." <> Some (concatenated_trimmed texts).
Proof.
  eexists _, _, _. split; [reflexivity |].
  split; [vm_compute; reflexivity |].
  split; [reflexivity |]. discriminate.
Qed.

(** ** The output file *)

Section Output.

Context {World Model : Type}.
Variable P : Platform World Model.


End Output.


(** The file the attempt above leaves. *)
Example speech_transcription_file :
  Toy.tw_files (env Toy.spoken)
  = <["/out/speech_transcription.txt" :=
        "Source: /in/speech.wav" ++ LF
        ++ "Processed: 2025-01-01 00:00:00" ++ LF
        ++ "Service: Faster-Whisper Queue Processor" ++ LF
        ++ "============================================================"
        ++ LF ++ LF ++ "Hello  world."]>
      (Toy.tw_files (env Toy.sys0)).
Proof. by_vm. Qed.
(** * The rest of the code: invariants, the helpers and the handlers *)

Section MoreFacts.

Context {World Model : Type}.
Variable P : Platform World Model.

Abbreviation Sys := (Sys World Model).

Lemma service_grows_refl (v : FastWhisperService Model) : service_grows v v.
Proof. unfold service_grows. repeat split; auto; lia. Qed.

Lemma service_grows_trans (a b c : FastWhisperService Model) :
  service_grows a b -> service_grows b c -> service_grows a c.
Proof.
  unfold service_grows.
  intros (H1 & H2 & H3 & H4 & H5 & H6 & H7) (K1 & K2 & K3 & K4 & K5 & K6 & K7).
  repeat split; try congruence; try lia; auto.
Qed.

Lemma averaged_count_error st : averaged st -> averaged (count_error st).
Proof. intros H. exact H. Qed.

(** [_load_model] leaves the statistics alone and a loaded model in
    place. *)
Lemma _load_model_effect (s : Sys) :
  idle s ->
  exists b s',
    _load_model P s = Ret b s'
    /\ same_processor s s'
    /\ idle s'
    /\ service_grows (whisper_service s) (whisper_service s')
    /\ ws_stats (whisper_service s') = ws_stats (whisper_service s)
    /\ (b = true -> exists m, model (whisper_service s') = Some m).
Proof.
  intros Hl. unfold idle in Hl.
  destruct (model (whisper_service s)) as [m |] eqn:Hm.
  - exists true, s. rewrite (_load_model_loaded P s m Hm).
    unfold same_processor, idle, service_grows.
    repeat split; auto; try lia; eauto.
  - destruct (FASTER_WHISPER_AVAILABLE P) eqn:Ha.
    + rewrite (_load_model_attempt P s Hm Hl Ha). unfold load_attempt.
      destruct (time_time P (env s)) as [t0 w0].
      destruct (WhisperModel P _ _ _ w0) as [[e | m] w1].
      * eexists _, _. split; [reflexivity |].
        unfold same_processor, idle, service_grows. cbn. rewrite Hm.
        repeat split; try lia; try discriminate; auto.
      * destruct (time_time P w1) as [t1 w2].
        eexists _, _. split; [reflexivity |].
        unfold same_processor, idle, service_grows. cbn. rewrite Hm.
        repeat split; try lia; try discriminate; eauto.
    + rewrite (_load_model_unavailable P s Hm Ha).
      exists false, s. unfold same_processor, idle, service_grows.
      repeat split; auto; try lia; discriminate.
Qed.

Lemma transcribe_loaded_effect file_path language (s : Sys) :
  let r := fst (transcribe_loaded P file_path language s) in
  let s' := snd (transcribe_loaded P file_path language s) in
  same_processor s s'
  /\ _loading (whisper_service s') = _loading (whisper_service s)
  /\ model (whisper_service s') = model (whisper_service s)
  /\ model_size (whisper_service s') = model_size (whisper_service s)
  /\ compute_type (whisper_service s') = compute_type (whisper_service s)
  /\ device (whisper_service s') = device (whisper_service s)
  /\ transcribe_counts r (ws_stats (whisper_service s))
       (ws_stats (whisper_service s')).
Proof.
  cbv zeta. unfold transcribe_loaded, same_processor.
  destruct (time_time P (env s)) as [t0 w0].
  destruct (model (whisper_service s)) as [m |] eqn:Hm.
  - destruct (model_transcribe P m file_path language w0)
      as [[e | texts] w1].
    + cbn. rewrite Hm. repeat split; auto.
    + destruct (time_time P w1) as [t1 w2].
      destruct (float_div_int _ _) as [ex | avg] eqn:Hd.
      * cbn. rewrite Hm. repeat split; auto.
        right. right. eexists _, _. split; [exact Hd | reflexivity].
      * cbn. rewrite Hm. repeat split; auto.
        exists texts. rewrite collect_spaced. reflexivity.
  - cbn. rewrite Hm. repeat split; auto.
Qed.

Lemma transcribe_counts_grows r st st' :
  transcribe_counts r st st' ->
  ws_total_processed st <= ws_total_processed st'
  /\ ws_errors st <= ws_errors st'
  /\ (averaged st -> averaged st').
Proof.
  unfold transcribe_counts.
  destruct r as [[text |] [e |]]; try contradiction.
  - intros (_ & Ht & He & Ha). repeat split; try lia.
    intros _. unfold averaged. rewrite Ha. reflexivity.
  - intros [(_ & ->) | [-> | (dt & ex & Hd & ->)]]; cbn.
    + repeat split; auto; lia.
    + repeat split; auto; lia.
    + repeat split; try lia. intros _. unfold averaged. cbn. rewrite Hd.
      exact I.
Qed.

(** [transcribe] returns, with a text and no error or with an error and
    no text, and what it does to the state is described by
    [transcribe_counts]. *)
Lemma transcribe_effect file_path language (s : Sys) :
  idle s ->
  exists r s',
    transcribe P file_path language s = Ret r s'
    /\ same_processor s s'
    /\ idle s'
    /\ service_grows (whisper_service s) (whisper_service s')
    /\ transcribe_counts r (ws_stats (whisper_service s))
         (ws_stats (whisper_service s')).
Proof.
  intros Hi. rewrite transcribe_unfold.
  destruct (_load_model_effect s Hi)
    as (b & s1 & -> & (Hp1 & Ht1) & Hi1 & Hg1 & Hst1 & Hm1).
  destruct b.
  - pose proof (transcribe_loaded_effect file_path language s1)
      as ((Hp & Ht) & Hl & Hm & Hs & Hc & Hd & Hcount).
    eexists _, _. split; [reflexivity |].
    pose proof (transcribe_counts_grows _ _ _ Hcount) as (G1 & G2 & G3).
    unfold same_processor, idle in *.
    split; [split; congruence |]. split; [congruence |].
    split.
    + apply (service_grows_trans _ _ _ Hg1).
      unfold service_grows. rewrite Hm, Hs, Hc, Hd. repeat split; auto.
    + rewrite <- Hst1. exact Hcount.
  - eexists _, _. split; [reflexivity |].
    split; [split; assumption |]. split; [assumption |].
    split; [assumption |].
    cbn. left. split; [reflexivity | congruence].
Qed.

(** What the [try] block of [_process_file] does outside the processor:
    the service only grows, and a block that runs to its end has counted
    one transcription. *)
Lemma process_attempt_effect file_path output_dir start_time (s : Sys) :
  idle s ->
  match process_attempt P file_path output_dir start_time s with
  | Ret _ s' =>
      same_processor s s' /\ idle s'
      /\ service_grows (whisper_service s) (whisper_service s')
      /\ ws_total_processed (ws_stats (whisper_service s'))
         = ws_total_processed (ws_stats (whisper_service s)) + 1
  | Raise _ s' =>
      same_processor s s' /\ idle s'
      /\ service_grows (whisper_service s) (whisper_service s')
  | Hang => False
  end.
Proof.
  intros Hi. unfold process_attempt, bind at 1, call.
  destruct (convert_to_wav P file_path (env s)) as [[e | [wav |]] w];
    try (cbn; unfold same_processor; auto using service_grows_refl; fail).
  unfold bind at 1.
  destruct (transcribe_effect wav None (set_env w s) Hi)
    as ([text err] & s1 & -> & (Hp & Ht) & Hl & Hg & Hc).
  cbn [set_env whisper_service file_queue_processor threads_created] in *.
  destruct (is_error err) eqn:He;
    [cbn; unfold same_processor; auto |].
  destruct (is_blank text) eqn:Hb;
    [cbn; unfold same_processor; auto |].
  cbn [fst snd].
  destruct text as [text |]; [| discriminate].
  destruct err as [e |]; [contradiction |].
  destruct Hc as (_ & Hcount & _).
  unfold bind at 1.
  pose proof (_save_transcription_frame P file_path text output_dir s1) as Hs.
  destruct (_save_transcription P _ _ _ s1) as [[] s2 | e s2 |];
    try contradiction.
  - destruct Hs as ((Hp2 & Ht2) & Hv2).
    unfold bind, now, ret. destruct (time_time P (env s2)) as [t1 w1].
    unfold same_processor, idle in *. cbn. rewrite Hv2.
    split; [split; congruence |]. split; [exact Hl |].
    split; [exact Hg | exact Hcount].
  - destruct Hs as ((Hp2 & Ht2) & Hv2).
    unfold same_processor, idle in *. rewrite Hv2.
    split; [split; congruence |]. split; [exact Hl | exact Hg].
Qed.

(** One pass of the loop body over a well-formed item, with what it does
    to the service. *)
Lemma _process_queue_body_effect (s : Sys) item rest :
  q_items (queue (file_queue_processor s)) = item :: rest ->
  wellformed item = true ->
  idle s ->
  0 < unfinished_tasks (queue (file_queue_processor s)) ->
  exists s',
    _process_queue_body P s = Ret tt s'
    /\ idle s'
    /\ file_queue_processor s'
       = set_stats (item_stats P item (dequeued rest s))
           (set_queue
              (mkQueue rest
                 (unfinished_tasks (queue (file_queue_processor s)) - 1))
              (file_queue_processor s))
    /\ service_grows (whisper_service s) (whisper_service s')
    /\ (item_fails P item (dequeued rest s) = false ->
        ws_total_processed (ws_stats (whisper_service s'))
        = ws_total_processed (ws_stats (whisper_service s)) + 1).
Proof.
  intros Hq Hw Hi Hu.
  destruct (_process_queue_body_item P s item rest Hq Hw Hi Hu)
    as (s' & Hbody & Hi' & _ & Hp').
  exists s'. split; [exact Hbody |]. split; [exact Hi' |].
  split; [exact Hp' |].
  destruct (wellformed_inv item Hw) as (fp & od & Hf & Ho).
  rewrite (_process_queue_body_cons P s item rest Hq) in Hbody.
  rewrite (_process_file_wellformed P item fp od _ Hf Ho) in Hbody.
  unfold item_fails, item_attempt. rewrite Hf, Ho.
  pose proof (begin_item_frame P fp (dequeued rest s)) as (Hv0 & _ & _).
  destruct (begin_item P fp (dequeued rest s)) as [t0 s0]. cbn [snd] in Hv0.
  assert (Hi0 : idle s0) by (unfold idle in *; rewrite Hv0; exact Hi).
  pose proof (process_attempt_effect fp od t0 s0 Hi0) as Heff.
  assert (Hdone : forall f (s1 s2 : Sys),
    match queue_task_done (with_stats f s1) with
    | Raise _ s3 => Ret tt (with_stats bump_failed s3)
    | o => o
    end = Ret tt s2 ->
    whisper_service s2 = whisper_service s1).
  { intros f s1 s2. unfold queue_task_done. py_unfold.
    destruct (_ <? 0); intros E; inversion E; reflexivity. }
  change (whisper_service (dequeued rest s)) with (whisper_service s) in Hv0.
  destruct (process_attempt P fp od t0 s0) as [pt s1 | e s1 |];
    [| | discriminate].
  - destruct Heff as (_ & _ & Hg & Hn).
    rewrite (Hdone _ _ _ Hbody), <- Hv0. split; [exact Hg |].
    intros _. exact Hn.
  - destruct Heff as (_ & _ & Hg).
    rewrite (Hdone _ _ _ Hbody), <- Hv0. split; [exact Hg | discriminate].
Qed.

Lemma add_file_effect file_path output_dir (s : Sys) :
  exists s',
    state_after (add_file P file_path output_dir s) = Some s'
    /\ whisper_service s' = whisper_service s
    /\ threads_created s' = threads_created s
    /\ (file_queue_processor s' = file_queue_processor s
        \/ exists item,
             wellformed item = true
             /\ file_queue_processor s'
                = enqueued [item] (file_queue_processor s)).
Proof.
  unfold add_file. py_unfold.
  destruct (os_path_exists P file_path (env s)); cbn [negb];
    [| exists s; auto].
  destruct (os_makedirs P _ (env s)) as [[e | []] w];
    [eexists; split; [reflexivity | auto] |].
  cbn [env set_env]. destruct (time_time P w) as [t w1].
  eexists. split; [reflexivity |]. cbn. repeat split.
  right. eexists. split; [| reflexivity]. reflexivity.
Qed.

Lemma add_directory_effect source_dir output_dir (s : Sys) :
  supported_extensions (file_queue_processor s) = supported ->
  exists s',
    state_after (add_directory P source_dir output_dir s) = Some s'
    /\ whisper_service s' = whisper_service s
    /\ threads_created s' = threads_created s
    /\ (file_queue_processor s' = file_queue_processor s
        \/ exists items,
             forallb wellformed items = true
             /\ file_queue_processor s'
                = enqueued items (file_queue_processor s)).
Proof.
  intros Hs. unfold add_directory. unfold bind at 1, ask.
  destruct (os_path_exists P source_dir (env s)); cbn [negb];
    [| exists s; auto].
  unfold bind at 1, self. unfold bind at 1, call.
  destruct (os_makedirs P _ (env s)) as [[e | []] w];
    [eexists; split; [reflexivity | auto] |].
  unfold bind at 1.
  rewrite (_find_audio_files_scan P source_dir (set_env w s) Hs).
  destruct (scan _) as [| f rest].
  - eexists. split; [reflexivity |]. cbn. auto.
  - unfold bind at 1. rewrite put_files_spec. cbn [env set_env].
    pose proof (stamped_wellformed P (f :: rest)
                  match output_dir with
                  | Some d => d
                  | None => default_output_dir (file_queue_processor s)
                  end w) as Hst.
    destruct (stamped P (f :: rest) _ w) as [items w2]. cbn [fst] in Hst.
    py_unfold. eexists. split; [reflexivity |]. cbn. repeat split.
    right. exists items. split; [exact Hst | reflexivity].
Qed.

Lemma steady_enqueued (s s' : Sys) items :
  steady s ->
  forallb wellformed items = true ->
  whisper_service s' = whisper_service s ->
  file_queue_processor s' = enqueued items (file_queue_processor s) ->
  steady s'.
Proof.
  unfold steady, sound, tracked, idle, consistent.
  intros ((Hi & Hw & Hu & Hc & Hs) & Ht & Ha & H1 & H2 & H3 & H4) Hit Hv Hp.
  rewrite Hv, Hp. cbn. rewrite forallb_app, Hw, Hit, length_app.
  repeat split; trivial; lia.
Qed.

Lemma steady_same (s s' : Sys) :
  steady s ->
  whisper_service s' = whisper_service s ->
  file_queue_processor s' = file_queue_processor s ->
  steady s'.
Proof.
  unfold steady, sound, tracked, idle, consistent.
  intros H Hv Hp. rewrite Hv, Hp. exact H.
Qed.

Lemma processor_grows_refl p : processor_grows p p.
Proof. unfold processor_grows. repeat split; lia. Qed.

Lemma processor_grows_enqueued items p : processor_grows p (enqueued items p).
Proof. unfold processor_grows. cbn. repeat split; lia. Qed.

Lemma item_stats_queue_size item (s : Sys) :
  queue_size (item_stats P item s) = queue_size (stats (file_queue_processor s)).
Proof.
  unfold item_stats. destruct (wellformed item); [| reflexivity].
  destruct (item_attempt P item s); reflexivity.
Qed.

(** Every operation, from a steady state, returns and leaves a steady
    state in which nothing has gone down. *)
Lemma exec_steady op (s : Sys) :
  steady s ->
  exists s',
    exec P op s = Some s'
    /\ steady s'
    /\ service_grows (whisper_service s) (whisper_service s')
    /\ processor_grows (file_queue_processor s) (file_queue_processor s').
Proof.
  intros H. pose proof H as (Hsound & Htr & Hav & H1 & H2 & H3 & H4).
  pose proof Hsound as (Hi & Hw & Hu & Hc & Hs).
  destruct op; cbn [exec].
  - (* start *)
    unfold start. py_unfold.
    destruct (is_running (file_queue_processor s)); cbn;
      eexists; (split; [reflexivity |]);
      (split; [exact H |]);
      (split; [apply service_grows_refl |]);
      unfold processor_grows; cbn; repeat split; lia.
  - (* stop *)
    unfold stop. py_unfold. cbn.
    destruct (processing_thread (file_queue_processor s)); cbn;
      eexists; (split; [reflexivity |]);
      (split; [exact H |]);
      (split; [apply service_grows_refl |]);
      unfold processor_grows; cbn; repeat split; lia.
  - (* add_directory *)
    destruct (add_directory_effect source_dir output_dir s Hs)
      as (s' & -> & Hv & _ & [Hp | (items & Hit & Hp)]);
      exists s'; (split; [reflexivity |]).
    + split; [exact (steady_same s s' H Hv Hp) |].
      rewrite Hv, Hp.
      split; [apply service_grows_refl | apply processor_grows_refl].
    + split; [exact (steady_enqueued s s' items H Hit Hv Hp) |].
      rewrite Hv, Hp.
      split; [apply service_grows_refl | apply processor_grows_enqueued].
  - (* add_file *)
    destruct (add_file_effect file_path output_dir s)
      as (s' & -> & Hv & _ & [Hp | (item & Hit & Hp)]);
      exists s'; (split; [reflexivity |]).
    + split; [exact (steady_same s s' H Hv Hp) |].
      rewrite Hv, Hp.
      split; [apply service_grows_refl | apply processor_grows_refl].
    + assert (Hits : forallb wellformed [item] = true)
        by (cbn; rewrite Hit; reflexivity).
      split; [exact (steady_enqueued s s' [item] H Hits Hv Hp) |].
      rewrite Hv, Hp.
      split; [apply service_grows_refl | apply processor_grows_enqueued].
  - (* get_status *)
    exists s. split; [apply get_status_keeps_state |].
    split; [exact H |].
    split; [apply service_grows_refl | apply processor_grows_refl].
  - (* clear_queue *)
    unfold clear_queue. py_unfold. cbn.
    eexists. split; [reflexivity |].
    split; [| split; [apply service_grows_refl |]].
    + unfold steady, sound, tracked, idle, consistent in *. cbn.
      repeat split; trivial; lia.
    + unfold processor_grows. cbn. repeat split; lia.
  - (* transcribe *)
    destruct (transcribe_effect file_path language s Hi)
      as (r & s' & -> & (Hp & _) & Hi' & Hg & Hcount).
    exists s'. split; [reflexivity |].
    pose proof Hg as (_ & _ & _ & _ & G1 & G2 & G3).
    split; [| split; [exact Hg | rewrite Hp; apply processor_grows_refl]].
    unfold steady, sound, tracked, idle, consistent in *. rewrite Hp.
    repeat split; trivial; try lia; auto.
  - (* is_ready *)
    unfold is_ready. unfold bind, service.
    destruct (model (whisper_service s)).
    + exists s. split; [reflexivity |]. split; [exact H |].
      split; [apply service_grows_refl | apply processor_grows_refl].
    + destruct (_load_model_effect s Hi)
        as (b & s' & -> & (Hp & _) & Hi' & Hg & Hst & _).
      exists s'. split; [reflexivity |].
      split; [| split; [exact Hg | rewrite Hp; apply processor_grows_refl]].
      unfold steady, sound, tracked, idle, consistent in *.
      rewrite Hp, Hst. repeat split; trivial.
  - (* one pass of the worker *)
    cbn [_process_queue]. unfold bind at 1, self.
    destruct (is_running (file_queue_processor s)).
    2:{ exists s. split; [reflexivity |]. split; [exact H |].
        split; [apply service_grows_refl | apply processor_grows_refl]. }
    unfold bind at 1.
    destruct (q_items (queue (file_queue_processor s)))
      as [| item rest] eqn:Hq.
    + rewrite (_process_queue_body_empty P s Hq).
      exists s. split; [reflexivity |]. split; [exact H |].
      split; [apply service_grows_refl | apply processor_grows_refl].
    + cbn [forallb length] in Hw, Hu. apply andb_prop in Hw as [Hw1 Hw2].
      destruct (_process_queue_body_effect s item rest Hq Hw1 Hi ltac:(lia))
        as (s1 & -> & Hi1 & Hp1 & Hg & Hn).
      exists s1. split; [reflexivity |].
      pose proof (item_stats_counts P item (dequeued rest s)) as (Ct & Cf & Cs).
      pose proof (item_stats_queue_size item (dequeued rest s)) as Cq.
      pose proof Hg as (_ & _ & _ & _ & G1 & G2 & G3).
      rewrite Hw1 in Ct. cbn in Ct, Cf, Cs, Cq.
      split; [| split; [exact Hg |]].
      * unfold steady, sound, tracked, idle, consistent in *.
        rewrite Hp1. cbn. rewrite Cq.
        destruct (item_fails P item (dequeued rest s)) eqn:Hfail.
        -- repeat split; trivial; try lia; auto.
        -- specialize (Hn eq_refl). repeat split; trivial; try lia; auto.
      * unfold processor_grows. rewrite Hp1. cbn.
        destruct (item_fails P item (dequeued rest s));
          repeat split; lia.
Qed.

Lemma steady_initial w : steady (initial P w).
Proof.
  unfold steady, sound, tracked, idle, consistent, averaged. cbn.
  repeat split; lia.
Qed.

(** Every reachable state is steady. *)
Lemma reachable_steady (s : Sys) : reachable P s -> steady s.
Proof.
  induction 1 as [w | op s s' _ IH E | s w _ IH].
  - apply steady_initial.
  - destruct (exec_steady op s IH) as (s'' & E' & H' & _). congruence.
  - exact IH.
Qed.

End MoreFacts.
(** ** Trimming *)

Lemma lstrip_lstrip (s : string) : PyStr.lstrip (PyStr.lstrip s) = PyStr.lstrip s.
Proof.
  induction s as [| c s IH]; [reflexivity |].
  cbn [PyStr.lstrip]. destruct (PyStr.isspace c) eqn:Hc; [exact IH |].
  cbn [PyStr.lstrip]. rewrite Hc. reflexivity.
Qed.

Lemma rstrip_cons c (s : string) :
  PyStr.rstrip (String c s)
  = match PyStr.rstrip s with
    | EmptyString => if PyStr.isspace c then EmptyString else String c EmptyString
    | r => String c r
    end.
Proof. reflexivity. Qed.

Lemma rstrip_rstrip (s : string) : PyStr.rstrip (PyStr.rstrip s) = PyStr.rstrip s.
Proof.
  induction s as [| c s IH]; [reflexivity |].
  rewrite rstrip_cons.
  destruct (PyStr.rstrip s) as [| d r] eqn:Hr.
  - destruct (PyStr.isspace c) eqn:Hc; [reflexivity |].
    rewrite rstrip_cons. cbn [PyStr.rstrip]. rewrite Hc. reflexivity.
  - rewrite rstrip_cons, IH. reflexivity.
Qed.

(** What is left of a right-trimmed string after trimming it on the left
    is right-trimmed. *)
Lemma rstrip_lstrip (s : string) :
  PyStr.rstrip s = s -> PyStr.rstrip (PyStr.lstrip s) = PyStr.lstrip s.
Proof.
  induction s as [| c s IH]; [reflexivity |].
  intros H. cbn [PyStr.lstrip].
  destruct (PyStr.isspace c) eqn:Hc; [| exact H].
  apply IH. rewrite rstrip_cons in H.
  destruct (PyStr.rstrip s) as [| d r] eqn:Hr.
  - rewrite Hc in H. discriminate.
  - congruence.
Qed.

(** A trimmed string has no white space at either end. *)
Lemma strip_trimmed (s : string) :
  PyStr.lstrip (PyStr.strip s) = PyStr.strip s
  /\ PyStr.rstrip (PyStr.strip s) = PyStr.strip s.
Proof.
  unfold PyStr.strip. split.
  - apply lstrip_lstrip.
  - apply rstrip_lstrip, rstrip_rstrip.
Qed.

Lemma strip_strip (s : string) : PyStr.strip (PyStr.strip s) = PyStr.strip s.
Proof.
  destruct (strip_trimmed s) as (Hl & Hr).
  unfold PyStr.strip at 1. rewrite Hr. exact Hl.
Qed.
Section MoreFacts2.

Context {World Model : Type}.
Variable P : Platform World Model.

Abbreviation Sys := (Sys World Model).

(** [n] passes of the loop of a running worker take the first [n] items
    off the queue, or all of them when there are fewer. *)
Lemma passes (n : nat) : forall s : Sys,
  sound s ->
  is_running (file_queue_processor s) = true ->
  exists s',
    _process_queue P n s = Ret Looping s'
    /\ sound s'
    /\ is_running (file_queue_processor s') = true
    /\ q_items (queue (file_queue_processor s'))
       = drop n (q_items (queue (file_queue_processor s)))
    /\ total_processed (stats (file_queue_processor s'))
       = total_processed (stats (file_queue_processor s))
         + Z.of_nat (Nat.min n (length (q_items (queue (file_queue_processor s))))).
Proof.
  induction n as [| n IH]; intros s Hs Hr.
  - exists s. cbn [_process_queue]. unfold ret.
    rewrite drop_0, Nat.min_0_l.
    split; [reflexivity |]. split; [exact Hs |]. split; [exact Hr |].
    split; [reflexivity | lia].
  - cbn [_process_queue]. unfold bind at 1, self. rewrite Hr.
    unfold bind at 1.
    destruct (q_items (queue (file_queue_processor s)))
      as [| item rest] eqn:Hq.
    + rewrite (_process_queue_body_empty P s Hq).
      destruct (IH s Hs Hr) as (s' & E & Hs' & Hr' & Hq' & Ht').
      exists s'. rewrite Hq in Hq', Ht'. rewrite drop_nil in *.
      cbn [length] in *. rewrite Nat.min_0_r in *.
      split; [exact E |]. split; [exact Hs' |]. split; [exact Hr' |].
      split; [exact Hq' | exact Ht'].
    + pose proof Hs as (Hi & Hw & Hu & Hc & Hsup). rewrite Hq in Hw, Hu.
      cbn [forallb length] in Hw, Hu. apply andb_prop in Hw as [Hw1 Hw2].
      destruct (_process_queue_body_item P s item rest Hq Hw1 Hi ltac:(lia))
        as (s1 & E1 & Hi1 & _ & Hp1).
      rewrite E1.
      assert (Hs1 : sound s1).
      { unfold sound. rewrite Hp1. cbn.
        repeat split; trivial; try lia.
        apply consistent_item_stats; [exact Hw1 | exact Hc]. }
      assert (Hr1 : is_running (file_queue_processor s1) = true)
        by (rewrite Hp1; exact Hr).
      destruct (IH s1 Hs1 Hr1) as (s' & E & Hs' & Hr' & Hq' & Ht').
      exists s'. rewrite Hp1 in Hq', Ht'. cbn in Hq', Ht'.
      pose proof (item_stats_counts P item (dequeued rest s)) as (Ct & _).
      rewrite Hw1 in Ct. cbn in Ct.
      split; [exact E |]. split; [exact Hs' |]. split; [exact Hr' |].
      split; [exact Hq' |]. cbn [length]. lia.
Qed.

(** The files of a scan, one by one. *)
Lemma scan_spec walk path :
  In path (scan walk)
  <-> exists root dirs files file,
        In (root, dirs, files) walk
        /\ In file files
        /\ existsb (String.eqb (PyStr.lower (PosixPath.suffix file)))
                   supported = true
        /\ path = PosixPath.join root file.
Proof.
  unfold scan. rewrite in_flat_map. split.
  - intros ([[root dirs] files] & Hin & Hp).
    apply in_map_iff in Hp as (file & <- & Hf).
    apply filter_In in Hf as (Hf & Hsup).
    exists root, dirs, files, file. auto.
  - intros (root & dirs & files & file & Hin & Hf & Hsup & ->).
    exists (root, dirs, files). split; [exact Hin |].
    apply in_map. apply filter_In. auto.
Qed.

End MoreFacts2.
Section WebFacts.

Context {World Model : Type}.
Variable P : Platform World Model.
Variable W : Web World.

Abbreviation Sys := (Sys World Model).
Abbreviation App := (App World Model).

(** [is_ready] answers whether a model is there when it returns. *)
Lemma is_ready_effect (s : Sys) :
  idle s ->
  exists b s',
    is_ready P s = Ret b s'
    /\ same_processor s s'
    /\ idle s'
    /\ service_grows (whisper_service s) (whisper_service s')
    /\ ws_stats (whisper_service s') = ws_stats (whisper_service s)
    /\ (b = true -> exists m, model (whisper_service s') = Some m).
Proof.
  intros Hi. unfold is_ready. unfold bind, service.
  destruct (model (whisper_service s)) as [m |] eqn:Hm.
  - exists true, s. unfold same_processor, idle, service_grows in *.
    repeat split; auto; try lia; eauto.
  - exact (_load_model_effect P s Hi).
Qed.

Lemma is_ready_loaded (s : Sys) m :
  model (whisper_service s) = Some m -> is_ready P s = Ret true s.
Proof. intros H. unfold is_ready, bind, service. rewrite H. reflexivity. Qed.

(** The outcome of [transcribe_audio], by what the conversion and the
    transcription give. *)
Lemma transcribe_audio_unfold file_path (s : Sys) :
  transcribe_audio P file_path s
  = match convert_to_wav P file_path (env s) with
    | (inl e, w) =>
        Ret (None, Some ("Error in audio transcription: " ++ str_of_exn e))
            (set_env w s)
    | (inr None, w) =>
        Ret (None, Some "Failed to convert audio to WAV format") (set_env w s)
    | (inr (Some wav), w) =>
        match transcribe P wav None (set_env w s) with
        | Ret (transcription, error) s1 =>
            if is_error error then Ret (None, error) s1
            else Ret (transcription, None) s1
        | Raise e s1 =>
            Ret (None, Some ("Error in audio transcription: " ++ str_of_exn e))
                s1
        | Hang => Hang
        end
    end.
Proof.
  unfold transcribe_audio, try_except. unfold bind at 1, call.
  destruct (convert_to_wav P file_path (env s)) as [[e | [wav |]] w];
    try reflexivity.
  unfold bind.
  destruct (transcribe P wav None (set_env w s)) as [[t e] s1 | e s1 |];
    try reflexivity.
  destruct (is_error e); reflexivity.
Qed.

Lemma upload_name_starts (clientId rest : string) :
  PyStr.startswith PosixPath.sep (clientId ++ "_" ++ rest)
  = PyStr.startswith PosixPath.sep clientId.
Proof. destruct clientId; reflexivity. Qed.

End WebFacts.
(** ** Reaching the sample states *)

Section Reaching.

Context {World Model : Type}.
Variable P : Platform World Model.

(** One test of the loop condition, and the pass it lets through. *)
Lemma _process_queue_S (n : nat) (s : Sys World Model) :
  _process_queue P (S n) s
  = if is_running (file_queue_processor s)
    then match _process_queue_body P s with
         | Ret _ s1 => _process_queue P n s1
         | Raise e s1 => Raise e s1
         | Hang => Hang
         end
    else Ret Returned s.
Proof.
  cbn [_process_queue]. unfold bind, self, ret.
  destruct (is_running (file_queue_processor s)); reflexivity.
Qed.

(** The states the worker goes through are reachable. *)
Lemma reachable_process_queue (n : nat) : forall s : Sys World Model,
  reachable P s ->
  match _process_queue P n s with
  | Ret _ s' | Raise _ s' => reachable P s'
  | Hang => True
  end.
Proof.
  induction n as [| n IH]; intros s H.
  - exact H.
  - assert (Hstep : forall s1,
              state_after (_process_queue P 1 s) = Some s1 ->
              reachable P s1).
    { intros s1 E. exact (reachable_exec P WorkerPass s s1 H E). }
    rewrite _process_queue_S in Hstep |- *.
    destruct (is_running (file_queue_processor s)); [| exact H].
    destruct (_process_queue_body P s) as [[] s1 | e s1 |].
    + apply IH. apply Hstep. reflexivity.
    + apply Hstep. reflexivity.
    + exact I.
Qed.

(** The state an operation leaves is reachable. *)
Lemma reachable_state_after {A} (m : Py (Sys World Model) A) op
    (s : Sys World Model) :
  state_after (m s) = exec P op s ->
  reachable P s ->
  match m s with
  | Ret _ s' | Raise _ s' => reachable P s'
  | Hang => True
  end.
Proof.
  intros E H. destruct (m s) as [r s' | e s' |]; cbn in E;
    [| | exact I]; exact (reachable_exec P op s s' H (eq_sym E)).
Qed.

End Reaching.

Lemma reachable_sys0 : reachable Toy.platform Toy.sys0.
Proof. exact (reachable_initial Toy.platform Toy.world0). Qed.

Lemma reachable_queued : reachable Toy.platform Toy.queued.
Proof.
  pose proof (reachable_state_after Toy.platform
                (add_directory Toy.platform "/in" (Some "/out"))
                (AddDirectory "/in" (Some "/out")) Toy.sys0 eq_refl
                reachable_sys0) as H.
  unfold Toy.queued, Toy.after, Toy.final.
  destruct (add_directory Toy.platform "/in" (Some "/out") Toy.sys0);
    [exact H | exact H | exact reachable_sys0].
Qed.

Lemma reachable_running : reachable Toy.platform Toy.running.
Proof.
  pose proof (reachable_state_after Toy.platform start Start Toy.queued
                eq_refl reachable_queued) as H.
  unfold Toy.running, Toy.after, Toy.final.
  destruct (start Toy.queued); [exact H | exact H | exact reachable_queued].
Qed.

Lemma reachable_almost : reachable Toy.platform ToyWeb.almost.
Proof.
  pose proof (reachable_process_queue Toy.platform 4 Toy.running
                reachable_running) as H.
  unfold ToyWeb.almost, Toy.after, Toy.final.
  destruct (_process_queue Toy.platform 4 Toy.running);
    [exact H | exact H | exact reachable_running].
Qed.

Lemma reachable_drained : reachable Toy.platform ToyWeb.drained.
Proof.
  pose proof (reachable_process_queue Toy.platform 5 Toy.running
                reachable_running) as H.
  unfold ToyWeb.drained, Toy.after, Toy.final.
  destruct (_process_queue Toy.platform 5 Toy.running);
    [exact H | exact H | exact reachable_running].
Qed.
(** ** What holds of every reachable state *)

Section ReachableStates.

Context {World Model : Type}.
Variable P : Platform World Model.

(** X1.  In every state the engine reaches through its methods and the
    passes of its worker, the counters of the processor add up: every
    item counted in [total_processed] is counted once as successful or
    once as failed, no counter is negative, and every successful item
    is backed by a transcription the service has counted. *)
Theorem reachable_counters_add_up (s : Sys World Model) :
  reachable P s ->
  let st := stats (file_queue_processor s) in
  successful_processed st + failed_processed st = total_processed st
  /\ 0 <= successful_processed st
  /\ 0 <= failed_processed st
  /\ successful_processed st
     <= ws_total_processed (ws_stats (whisper_service s)).
Proof.
  intros H. destruct (reachable_steady P s H)
    as ((_ & _ & _ & Hc & _) & _ & _ & H1 & H2 & _ & H4).
  cbv zeta. unfold consistent in Hc. auto.
Qed.

(** X2.  In every reachable state the [queue_size] statistic is the
    number of items queued, every queued item holds a [str] under
    ['file_path'] and a value under ['output_dir'], the queue has at
    least as many unfinished tasks as items (so [task_done] has a task
    to finish for each), and no model load is in progress. *)
Theorem reachable_queue_tracked (s : Sys World Model) :
  reachable P s ->
  let p := file_queue_processor s in
  queue_size (stats p) = Z.of_nat (length (q_items (queue p)))
  /\ forallb wellformed (q_items (queue p)) = true
  /\ Z.of_nat (length (q_items (queue p))) <= unfinished_tasks (queue p)
  /\ _loading (whisper_service s) = false.
Proof.
  intros H. destruct (reachable_steady P s H)
    as ((Hi & Hw & Hu & _ & _) & Ht & _).
  cbv zeta. unfold tracked in Ht. unfold idle in Hi. auto.
Qed.

(** X3.  From a reachable state every operation comes back, by
    returning or by raising: the wait loop of [_load_model] is never
    entered, and the state it leaves is reachable again. *)
Theorem operations_come_back (s : Sys World Model) op :
  reachable P s ->
  exists s', exec P op s = Some s' /\ reachable P s'.
Proof.
  intros H. destruct (exec_steady P op s (reachable_steady P s H))
    as (s' & E & _).
  exists s'. split; [exact E |].
  exact (reachable_exec P op s s' H E).
Qed.

(** X4.  A model that is loaded stays: from a reachable state no
    operation drops the model of the service or puts another in its
    place. *)
Theorem loaded_model_stays (s s' : Sys World Model) op m :
  reachable P s ->
  model (whisper_service s) = Some m ->
  exec P op s = Some s' ->
  model (whisper_service s') = Some m.
Proof.
  intros H Hm E. destruct (exec_steady P op s (reachable_steady P s H))
    as (s'' & E' & _ & (Hk & _) & _).
  assert (s'' = s') by congruence. subst s''. exact (Hk m Hm).
Qed.

(** X5.  No operation takes anything back: from a reachable state the
    counters of the processor and of the service do not go down, and
    the settings of both (the supported extensions, the default
    directories, the model size, the compute type, the device) stay. *)
Theorem counters_never_go_down (s s' : Sys World Model) op :
  reachable P s ->
  exec P op s = Some s' ->
  let st := stats (file_queue_processor s) in
  let st' := stats (file_queue_processor s') in
  let ws := ws_stats (whisper_service s) in
  let ws' := ws_stats (whisper_service s') in
  total_processed st <= total_processed st'
  /\ successful_processed st <= successful_processed st'
  /\ failed_processed st <= failed_processed st'
  /\ ws_total_processed ws <= ws_total_processed ws'
  /\ ws_errors ws <= ws_errors ws'
  /\ supported_extensions (file_queue_processor s')
     = supported_extensions (file_queue_processor s)
  /\ default_source_dir (file_queue_processor s')
     = default_source_dir (file_queue_processor s)
  /\ default_output_dir (file_queue_processor s')
     = default_output_dir (file_queue_processor s)
  /\ model_size (whisper_service s') = model_size (whisper_service s)
  /\ compute_type (whisper_service s') = compute_type (whisper_service s)
  /\ device (whisper_service s') = device (whisper_service s).
Proof.
  intros H E. destruct (exec_steady P op s (reachable_steady P s H))
    as (s'' & E' & _ & Hv & Hp).
  assert (s'' = s') by congruence. subst s''.
  destruct Hv as (_ & V1 & V2 & V3 & V4 & V5 & _).
  destruct Hp as (P1 & P2 & P3 & P4 & P5 & P6).
  cbv zeta. auto 15.
Qed.

(** X6.  In every reachable state the average the service reports is
    its total time divided by the number of files it has transcribed,
    whenever that quotient exists. *)
Theorem service_average_is_quotient (s : Sys World Model) a :
  reachable P s ->
  let ws := ws_stats (whisper_service s) in
  float_div_int (ws_total_time ws) (ws_total_processed ws) = inr a ->
  ws_average_time ws = a.
Proof.
  intros H. destruct (reachable_steady P s H) as (_ & _ & Ha & _).
  cbv zeta. intros E. unfold averaged in Ha. rewrite E in Ha. exact Ha.
Qed.

(** X7.  The worker takes the items in the order they were queued: from
    a reachable state with the engine running, [n] passes of the loop
    leave exactly the items after the first [n], count one more item in
    [total_processed] for each one taken, and leave the thread in the
    loop; passes over an empty queue change nothing. *)
Theorem worker_takes_first_items (n : nat) (s : Sys World Model) :
  reachable P s ->
  is_running (file_queue_processor s) = true ->
  exists s',
    _process_queue P n s = Ret Looping s'
    /\ q_items (queue (file_queue_processor s'))
       = drop n (q_items (queue (file_queue_processor s)))
    /\ total_processed (stats (file_queue_processor s'))
       = total_processed (stats (file_queue_processor s))
         + Z.of_nat (Nat.min n
                       (length (q_items (queue (file_queue_processor s)))))
    /\ is_running (file_queue_processor s') = true
    /\ (q_items (queue (file_queue_processor s)) = [] -> s' = s).
Proof.
  intros H Hr.
  destruct (passes P n s (reachable_sound P s H) Hr)
    as (s' & E & _ & Hr' & Hq & Ht).
  exists s'. repeat (split; [assumption |]).
  intros Hn. clear - E Hr Hn.
  revert E. induction n as [| n IH]; cbn [_process_queue].
  - unfold ret. congruence.
  - unfold bind at 1, self. rewrite Hr. unfold bind at 1.
    rewrite (_process_queue_body_empty P s Hn). exact IH.
Qed.

End ReachableStates.

Lemma reachable_counters_add_up_witness :
  let st := stats (file_queue_processor ToyWeb.drained) in
  successful_processed st + failed_processed st = total_processed st
  /\ 0 <= successful_processed st
  /\ 0 <= failed_processed st
  /\ successful_processed st
     <= ws_total_processed (ws_stats (whisper_service ToyWeb.drained)).
Proof.
  exact (reachable_counters_add_up Toy.platform ToyWeb.drained
           reachable_drained).
Defined.

Lemma reachable_queue_tracked_witness :
  let p := file_queue_processor Toy.running in
  queue_size (stats p) = Z.of_nat (length (q_items (queue p)))
  /\ forallb wellformed (q_items (queue p)) = true
  /\ Z.of_nat (length (q_items (queue p))) <= unfinished_tasks (queue p)
  /\ _loading (whisper_service Toy.running) = false.
Proof.
  exact (reachable_queue_tracked Toy.platform Toy.running reachable_running).
Defined.

Lemma operations_come_back_witness :
  exists s',
    exec Toy.platform (Transcribe "/in/a.wav" None) Toy.running = Some s'
    /\ reachable Toy.platform s'.
Proof.
  exact (operations_come_back Toy.platform Toy.running
           (Transcribe "/in/a.wav" None) reachable_running).
Defined.

Lemma loaded_model_stays_witness :
  model (whisper_service
           (Toy.after (add_file Toy.platform "/in/a.wav" None) ToyWeb.drained))
  = Some tt.
Proof.
  apply (loaded_model_stays Toy.platform ToyWeb.drained _
           (AddFile "/in/a.wav" None) tt reachable_drained).
  - vm_compute. reflexivity.
  - vm_compute. reflexivity.
Defined.

Lemma counters_never_go_down_witness :
  let s' := Toy.after (_process_queue Toy.platform 1) ToyWeb.almost in
  total_processed (stats (file_queue_processor ToyWeb.almost))
  <= total_processed (stats (file_queue_processor s'))
  /\ failed_processed (stats (file_queue_processor ToyWeb.almost))
     <= failed_processed (stats (file_queue_processor s')).
Proof.
  cbv zeta. unfold Toy.after, Toy.final.
  pose proof (counters_never_go_down Toy.platform ToyWeb.almost) as H.
  specialize (fun s' => H s' WorkerPass reachable_almost).
  cbn [exec] in H.
  destruct (_process_queue Toy.platform 1 ToyWeb.almost) as [r s' | e s' |].
  - destruct (H s' eq_refl) as (H1 & _ & H3 & _). split; [exact H1 | exact H3].
  - destruct (H s' eq_refl) as (H1 & _ & H3 & _). split; [exact H1 | exact H3].
  - split; apply Z.le_refl.
Defined.

Lemma service_average_is_quotient_witness :
  ws_average_time (ws_stats (whisper_service ToyWeb.drained)) = 2%float.
Proof.
  apply (service_average_is_quotient Toy.platform ToyWeb.drained 2%float
           reachable_drained).
  vm_compute. reflexivity.
Defined.

Lemma worker_takes_first_items_witness :
  exists s',
    _process_queue Toy.platform 2 Toy.running = Ret Looping s'
    /\ length (q_items (queue (file_queue_processor s'))) = 3%nat
    /\ total_processed (stats (file_queue_processor s')) = 2.
Proof.
  destruct (worker_takes_first_items Toy.platform 2 Toy.running
              reachable_running eq_refl)
    as (s' & E & Hq & Ht & _).
  exists s'. split; [exact E |]. rewrite Hq, Ht. split; reflexivity.
Defined.
(** ** The service and the queue, call by call *)

Section CallByCall.

Context {World Model : Type}.
Variable P : Platform World Model.

Abbreviation Sys := (Sys World Model).

(** A text comes from [transcribe] without an error beside it. *)
Lemma transcribe_text_no_error file_path language (s s' : Sys) text err :
  transcribe P file_path language s = Ret (Some text, err) s' -> err = None.
Proof.
  rewrite transcribe_unfold.
  destruct (_load_model P s) as [[|] s1 | e s1 |]; try discriminate.
  unfold transcribe_loaded.
  destruct (time_time P (env s1)) as [t0 w0].
  destruct (model (whisper_service s1)) as [m |]; [| discriminate].
  destruct (model_transcribe P m file_path language w0) as [[e | texts] w1];
    [discriminate |].
  destruct (time_time P w1) as [t1 w2].
  destruct (float_div_int _ _); [discriminate |].
  cbn [fst snd]. congruence.
Qed.

(** The state a successful attempt leaves. *)
Lemma attempt_success_state file_path output_dir start_time (s s' : Sys) pt :
  process_attempt P file_path output_dir start_time s = Ret pt s' ->
  exists wav w text s1 s2,
    convert_to_wav P file_path (env s) = (inr (Some wav), w)
    /\ transcribe P wav None (set_env w s) = Ret (Some text, None) s1
    /\ is_blank (Some text) = false
    /\ _save_transcription P file_path text output_dir s1 = Ret tt s2
    /\ s' = set_env (snd (time_time P (env s2))) s2.
Proof.
  unfold process_attempt. unfold bind at 1, call.
  destruct (convert_to_wav P file_path (env s)) as [[e | [wav |]] w];
    try discriminate.
  unfold bind at 1.
  destruct (transcribe P wav None _) as [[text err] s1 | e s1 |] eqn:Ht;
    try discriminate.
  destruct (is_error err); [discriminate |].
  destruct (is_blank text) eqn:Hb; [discriminate |].
  destruct text as [text |]; [| discriminate].
  pose proof (transcribe_text_no_error _ _ _ _ _ _ Ht) as ->.
  unfold bind at 1.
  destruct (_save_transcription P _ _ _ s1) as [[] s2 | e s2 |] eqn:Hs;
    try discriminate.
  unfold bind, now, ret. intros H.
  exists wav, w, text, s1, s2. repeat split; trivial.
  destruct (time_time P (env s2)) as [t1 w1]. cbn in *.
  inversion H; subst. reflexivity.
Qed.

(** Without the library nothing touches the service. *)
Lemma process_attempt_unavailable file_path output_dir start_time (s : Sys) :
  FASTER_WHISPER_AVAILABLE P = false ->
  model (whisper_service s) = None ->
  match process_attempt P file_path output_dir start_time s with
  | Ret _ _ => False
  | Raise _ s' =>
      whisper_service s' = whisper_service s
      /\ file_queue_processor s' = file_queue_processor s
  | Hang => False
  end.
Proof.
  intros Ha Hm. unfold process_attempt. unfold bind at 1, call.
  destruct (convert_to_wav P file_path (env s)) as [[e | [wav |]] w];
    cbn; auto.
  unfold bind at 1. rewrite transcribe_unfold.
  rewrite (_load_model_unavailable P (set_env w s) Hm Ha). cbn. auto.
Qed.

(** [add_directory] leaves the service alone. *)
Lemma add_directory_service source_dir output_dir (s : Sys) :
  match add_directory P source_dir output_dir s with
  | Ret _ s' | Raise _ s' => whisper_service s' = whisper_service s
  | Hang => False
  end.
Proof.
  unfold add_directory. unfold bind at 1, ask.
  destruct (os_path_exists P source_dir (env s)); cbn [negb];
    [| reflexivity].
  unfold bind at 1, self. unfold bind at 1, call.
  destruct (os_makedirs P _ (env s)) as [[e | []] w]; [reflexivity |].
  unfold bind at 1, _find_audio_files. py_unfold.
  destruct (flat_map _ _) as [| f rest]; [reflexivity |].
  rewrite put_files_spec. cbn [env set_env].
  destruct (stamped P (f :: rest) _ w) as [items w2]. reflexivity.
Qed.

Lemma exec_unavailable op (s s' : Sys) :
  FASTER_WHISPER_AVAILABLE P = false ->
  model (whisper_service s) = None ->
  exec P op s = Some s' ->
  whisper_service s' = whisper_service s.
Proof.
  intros Ha Hm. destruct op; cbn [exec].
  - unfold start. py_unfold.
    destruct (is_running (file_queue_processor s)); cbn;
      intros E; injection E as <-; reflexivity.
  - unfold stop. py_unfold. cbn.
    destruct (processing_thread (file_queue_processor s)); cbn;
      intros E; injection E as <-; reflexivity.
  - pose proof (add_directory_service source_dir output_dir s) as Hv.
    destruct (add_directory P source_dir output_dir s) as [r s1 | e s1 |];
      cbn; intros E; [| | discriminate]; injection E as <-; exact Hv.
  - destruct (add_file_effect P file_path output_dir s)
      as (s1 & -> & Hv & _). intros E; injection E as <-; exact Hv.
  - rewrite get_status_keeps_state. intros E; injection E as <-; reflexivity.
  - unfold clear_queue. py_unfold. cbn.
    intros E; injection E as <-; reflexivity.
  - rewrite transcribe_unfold, (_load_model_unavailable P s Hm Ha). cbn.
    intros E; injection E as <-; reflexivity.
  - unfold is_ready, bind, service. rewrite Hm.
    rewrite (_load_model_unavailable P s Hm Ha). cbn.
    intros E; injection E as <-; reflexivity.
  - cbn [_process_queue]. unfold bind at 1, self.
    destruct (is_running (file_queue_processor s));
      [| cbn; intros E; injection E as <-; reflexivity].
    unfold bind at 1, ret.
    destruct (q_items (queue (file_queue_processor s)))
      as [| item rest] eqn:Hq.
    + rewrite (_process_queue_body_empty P s Hq). cbn.
      intros E; injection E as <-; reflexivity.
    + rewrite (_process_queue_body_cons P s item rest Hq).
      assert (Hf : match _process_file P item (dequeued rest s) with
                   | Ret _ s1 | Raise _ s1 =>
                       whisper_service s1 = whisper_service s
                   | Hang => False
                   end).
      { destruct (wellformed item) eqn:Hw.
        - destruct (wellformed_inv item Hw) as (fp & od & H1 & H2).
          rewrite (_process_file_wellformed P item fp od _ H1 H2).
          pose proof (begin_item_frame P fp (dequeued rest s)) as (Hv & _).
          destruct (begin_item P fp (dequeued rest s)) as [t0 s0].
          cbn [snd] in Hv.
          assert (Hm0 : model (whisper_service s0) = None)
            by (rewrite Hv; exact Hm).
          pose proof (process_attempt_unavailable fp od t0 s0 Ha Hm0) as Hp.
          destruct (process_attempt P fp od t0 s0) as [pt s1 | e s1 |];
            [contradiction | | contradiction].
          destruct Hp as (Hv1 & _). cbn. rewrite Hv1, Hv. reflexivity.
        - destruct (_process_file_malformed P item (dequeued rest s) Hw)
            as (e & s1 & -> & _ & Hv). exact Hv. }
      destruct (_process_file P item (dequeued rest s)) as [[] s1 | e s1 |];
        [| cbn; intros E; injection E as <-; exact Hf | contradiction].
      unfold queue_task_done. py_unfold.
      destruct (_ <? 0); cbn; intros E; injection E as <-; exact Hf.
Qed.

(** X8.  [transcribe] never raises: with no load in progress it returns
    either a text and no error, or no text and an error.  The text is
    trimmed and one more file is counted; with an error the error
    counter moves by one, except for the message [Model not available],
    which leaves the statistics as they were.  The processor is not
    touched. *)
Theorem transcribe_text_or_error file_path language (s : Sys) :
  idle s ->
  exists r s',
    transcribe P file_path language s = Ret r s'
    /\ file_queue_processor s' = file_queue_processor s
    /\ let st := ws_stats (whisper_service s) in
       let st' := ws_stats (whisper_service s') in
       match r with
       | (Some text, None) =>
           PyStr.strip text = text
           /\ ws_total_processed st' = ws_total_processed st + 1
           /\ ws_errors st' = ws_errors st
       | (None, Some e) =>
           (e = "Model not available" /\ st' = st)
           \/ ws_errors st' = ws_errors st + 1
       | _ => False
       end.
Proof.
  intros Hi.
  destruct (transcribe_effect P file_path language s Hi)
    as (r & s' & E & (Hp & _) & _ & _ & Hc).
  exists r, s'. split; [exact E |]. split; [exact Hp |].
  cbv zeta. unfold transcribe_counts in Hc.
  destruct r as [[text |] [e |]]; try contradiction.
  - destruct Hc as ((texts & ->) & Ht & He & _).
    split; [apply strip_strip | auto].
  - destruct Hc as [H | [-> | (dt & ex & _ & ->)]]; [left; exact H | |];
      right; reflexivity.
Qed.

(** X9.  Without the faster-whisper library the service never has a
    model: from a state without one, no operation loads one, [is_ready]
    answers [False], every [transcribe] answers [Model not available]
    without touching the state, and the worker fails every item it can
    convert with that message. *)
Theorem unavailable_library_fails_everything (s : Sys) :
  FASTER_WHISPER_AVAILABLE P = false ->
  model (whisper_service s) = None ->
  is_ready P s = Ret false s
  /\ (forall file_path language,
        transcribe P file_path language s
        = Ret (None, Some "Model not available") s)
  /\ (forall file_path output_dir start_time wav w,
        convert_to_wav P file_path (env s) = (inr (Some wav), w) ->
        process_attempt P file_path output_dir start_time s
        = Raise (ValueError "Transcription error: Model not available")
                (set_env w s))
  /\ (forall op s', exec P op s = Some s' ->
        model (whisper_service s') = None).
Proof.
  intros Ha Hm. split; [| split; [| split]].
  - unfold is_ready, bind, service. rewrite Hm.
    exact (_load_model_unavailable P s Hm Ha).
  - intros file_path language.
    rewrite transcribe_unfold, (_load_model_unavailable P s Hm Ha).
    reflexivity.
  - intros file_path output_dir start_time wav w Hc.
    unfold process_attempt. unfold bind at 1, call. rewrite Hc.
    unfold bind at 1. rewrite transcribe_unfold.
    rewrite (_load_model_unavailable P (set_env w s) Hm Ha). reflexivity.
  - intros op s' E. rewrite (exec_unavailable op s s' Ha Hm E). exact Hm.
Qed.

(** X10.  A transcription that is blank counts as a transcription for
    the service and as a failure for the worker: the attempt raises
    [Empty transcription result] after the service has counted one more
    file and no error. *)
Theorem blank_transcription_fails_item
    file_path output_dir start_time (s s1 : Sys) wav w text :
  idle s ->
  convert_to_wav P file_path (env s) = (inr (Some wav), w) ->
  transcribe P wav None (set_env w s) = Ret (Some text, None) s1 ->
  PyStr.strip text = "" ->
  process_attempt P file_path output_dir start_time s
  = Raise (ValueError "Empty transcription result") s1
  /\ ws_total_processed (ws_stats (whisper_service s1))
     = ws_total_processed (ws_stats (whisper_service s)) + 1
  /\ ws_errors (ws_stats (whisper_service s1))
     = ws_errors (ws_stats (whisper_service s)).
Proof.
  intros Hi Hc Ht Hb. split.
  - unfold process_attempt. unfold bind at 1, call. rewrite Hc.
    unfold bind at 1. rewrite Ht. cbn [is_error is_blank].
    rewrite Hb. cbn [PyStr.truthy]. rewrite orb_true_r. reflexivity.
  - assert (Hi' : idle (set_env w s)) by exact Hi.
    destruct (transcribe_effect P wav None (set_env w s) Hi')
      as (r & s' & E & _ & _ & _ & Hk).
    rewrite Ht in E. inversion E; subst r s'.
    destruct Hk as (_ & H1 & H2 & _). cbn in H1, H2. auto.
Qed.

(** X11.  For a file that exists and an output directory that can be
    created, [add_file] puts exactly one work item at the tail of the
    queue, for that path, with the output directory given or else the
    default one, stamped with the clock read after the directory was
    created; it refreshes [queue_size] and touches nothing else. *)
Theorem add_file_enqueues_one (s : Sys) file_path output_dir w1 :
  let p := file_queue_processor s in
  let out := match output_dir with
             | Some d => d
             | None => default_output_dir p
             end in
  os_path_exists P file_path (env s) = true ->
  os_makedirs P out (env s) = (inr tt, w1) ->
  add_file P file_path output_dir s
  = Ret tt
      (mkSys (snd (time_time P w1)) (whisper_service s)
         (mkProcessor
            (mkQueue (q_items (queue p)
                      ++ [make_item file_path out (fst (time_time P w1))])
                     (unfinished_tasks (queue p) + 1))
            (processing_thread p) (is_running p)
            (set_queue_size (Z.of_nat (length (q_items (queue p))) + 1)
                            (stats p))
            (supported_extensions p) (default_source_dir p)
            (default_output_dir p))
         (threads_created s)).
Proof.
  cbv zeta. intros Hex Hmk. unfold add_file. py_unfold. rewrite Hex.
  cbn [negb]. rewrite Hmk. cbn.
  destruct (time_time P w1) as [t w2]. cbn.
  rewrite length_app. cbn [length]. rewrite Nat2Z.inj_add. reflexivity.
Qed.

(** X12.  When the output directory cannot be created, [add_directory]
    and [add_file] pass the error of [os.makedirs] on to the caller;
    nothing is scanned and nothing is queued. *)
Theorem output_dir_failure_queues_nothing (s : Sys) path output_dir e w1 :
  let out := match output_dir with
             | Some d => d
             | None => default_output_dir (file_queue_processor s)
             end in
  os_path_exists P path (env s) = true ->
  os_makedirs P out (env s) = (inl e, w1) ->
  add_directory P path output_dir s = Raise e (set_env w1 s)
  /\ add_file P path output_dir s = Raise e (set_env w1 s).
Proof.
  cbv zeta. intros Hex Hmk. split.
  - unfold add_directory. py_unfold. rewrite Hex. cbn [negb].
    rewrite Hmk. reflexivity.
  - unfold add_file. py_unfold. rewrite Hex. cbn [negb].
    rewrite Hmk. reflexivity.
Qed.

(** X13.  [clear_queue] drops every queued item without processing it:
    the queue is empty and [queue_size] is zero, no counter of processed
    items moves, and the count of unfinished tasks stays as it was (the
    dropped items are never marked done).  A running worker then goes
    round its loop without changing anything. *)
Theorem clear_queue_drops_pending (s : Sys) :
  let p := file_queue_processor s in
  exists s',
    clear_queue s = Ret tt s'
    /\ q_items (queue (file_queue_processor s')) = []
    /\ unfinished_tasks (queue (file_queue_processor s'))
       = unfinished_tasks (queue p)
    /\ stats (file_queue_processor s') = set_queue_size 0 (stats p)
    /\ is_running (file_queue_processor s') = is_running p
    /\ whisper_service s' = whisper_service s
    /\ env s' = env s
    /\ (is_running p = true ->
        forall n, _process_queue P n s' = Ret Looping s').
Proof.
  cbv zeta. unfold clear_queue. py_unfold. cbn.
  eexists. split; [reflexivity |]. cbn. repeat split.
  intros Hr n. induction n as [| n IH]; [reflexivity |].
  cbn [_process_queue]. unfold bind at 1, self. cbn. rewrite Hr.
  unfold bind at 1.
  rewrite _process_queue_body_empty by reflexivity. exact IH.
Qed.

(** X14.  What the worker transcribes, the synchronous helper
    transcribes too: when the attempt of [_process_file] on a file
    succeeds from some state, [transcribe_audio] on that file from the
    same state returns a text that is not blank and no error, and the
    two leave the service in the same state. *)
Theorem worker_and_helper_agree
    file_path output_dir start_time (s s' : Sys) pt :
  process_attempt P file_path output_dir start_time s = Ret pt s' ->
  exists text s1,
    transcribe_audio P file_path s = Ret (Some text, None) s1
    /\ is_blank (Some text) = false
    /\ whisper_service s' = whisper_service s1
    /\ file_queue_processor s' = file_queue_processor s1.
Proof.
  intros H.
  destruct (attempt_success_state _ _ _ _ _ _ H)
    as (wav & w & text & s1 & s2 & Hc & Ht & Hb & Hs & ->).
  exists text, s1. rewrite transcribe_audio_unfold, Hc, Ht. cbn [is_error].
  split; [reflexivity |]. split; [exact Hb |].
  pose proof (_save_transcription_frame P file_path text output_dir s1) as F.
  rewrite Hs in F. destruct F as ((Hp & _) & Hv). cbn. auto.
Qed.

End CallByCall.
(** ** The helpers of [transformer.py] and the handlers of [app.py] *)

Section Endpoints.

Context {World Model : Type}.
Variable P : Platform World Model.
Variable W : Web World.

Abbreviation Sys := (Sys World Model).
Abbreviation App := (App World Model).

(** Unfold the plumbing of the handlers. *)
Ltac app_unfold :=
  cbv beta iota delta
    [on_engine update_service_stats try_except bind ret raise modify
     get_state set_engine set_service_stats].

Lemma truthy_nonempty (e : string) : PyStr.truthy e = true -> e <> "".
Proof. destruct e; [discriminate | discriminate]. Qed.

(** [handle_file_upload] comes back and leaves the engine alone. *)
Lemma handle_file_upload_frame clientId file segment_number (s : Sys) :
  match handle_file_upload P W clientId file segment_number s with
  | Ret _ s' | Raise _ s' =>
      whisper_service s' = whisper_service s
      /\ file_queue_processor s' = file_queue_processor s
  | Hang => False
  end.
Proof.
  unfold handle_file_upload, generate_filename.
  assert (H : match
      (let* filename :=
         let* segment_name := ask (getenv_default P "SEGMENT_NAME" "segment") in
         ret (clientId ++ "_" ++ segment_name ++ "_" ++ segment_number ++ ".wav") in
       call (os_makedirs P "uploads");;
       call (write_bytes W (PosixPath.join "uploads" filename) (content file));;
       ret (WStr (PosixPath.join "uploads" filename), WStr filename)) s
    with
    | Ret _ s' | Raise _ s' =>
        whisper_service s' = whisper_service s
        /\ file_queue_processor s' = file_queue_processor s
    | Hang => False
    end).
  { py_unfold.
    destruct (os_makedirs P "uploads" (env s)) as [[e | []] w]; cbn; auto.
    destruct (write_bytes W _ _ w) as [[e | []] w']; cbn; auto. }
  destruct (filename file) as [[| c r] |]; [cbn; auto | exact H | exact H].
Qed.

(** X15.  [transcribe_audio] never raises: with no load in progress it
    returns a pair and leaves the processor alone.  The pair is a
    trimmed text and no error, or no text and an error message that is
    not empty; or, when the service reported an error whose message is
    empty, neither a text nor an error, the service having counted one
    more error. *)
Theorem transcribe_audio_never_raises file_path (s : Sys) :
  idle s ->
  exists r s',
    transcribe_audio P file_path s = Ret r s'
    /\ file_queue_processor s' = file_queue_processor s
    /\ match r with
       | (Some text, None) => PyStr.strip text = text
       | (None, Some e) => e <> ""
       | (None, None) =>
           ws_errors (ws_stats (whisper_service s'))
           = ws_errors (ws_stats (whisper_service s)) + 1
       | (Some _, Some _) => False
       end.
Proof.
  intros Hi. rewrite transcribe_audio_unfold.
  destruct (convert_to_wav P file_path (env s)) as [[e | [wav |]] w].
  - eexists _, _. split; [reflexivity |]. split; [reflexivity |].
    cbn. rewrite append_cons. discriminate.
  - assert (Hi' : idle (set_env w s)) by exact Hi.
    destruct (transcribe_effect P wav None (set_env w s) Hi')
      as ([t e] & s1 & -> & (Hp & _) & _ & _ & Hc).
    unfold transcribe_counts in Hc.
    destruct t as [text |], e as [e |]; try contradiction.
    + cbn [is_error]. eexists _, _. split; [reflexivity |].
      split; [exact Hp |].
      destruct Hc as ((texts & ->) & _). apply strip_strip.
    + cbn [is_error]. destruct (PyStr.truthy e) eqn:He.
      * eexists _, _. split; [reflexivity |]. split; [exact Hp |].
        apply truthy_nonempty, He.
      * eexists _, _. split; [reflexivity |]. split; [exact Hp |].
        destruct Hc as [(-> & _) | [-> | (dt & ex & _ & ->)]];
          [discriminate He | reflexivity | reflexivity].
  - eexists _, _. split; [reflexivity |]. split; [reflexivity |].
    discriminate.
Qed.

(** X16.  An upload whose file name is the empty string is refused
    without touching anything.  Any other upload is written, after
    [uploads] was created, under the name
    [<clientId>_<SEGMENT_NAME>_<segment_number>.wav], inside [uploads]
    unless [clientId] starts with a slash; then the path is that name
    itself, outside [uploads]. *)
Theorem upload_goes_where_client_id_says
    clientId (file : UploadFile) segment_number (s : Sys) :
  let name :=
    clientId ++ "_" ++ getenv_default P "SEGMENT_NAME" "segment" (env s)
    ++ "_" ++ segment_number ++ ".wav" in
  let path :=
    if PyStr.startswith PosixPath.sep clientId then name
    else "uploads/" ++ name in
  (filename file = Some "" ->
   handle_file_upload P W clientId file segment_number s
   = Ret (WDict [("error", "No selected file")], WInt 400) s)
  /\ (filename file <> Some "" ->
      handle_file_upload P W clientId file segment_number s
      = match os_makedirs P "uploads" (env s) with
        | (inl e, w) => Raise e (set_env w s)
        | (inr _, w) =>
            match write_bytes W path (content file) w with
            | (inl e, w') => Raise e (set_env w' s)
            | (inr _, w') => Ret (WStr path, WStr name) (set_env w' s)
            end
        end).
Proof.
  cbv zeta. split.
  - intros H. unfold handle_file_upload. rewrite H. reflexivity.
  - intros H.
    assert (E : PosixPath.join "uploads"
                  (clientId ++ "_"
                   ++ getenv_default P "SEGMENT_NAME" "segment" (env s)
                   ++ "_" ++ segment_number ++ ".wav")
                = if PyStr.startswith PosixPath.sep clientId
                  then clientId ++ "_"
                       ++ getenv_default P "SEGMENT_NAME" "segment" (env s)
                       ++ "_" ++ segment_number ++ ".wav"
                  else "uploads/" ++ clientId ++ "_"
                       ++ getenv_default P "SEGMENT_NAME" "segment" (env s)
                       ++ "_" ++ segment_number ++ ".wav").
    { unfold PosixPath.join. rewrite upload_name_starts.
      destruct (PyStr.startswith PosixPath.sep clientId); reflexivity. }
    unfold handle_file_upload, generate_filename.
    destruct (filename file) as [[| c r] |]; [congruence | |];
      py_unfold; rewrite E;
      destruct (os_makedirs P "uploads" (env s)) as [[e | []] w];
      try reflexivity;
      cbn [env set_env];
      destruct (write_bytes W _ (content file) w) as [[e | []] w'];
      reflexivity.
Qed.

(** X17.  [/transcribe] never answers with a transcription.  Every
    request ends in an HTTP exception and is counted in
    [total_requests] and never in [successful_requests]; the service
    and the processor are as before.  When the upload was stored, the
    exception is the 500 made from the [TypeError] of calling
    [transcribe_audio] with two arguments, the request is counted as
    failed, and the engine is left as the upload left it: the stored
    file is not removed. *)
Theorem transcribe_endpoint_always_fails
    (a : App) file client_id segment_number language :
  exists e a',
    transcribe_endpoint P W file client_id segment_number language a
    = Raise e a'
    /\ exn_class e = "HTTPException"
    /\ total_requests (service_stats a')
       = total_requests (service_stats a) + 1
    /\ successful_requests (service_stats a')
       = successful_requests (service_stats a)
    /\ processor_set a' = processor_set a
    /\ whisper_service (engine a') = whisper_service (engine a)
    /\ file_queue_processor (engine a') = file_queue_processor (engine a)
    /\ forall filepath filename s1,
         handle_file_upload P W client_id file segment_number
           (set_env (snd (time_time P (env (engine a)))) (engine a))
         = Ret (filepath, filename) s1 ->
         e = HTTPException_500
               ("Internal server error: "
                ++ "transcribe_audio() takes 1 positional argument "
                ++ "but 2 were given")
         /\ engine a' = s1
         /\ failed_requests (service_stats a')
            = failed_requests (service_stats a) + 1.
Proof.
  unfold transcribe_endpoint, call_transcribe_audio, now. app_unfold.
  destruct (time_time P (env (engine a))) as [t w0].
  cbn [snd engine processor_set service_stats].
  pose proof (handle_file_upload_frame client_id file segment_number
                (set_env w0 (engine a))) as F.
  destruct (handle_file_upload P W client_id file segment_number
              (set_env w0 (engine a))) as [[fp fn] s1 | e s1 |];
    [| | contradiction].
  - cbn. eexists _, _. split; [reflexivity |]. cbn.
    destruct F as (F1 & F2).
    do 6 (split; [first [reflexivity | assumption] |]).
    intros filepath filename s2 E. inversion E; subst.
    repeat split; reflexivity.
  - destruct F as (F1 & F2).
    destruct (String.eqb (exn_class e) "HTTPException") eqn:Hc.
    + eexists _, _. split; [reflexivity |]. cbn.
      apply String.eqb_eq in Hc.
      do 6 (split; [first [reflexivity | assumption] |]).
      intros filepath filename s2 E. discriminate E.
    + eexists _, _. split; [reflexivity |]. cbn.
      do 6 (split; [first [reflexivity | assumption] |]).
      intros filepath filename s2 E. discriminate E.
Qed.

(** X18.  The queue endpoints answer 503 until the service has started.
    [startup_event], with no load in progress, comes back and leaves a
    new processor, running, with nothing queued and nothing counted:
    [/queue/status] then reports exactly that. *)
Theorem queue_endpoints_need_startup (a : App) :
  idle (engine a) ->
  (processor_set a = false ->
   get_queue_status a
   = Raise (HTTPException_503 "File queue processor not available") a
   /\ forall source_dir output_dir,
        add_to_queue P source_dir output_dir a
        = Raise (HTTPException_503 "File queue processor not available") a)
  /\ exists a',
       startup_event P a = Ret tt a'
       /\ processor_set a' = true
       /\ idle (engine a')
       /\ service_stats a' = service_stats a
       /\ get_queue_status a'
          = Ret (mkStatus true 0 None 0 0 0 0%float (NumInt 0)) a'.
Proof.
  intros Hi. split.
  - intros Hp. split.
    + unfold get_queue_status. app_unfold. rewrite Hp. reflexivity.
    + intros source_dir output_dir. unfold add_to_queue. app_unfold.
      rewrite Hp. reflexivity.
  - destruct (is_ready_effect P (engine a) Hi)
      as (b & s1 & E & _ & Hi1 & _).
    unfold startup_event. app_unfold. rewrite E.
    unfold start. py_unfold. cbn.
    eexists. split; [reflexivity |]. cbn.
    split; [reflexivity |]. split; [exact Hi1 |]. split; [reflexivity |].
    unfold get_queue_status, get_status. app_unfold. py_unfold. cbn.
    reflexivity.
Qed.

(** X19.  Once the service has started, [/queue/add] answers with what
    [add_directory] did: when it returned, the answer carries the number
    it returned (none for a directory without audio files) and, as
    [queue_size], the number of items then queued; when it raised, the
    answer is a 500 whose detail is [Error adding to queue: ] followed
    by the message of the exception. *)
Theorem add_to_queue_reports (a : App) source_dir output_dir :
  processor_set a = true ->
  match add_to_queue P source_dir output_dir a with
  | Ret r a' =>
      add_directory P source_dir output_dir (engine a)
      = Ret (qa_files_added r) (engine a')
      /\ qa_success r = true
      /\ qa_message r = "Directory added to queue: " ++ source_dir
      /\ qa_queue_size r
         = Z.of_nat (length (q_items (queue (file_queue_processor
                                               (engine a')))))
      /\ service_stats a' = service_stats a
  | Raise e a' =>
      exists cause,
        add_directory P source_dir output_dir (engine a)
        = Raise cause (engine a')
        /\ e = HTTPException_500
                 ("Error adding to queue: " ++ str_of_exn cause)
        /\ service_stats a' = service_stats a
  | Hang => False
  end.
Proof.
  intros Hp. unfold add_to_queue. app_unfold. rewrite Hp. cbn [negb].
  pose proof (add_directory_service P source_dir output_dir (engine a)) as F.
  destruct (add_directory P source_dir output_dir (engine a))
    as [n s1 | e s1 |]; [| | contradiction].
  - unfold queue_qsize. py_unfold. cbn. repeat split.
  - cbn. exists e. repeat split.
Qed.

(** X20.  [/health] comes back when no load is in progress, and when it
    says [healthy] the model is there: [model_ready] is true and the
    statistics it carries say [model_loaded].  It reports the counters
    of the service and of the requests as they are. *)
Theorem healthy_means_model_ready (a : App) :
  idle (engine a) ->
  exists h a',
    health_check P a = Ret h a'
    /\ (h_status h = "healthy" ->
        h_model_ready h = true /\ model_loaded (h_whisper_stats h) = true)
    /\ report_stats (h_whisper_stats h)
       = ws_stats (whisper_service (engine a))
    /\ h_service_stats h = service_stats a
    /\ service_stats a' = service_stats a
    /\ file_queue_processor (engine a') = file_queue_processor (engine a).
Proof.
  intros Hi.
  destruct (is_ready_effect P (engine a) Hi)
    as (b1 & s1 & E1 & (Hp1 & _) & Hi1 & _ & Hst1 & Hm1).
  destruct (is_ready_effect P s1 Hi1)
    as (b2 & s2 & E2 & (Hp2 & _) & Hi2 & _ & Hst2 & Hm2).
  unfold health_check, uptime, get_stats, now. app_unfold. py_unfold.
  rewrite E1. cbn [engine processor_set service_stats].
  rewrite E2. cbn [engine processor_set service_stats].
  destruct (time_time P (env s2)) as [t w]. cbn.
  eexists _, _. split; [reflexivity |]. cbn.
  split; [| split; [congruence | split; [reflexivity |
             split; [reflexivity | congruence]]]].
  destruct b1; [| discriminate]. intros _.
  destruct (Hm1 eq_refl) as (m & Hm).
  rewrite (is_ready_loaded P s1 m Hm) in E2. inversion E2; subst b2 s2.
  rewrite Hm. split; reflexivity.
Qed.

End Endpoints.
(** ** The properties above, on the sample runs *)

Lemma transcribe_text_or_error_witness :
  exists r s',
    transcribe Toy.platform "/in/a.wav" None Toy.running = Ret r s'
    /\ file_queue_processor s' = file_queue_processor Toy.running.
Proof.
  destruct (transcribe_text_or_error Toy.platform "/in/a.wav" None
              Toy.running)
    as (r & s' & E & Hp & _).
  - reflexivity.
  - exists r, s'. split; [exact E | exact Hp].
Defined.

Lemma unavailable_library_fails_everything_witness :
  is_ready ToyWeb.bare ToyWeb.bare0 = Ret false ToyWeb.bare0
  /\ transcribe ToyWeb.bare "/in/a.wav" None ToyWeb.bare0
     = Ret (None, Some "Model not available") ToyWeb.bare0.
Proof.
  destruct (unavailable_library_fails_everything ToyWeb.bare ToyWeb.bare0
              eq_refl eq_refl)
    as (H1 & H2 & _).
  split; [exact H1 | exact (H2 "/in/a.wav" None)].
Defined.

Lemma blank_transcription_fails_item_witness :
  process_attempt Toy.platform "/in/silent.wav" (PStr "/out") 100%float
                  Toy.sys0
  = Raise (ValueError "Empty transcription result") ToyWeb.hushed
  /\ ws_total_processed (ws_stats (whisper_service ToyWeb.hushed)) = 1.
Proof.
  destruct (blank_transcription_fails_item Toy.platform "/in/silent.wav"
              (PStr "/out") 100%float Toy.sys0 ToyWeb.hushed
              "/in/silent.wav" Toy.world0 "")
    as (H1 & H2 & _).
  - reflexivity.
  - vm_compute. reflexivity.
  - vm_compute. reflexivity.
  - reflexivity.
  - split; [exact H1 | exact H2].
Defined.

Lemma add_file_enqueues_one_witness :
  exists s',
    add_file Toy.platform "/in/a.wav" None Toy.sys0 = Ret tt s'
    /\ map (fun i : Item => (i !! "file_path", i !! "output_dir"))
           (q_items (queue (file_queue_processor s')))
       = [(Some (PStr "/in/a.wav"), Some (PStr "./output"))].
Proof.
  eexists. split.
  - apply (add_file_enqueues_one Toy.platform Toy.sys0 "/in/a.wav" None
             (snd (os_makedirs Toy.platform "./output" Toy.world0)));
      vm_compute; reflexivity.
  - vm_compute. reflexivity.
Defined.

Lemma output_dir_failure_queues_nothing_witness :
  add_directory Toy.platform "/in" (Some "/ro/out") Toy.sys0
  = Raise (Toy.OSError "Read-only file system") Toy.sys0
  /\ add_file Toy.platform "/in" (Some "/ro/out") Toy.sys0
     = Raise (Toy.OSError "Read-only file system") Toy.sys0.
Proof.
  apply (output_dir_failure_queues_nothing Toy.platform Toy.sys0 "/in"
           (Some "/ro/out") (Toy.OSError "Read-only file system")
           Toy.world0);
    vm_compute; reflexivity.
Defined.

Lemma worker_and_helper_agree_witness :
  exists text s1,
    transcribe_audio Toy.platform "/in/speech.wav" Toy.sys0
    = Ret (Some text, None) s1
    /\ is_blank (Some text) = false.
Proof.
  assert (E : process_attempt Toy.platform "/in/speech.wav" (PStr "/out")
                100%float Toy.sys0
              = Ret 8%float Toy.spoken) by (vm_compute; reflexivity).
  destruct (worker_and_helper_agree Toy.platform "/in/speech.wav"
              (PStr "/out") 100%float Toy.sys0 Toy.spoken 8%float E)
    as (text & s1 & H1 & H2 & _).
  exists text, s1. split; [exact H1 | exact H2].
Defined.

Lemma transcribe_audio_never_raises_witness :
  exists r s',
    transcribe_audio Toy.platform "/in/noisy.wav" Toy.sys0 = Ret r s'
    /\ file_queue_processor s' = file_queue_processor Toy.sys0.
Proof.
  destruct (transcribe_audio_never_raises Toy.platform "/in/noisy.wav"
              Toy.sys0)
    as (r & s' & E & Hp & _).
  - reflexivity.
  - exists r, s'. split; [exact E | exact Hp].
Defined.

Lemma upload_goes_where_client_id_says_witness :
  handle_file_upload Toy.platform ToyWeb.web "/srv/www/x" ToyWeb.clip "7"
                     Toy.sys0
  = Ret (WStr "/srv/www/x_segment_7.wav", WStr "/srv/www/x_segment_7.wav")
        ToyWeb.uploaded.
Proof.
  pose proof (upload_goes_where_client_id_says Toy.platform ToyWeb.web
                "/srv/www/x" ToyWeb.clip "7" Toy.sys0) as H.
  cbv zeta in H. destruct H as (_ & H).
  rewrite H; [vm_compute; reflexivity | discriminate].
Defined.

Lemma queue_endpoints_need_startup_witness :
  get_queue_status ToyWeb.app0
  = Raise (HTTPException_503 "File queue processor not available")
          ToyWeb.app0
  /\ exists a',
       startup_event Toy.platform ToyWeb.app0 = Ret tt a'
       /\ get_queue_status a'
          = Ret (mkStatus true 0 None 0 0 0 0%float (NumInt 0)) a'.
Proof.
  destruct (queue_endpoints_need_startup Toy.platform ToyWeb.app0)
    as (H1 & a' & E & _ & _ & _ & H2).
  - reflexivity.
  - split; [exact (proj1 (H1 eq_refl)) |].
    exists a'. split; [exact E | exact H2].
Defined.

Lemma add_to_queue_reports_witness :
  match add_to_queue Toy.platform "/in" (Some "/out") ToyWeb.started with
  | Ret r a' =>
      qa_success r = true
      /\ qa_queue_size r
         = Z.of_nat (length (q_items (queue (file_queue_processor
                                               (engine a')))))
  | Raise e a' => exn_class e = "HTTPException"
  | Hang => False
  end.
Proof.
  pose proof (add_to_queue_reports Toy.platform ToyWeb.started "/in"
                (Some "/out") eq_refl) as H.
  destruct (add_to_queue Toy.platform "/in" (Some "/out") ToyWeb.started)
    as [r a' | e a' |].
  - destruct H as (_ & H1 & _ & H2 & _). split; [exact H1 | exact H2].
  - destruct H as (cause & _ & -> & _). reflexivity.
  - exact H.
Defined.

Lemma healthy_means_model_ready_witness :
  exists h a',
    health_check Toy.platform ToyWeb.started = Ret h a'
    /\ h_service_stats h = service_stats ToyWeb.started.
Proof.
  destruct (healthy_means_model_ready Toy.platform ToyWeb.started)
    as (h & a' & E & _ & _ & H & _).
  - reflexivity.
  - exists h, a'. split; [exact E | exact H].
Defined.

(** The answer of [/queue/add] for [/in] on the started service. *)
Example add_to_queue_in :
  match add_to_queue Toy.platform "/in" (Some "/out") ToyWeb.started with
  | Ret r _ =>
      r = mkQueueAdded true "Directory added to queue: /in" (Some 5) 5
  | _ => False
  end.
Proof. vm_compute. reflexivity. Qed.

(** A request to [/transcribe] on the started service: the answer is
    the 500 of the [TypeError], and the upload is still on disk. *)
Example upload_left_behind :
  transcribe_endpoint Toy.platform ToyWeb.web ToyWeb.clip "alice" "7" None
                      ToyWeb.started
  = Raise (HTTPException_500
             ("Internal server error: "
              ++ "transcribe_audio() takes 1 positional argument "
              ++ "but 2 were given"))
          ToyWeb.answered
  /\ Toy.tw_files (env (engine ToyWeb.answered))
     !! "uploads/alice_segment_7.wav" = Some "OggS"
  /\ failed_requests (service_stats ToyWeb.answered) = 1.
Proof. repeat split; vm_compute; reflexivity. Qed.

(** [/health] on the started service says [healthy]. *)
Example health_of_started :
  match health_check Toy.platform ToyWeb.started with
  | Ret h _ => h_status h = "healthy" /\ h_model_ready h = true
  | _ => False
  end.
Proof. vm_compute. split; reflexivity. Qed.
